(** * Session manager of the Claude agent deployment

    A shallow embedding of [deployments/claude-agent/src/agent_manager.py]:
    the [AgentSession] and [AgentManager] classes, the retry decorator that
    wraps [process_request], and the streaming generator; and of the
    endpoints of [agent_server.py] that call the manager.

    Conventions.
    - Python [int] is [Z]; [len] is [Z.of_nat (size _)].
    - A Python [dict] keyed by strings is a [gmap string _].  For
      [self.sessions] the manager also keeps the keys in insertion order,
      which [get_stats] reads when it takes the first key.  The reap pass
      collects the expired ids from the map; its per-session debug lines
      come out here in the map's key order, and nothing below depends on
      their order.
    - [time.time()] reads the field [clock] of the world.  The clock only moves
      at suspension points: a provider call takes the latency the environment
      gives it, a sleep takes the delay asked for.  The one exception is the
      expression of [get_stats] that subtracts a later reading from an
      earlier one: there the time between the two readings is an argument.
    - An exception is an instance of [Exception] ([exn]) or another
      [BaseException] ([base_exn]); the provider can raise either, and only
      the first kind is caught by [except Exception] and retried by
      tenacity.
    - The coroutines are run one at a time, to completion: no other task is
      interleaved at an [await], and [async with self.session_lock] is the
      plain block it guards.
    - The completion provider, [uuid.uuid4] and the clock are the environment:
      an [Env] gives the outcome of the k-th call of each. *)

From stdpp Require Import gmap strings list fin_maps pretty.
From Stdlib Require Import ZArith Lia Ascii.

Open Scope Z_scope.

(** ** Python values and exceptions *)

Module Py.

(** The values that reach a log line or come back from a method that has no
    [return] statement. *)
Inductive value :=
| PNone
| PStr (s : string)
| PInt (z : Z).

(** A float that is only passed through to the provider. *)
Inductive float := Float (mantissa exponent : Z).

(** An exception object that is an instance of [Exception]: an instance of
    the class named [cls], derived from [Exception], whose [str()] is [msg],
    or tenacity's [RetryError] holding the outcome of the last attempt. *)
Inductive exn :=
| Exc (cls msg : string)
| RetryError (last_attempt : exn).

(** An exception object that is not an instance of [Exception]:
    [asyncio.CancelledError], [KeyboardInterrupt], [SystemExit],
    [GeneratorExit].  A clause [except Exception] does not catch it, and
    tenacity's default [retry_if_exception_type()] does not retry it. *)
Inductive base_exn := BaseExc (cls msg : string).

(** [asyncio.CancelledError()] *)
Definition CancelledError : base_exn := BaseExc "CancelledError" "".

(** Any exception object. *)
Inductive raised :=
| OfException (e : exn)
| OfBaseException (b : base_exn).

(** [type(e).__name__] *)
Definition type_name (e : exn) : string :=
  match e with
  | Exc cls _ => cls
  | RetryError _ => "RetryError"
  end.

(** [str(e)].  For a [RetryError] the text is the class name around the repr
    of the finished future; the object address of that repr is left out. *)
Definition str (e : exn) : string :=
  match e with
  | Exc _ msg => msg
  | RetryError last =>
      "RetryError[<Future state=finished raised " +:+ type_name last +:+ ">]"
  end.

(** [a or b] on an [Optional[str]]: [None] and the empty string are falsy. *)
Definition or_str (a : option string) (b : string) : string :=
  match a with
  | Some s => if bool_decide (s = "") then b else s
  | None => b
  end.

(** [a or []] on an [Optional[list]]. *)
Definition or_list {A} (a : option (list A)) : list A :=
  match a with
  | Some (x :: l) => x :: l
  | _ => []
  end.

(** The outcome of running a piece of code: it returns, it raises an
    instance of [Exception], or it raises another [BaseException]. *)
Inductive result (A : Type) :=
| Returned (a : A)
| Raised (e : exn)
| RaisedBase (b : base_exn).
Arguments Returned {A} a.
Arguments Raised {A} e.
Arguments RaisedBase {A} b.

End Py.
Export Py.

(** ** Data model *)

(** One entry of [message_history]: [{"role": role, "content": content}]. *)
Record message := Message { role : string; content : string }.

(** [token_usage]: the dict with the three keys "input", "output", "total". *)
Record token_usage_t := TokenUsage { input : Z; output : Z; total : Z }.

Record AgentSession := MkSession {
  session_id : string;
  user_id : string;
  system_prompt : option string;
  created_at : Z;
  last_activity : Z;
  message_history : list message;
  token_usage : token_usage_t
}.

(** [self.stats] of the manager; [errors] is the [defaultdict(int)]. *)
Record Stats := MkStats {
  total_requests : Z;
  total_tokens : Z;
  total_sessions : Z;
  active_sessions : Z;
  errors : gmap string Z
}.

(** [self.sessions] is a [dict], which keeps its keys in the order in which
    they were inserted: [sessions] holds what is stored under each key and
    [session_keys] the keys in insertion order. *)
Record AgentManager := MkManager {
  sessions : gmap string AgentSession;
  session_keys : list string;
  max_concurrent_sessions : Z;
  session_timeout : Z;
  is_shutting_down : bool;
  stats : Stats
}.

(** The request object handed over by the server layer ([AgentRequest]). *)
Record AgentRequest := MkRequest {
  prompt : string;
  req_user_id : string;
  max_tokens : Z;
  temperature : Py.float;
  stream : bool;
  tools : option (list string);
  req_system_prompt : option string
}.

(** ** The completion provider *)

(** A content block of a response; only text blocks have a [text] attribute. *)
Inductive block :=
| TextBlock (text : string)
| ToolUseBlock (name : string).

Record Usage := MkUsage { input_tokens : Z; output_tokens : Z }.

Record Response := MkResponse { resp_content : list block; resp_usage : Usage }.

(** The arguments of [client.messages.create] and [client.messages.stream]
    ([tools] is absent from the streaming call). *)
Record provider_call := MkCall {
  call_max_tokens : Z;
  call_temperature : Py.float;
  call_system : string;
  call_messages : list message;
  call_tools : option (list string)
}.

(** What one call of [client.messages.create] does: it takes [create_latency]
    on the clock and returns a response or raises. *)
Record create_outcome := MkCreateOutcome {
  create_latency : Z;
  create_result : result Response
}.

(** What one use of [client.messages.stream] does: [text_stream] yields the
    fragments and then either ends or raises [text_stream_raises];
    [get_final_message] returns the usage or raises. *)
Record stream_outcome := MkStreamOutcome {
  stream_latency : Z;
  text_stream : list string;
  text_stream_raises : option raised;
  get_final_message : result Usage
}.

Record Env := MkEnv {
  env_uuid4 : nat -> string;
  env_create : nat -> create_outcome;
  env_stream : nat -> stream_outcome
}.

(** ** Observable events *)

Inductive event :=
| EvLog (level msg : string) (fields : list (string * Py.value))
| EvSleep (seconds : Z)
| EvAttempt (attempt_number : nat)
| EvCreate (call : provider_call)
| EvStream (call : provider_call)
| EvYield (chunk : string).

Record World := MkWorld {
  mgr : AgentManager;
  clock : Z;
  n_uuid : nat;
  n_create : nat;
  n_stream : nat;
  trace : list event
}.

(** Field updates. *)
Definition set_sessions (f : gmap string AgentSession -> gmap string AgentSession)
    (m : AgentManager) : AgentManager :=
  MkManager (f (sessions m)) (session_keys m) (max_concurrent_sessions m)
            (session_timeout m) (is_shutting_down m) (stats m).

Definition set_session_keys (f : list string -> list string) (m : AgentManager)
    : AgentManager :=
  MkManager (sessions m) (f (session_keys m)) (max_concurrent_sessions m)
            (session_timeout m) (is_shutting_down m) (stats m).

Definition set_stats (f : Stats -> Stats) (m : AgentManager) : AgentManager :=
  MkManager (sessions m) (session_keys m) (max_concurrent_sessions m)
            (session_timeout m) (is_shutting_down m) (f (stats m)).

Definition set_mgr (f : AgentManager -> AgentManager) (w : World) : World :=
  MkWorld (f (mgr w)) (clock w) (n_uuid w) (n_create w) (n_stream w) (trace w).

Definition set_clock (f : Z -> Z) (w : World) : World :=
  MkWorld (mgr w) (f (clock w)) (n_uuid w) (n_create w) (n_stream w) (trace w).

Definition add_event (e : event) (w : World) : World :=
  MkWorld (mgr w) (clock w) (n_uuid w) (n_create w) (n_stream w) (trace w ++ [e]).

(** ** The monad of the coroutines: environment, world, exceptions *)

Definition M (A : Type) : Type := Env -> World -> result A * World.

Definition ret {A} (a : A) : M A := fun _ w => (Returned a, w).

Definition bind {A B} (c : M A) (k : A -> M B) : M B :=
  fun E w =>
    match c E w with
    | (Returned a, w') => k a E w'
    | (Raised e, w') => (Raised e, w')
    | (RaisedBase b, w') => (RaisedBase b, w')
    end.

Definition raise {A} (e : exn) : M A := fun _ w => (Raised e, w).

Definition raise_base {A} (b : base_exn) : M A := fun _ w => (RaisedBase b, w).

(** [try: body except Exception as e: handler e]; an exception that is not
    an instance of [Exception] passes the clause. *)
Definition try_except {A} (body : M A) (handler : exn -> M A) : M A :=
  fun E w =>
    match body E w with
    | (Returned a, w') => (Returned a, w')
    | (Raised e, w') => handler e E w'
    | (RaisedBase b, w') => (RaisedBase b, w')
    end.

Notation "x <- c ;; k" := (bind c (fun x => k))
  (at level 100, c at next level, right associativity).
Notation "c ;; k" := (bind c (fun _ => k))
  (at level 100, right associativity).

Definition get : M World := fun _ w => (Returned w, w).
Definition modify (f : World -> World) : M unit := fun _ w => (Returned tt, f w).
Definition emit (e : event) : M unit := modify (add_event e).

(** [time.time()] *)
Definition time_time : M Z := fun _ w => (Returned (clock w), w).

(** [str(uuid.uuid4())] *)
Definition uuid4 : M string :=
  fun E w =>
    (Returned (env_uuid4 E (n_uuid w)),
     MkWorld (mgr w) (clock w) (S (n_uuid w)) (n_create w) (n_stream w) (trace w)).

(** [await asyncio.sleep(seconds)] *)
Definition asyncio_sleep (seconds : Z) : M unit :=
  emit (EvSleep seconds) ;; modify (set_clock (fun t => t + seconds)).

(** [await self.client.messages.create(...)] *)
Definition messages_create (call : provider_call) : M Response :=
  fun E w =>
    let o := env_create E (n_create w) in
    (create_result o,
     MkWorld (mgr w) (clock w + create_latency o) (n_uuid w) (S (n_create w))
             (n_stream w) (trace w ++ [EvCreate call])).

(** Entering [self.client.messages.stream(...)]: the outcome of this use of
    the stream is fixed by the environment. *)
Definition messages_stream (call : provider_call) : M stream_outcome :=
  fun E w =>
    let o := env_stream E (n_stream w) in
    (Returned o,
     MkWorld (mgr w) (clock w) (n_uuid w) (n_create w) (S (n_stream w))
             (trace w ++ [EvStream call])).

Definition logger (level msg : string) (fields : list (string * Py.value)) : M unit :=
  emit (EvLog level msg fields).

Fixpoint for_each {A} (l : list A) (body : A -> M unit) : M unit :=
  match l with
  | [] => ret tt
  | x :: l' => body x ;; for_each l' body
  end.

(** A list comprehension with a condition that runs code. *)
Fixpoint filter_m {A} (cond : A -> M bool) (l : list A) : M (list A) :=
  match l with
  | [] => ret []
  | x :: l' =>
      b <- cond x ;;
      r <- filter_m cond l' ;;
      ret (if b then x :: r else r)
  end.

(** ** class AgentSession *)

Definition set_last_activity (t : Z) (s : AgentSession) : AgentSession :=
  MkSession (session_id s) (user_id s) (system_prompt s) (created_at s) t
            (message_history s) (token_usage s).

Definition set_message_history (h : list message) (s : AgentSession) : AgentSession :=
  MkSession (session_id s) (user_id s) (system_prompt s) (created_at s)
            (last_activity s) h (token_usage s).

Definition set_token_usage (u : token_usage_t) (s : AgentSession) : AgentSession :=
  MkSession (session_id s) (user_id s) (system_prompt s) (created_at s)
            (last_activity s) (message_history s) u.

(** [AgentSession.__init__]: both timestamps are readings of the clock. *)
Definition AgentSession_init (session_id user_id : string)
    (system_prompt : option string) : M AgentSession :=
  t_created <- time_time ;;
  t_activity <- time_time ;;
  ret (MkSession session_id user_id system_prompt t_created t_activity []
                 (TokenUsage 0 0 0)).

Definition update_activity (self : AgentSession) : M AgentSession :=
  now <- time_time ;;
  ret (set_last_activity now self).

Definition add_message (role content : string) (self : AgentSession) : M AgentSession :=
  update_activity
    (set_message_history (message_history self ++ [Message role content]) self).

(** [usage.get(key, 0)] *)
Definition dict_get (usage : gmap string Z) (key : string) (dflt : Z) : Z :=
  default dflt (usage !! key).

Definition update_token_usage (usage : gmap string Z) (self : AgentSession) : AgentSession :=
  let u := token_usage self in
  let input' := input u + dict_get usage "input_tokens" 0 in
  let output' := output u + dict_get usage "output_tokens" 0 in
  set_token_usage (TokenUsage input' output' (input' + output')) self.

Definition is_expired (timeout : Z) (self : AgentSession) : M bool :=
  now <- time_time ;;
  ret (bool_decide (now - last_activity self > timeout)).

(** ** class AgentManager *)

(** [AgentManager.__init__], without the client and the background task. *)
Definition AgentManager_init (max_concurrent_sessions session_timeout : Z) : AgentManager :=
  MkManager ∅ [] max_concurrent_sessions session_timeout false
            (MkStats 0 0 0 0 ∅).

Definition len_sessions (w : World) : Z := Z.of_nat (size (sessions (mgr w))).

(** Updates of [self.stats]. *)
Definition add_total_requests (n : Z) (s : Stats) : Stats :=
  MkStats (total_requests s + n) (total_tokens s) (total_sessions s)
          (active_sessions s) (errors s).

Definition add_total_tokens (n : Z) (s : Stats) : Stats :=
  MkStats (total_requests s) (total_tokens s + n) (total_sessions s)
          (active_sessions s) (errors s).

Definition add_total_sessions (n : Z) (s : Stats) : Stats :=
  MkStats (total_requests s) (total_tokens s) (total_sessions s + n)
          (active_sessions s) (errors s).

Definition set_active_sessions (n : Z) (s : Stats) : Stats :=
  MkStats (total_requests s) (total_tokens s) (total_sessions s) n (errors s).

(** [self.stats["errors"][name] += 1] on the [defaultdict(int)]. *)
Definition count_error (name : string) (s : Stats) : Stats :=
  MkStats (total_requests s) (total_tokens s) (total_sessions s)
          (active_sessions s)
          (<[name := default 0 (errors s !! name) + 1]> (errors s)).

Definition modify_stats (f : Stats -> Stats) : M unit :=
  modify (set_mgr (set_stats f)).

Definition modify_sessions
    (f : gmap string AgentSession -> gmap string AgentSession) : M unit :=
  modify (set_mgr (set_sessions f)).

(** The insertion order after [d[key] = value]: a new key goes to the end, a
    key that is already there keeps its place. *)
Definition setitem_keys (key : string) (keys : list string) : list string :=
  if bool_decide (key ∈ keys) then keys else keys ++ [key].

(** The insertion order after [del d[key]]. *)
Definition delitem_keys (key : string) (keys : list string) : list string :=
  filter (fun k => k <> key) keys.

(** [self.sessions[key] = value] *)
Definition sessions_setitem (key : string) (value : AgentSession) : M unit :=
  modify (set_mgr (set_session_keys (setitem_keys key))) ;;
  modify_sessions (insert key value).

(** [del self.sessions[key]] *)
Definition sessions_delitem (key : string) : M unit :=
  modify (set_mgr (set_session_keys (delitem_keys key))) ;;
  modify_sessions (delete key).

(** [self.sessions.clear()] *)
Definition sessions_clear : M unit :=
  modify (set_mgr (set_session_keys (fun _ => []))) ;;
  modify_sessions (fun _ => ∅).

(** A mutating method run on the session object that [self.sessions] holds
    under [key].  The dict holds the object itself, so it sees the mutation;
    a key that is no longer in the dict is not put back. *)
Definition call_method (key : string) (self : AgentSession)
    (method : AgentSession -> M AgentSession) : M AgentSession :=
  self' <- method self ;;
  modify_sessions (alter (fun _ => self') key) ;;
  ret self'.

(** [_cleanup_expired_sessions_sync]: the reap pass.  It has no [return]
    statement, so its value is [None]. *)
Definition _cleanup_expired_sessions_sync : M Py.value :=
  now <- time_time ;;
  w <- get ;;
  expired_items <-
    filter_m (fun item : string * AgentSession =>
                is_expired (session_timeout (mgr w)) item.2)
             (map_to_list (sessions (mgr w))) ;;
  let expired := expired_items.*1 in
  for_each expired (fun session_id =>
    sessions_delitem session_id ;;
    logger "debug" "Expired session cleaned up" [("session_id", PStr session_id)]) ;;
  match expired with
  | [] => ret tt
  | _ :: _ =>
      w' <- get ;;
      modify_stats (set_active_sessions (len_sessions w')) ;;
      logger "info" "Cleanup completed"
             [("expired_count", PInt (Z.of_nat (length expired)));
              ("active", PInt (len_sessions w'))]
  end ;;
  ret PNone.

Definition capacity_error (limit : Z) : exn :=
  Exc "Exception" ("Maximum concurrent sessions reached: " +:+ pretty limit).

Definition not_found_error (session_id : string) : exn :=
  Exc "Exception" ("Session not found: " +:+ session_id).

Definition create_session (user_id : string) (system_prompt : option string) : M string :=
  w <- get ;;
  (if bool_decide (len_sessions w >= max_concurrent_sessions (mgr w)) then
     _cleanup_expired_sessions_sync ;;
     w' <- get ;;
     if bool_decide (len_sessions w' >= max_concurrent_sessions (mgr w')) then
       raise (capacity_error (max_concurrent_sessions (mgr w')))
     else ret tt
   else ret tt) ;;
  session_id <- uuid4 ;;
  session <- AgentSession_init session_id user_id system_prompt ;;
  sessions_setitem session_id session ;;
  modify_stats (add_total_sessions 1) ;;
  w'' <- get ;;
  modify_stats (set_active_sessions (len_sessions w'')) ;;
  logger "info" "Session created"
         [("session_id", PStr session_id); ("user_id", PStr user_id);
          ("active_sessions", PInt (len_sessions w''))] ;;
  ret session_id.

Definition delete_session (session_id : string) : M unit :=
  w <- get ;;
  if bool_decide (is_Some (sessions (mgr w) !! session_id)) then
    sessions_delitem session_id ;;
    w' <- get ;;
    modify_stats (set_active_sessions (len_sessions w')) ;;
    logger "info" "Session deleted" [("session_id", PStr session_id)]
  else ret tt.

(** *** process_request *)

Definition default_system_prompt : string := "You are a helpful AI assistant.".

(** The [usage] dict built from the provider's usage object. *)
Definition usage_dict (u : Usage) : gmap string Z :=
  <["total_tokens" := input_tokens u + output_tokens u]>
    (<["output_tokens" := output_tokens u]>
       (<["input_tokens" := input_tokens u]> ∅)).

(** [usage[key]] *)
Definition subscript (usage : gmap string Z) (key : string) : M Z :=
  match usage !! key with
  | Some v => ret v
  | None => raise (Exc "KeyError" key)
  end.

(** The loop over [response.content] that joins the text blocks. *)
Definition extract_content (blocks : list block) : string :=
  foldl (fun content b =>
           match b with
           | TextBlock text => content +:+ text
           | ToolUseBlock _ => content
           end) "" blocks.

(** The dict that [process_request] returns. *)
Record ProcessResult := MkResult {
  res_content : string;
  res_usage : gmap string Z;
  res_message_count : Z
}.

(** The function under the decorator: one attempt. *)
Definition process_request_body (session_id : string) (request : AgentRequest)
    : M ProcessResult :=
  w <- get ;;
  match sessions (mgr w) !! session_id with
  | None => raise (not_found_error session_id)
  | Some session =>
      try_except
        (session <- call_method session_id session (add_message "user" (prompt request)) ;;
         let messages := message_history session in
         response <- messages_create
           (MkCall (max_tokens request) (temperature request)
                   (or_str (req_system_prompt request)
                           (or_str (system_prompt session) default_system_prompt))
                   messages
                   (Some (or_list (tools request)))) ;;
         let content := extract_content (resp_content response) in
         session <- call_method session_id session (add_message "assistant" content) ;;
         let usage := usage_dict (resp_usage response) in
         session <- call_method session_id session
                      (fun s => ret (update_token_usage usage s)) ;;
         modify_stats (add_total_requests 1) ;;
         total <- subscript usage "total_tokens" ;;
         modify_stats (add_total_tokens total) ;;
         logger "info" "Request processed"
                [("session_id", PStr session_id); ("tokens", PInt total);
                 ("messages", PInt (Z.of_nat (length (message_history session))))] ;;
         ret (MkResult content usage (Z.of_nat (length (message_history session)))))
        (fun e =>
           modify_stats (count_error (type_name e)) ;;
           logger "error" "Request processing error"
                  [("session_id", PStr session_id); ("error", PStr (str e));
                   ("error_type", PStr (type_name e))] ;;
           raise e)
  end.

(** *** tenacity: [@retry(stop=stop_after_attempt(3),
        wait=wait_exponential(multiplier=1, min=2, max=10))]

    The decorator is used with its defaults otherwise: every [Exception] of an
    attempt is retried ([retry_if_exception_type()]), and when the stop
    condition holds the wrapper raises [RetryError] around the last attempt
    ([reraise=False]).  An attempt that raises another [BaseException] is not
    retried: the wrapper raises that exception itself. *)

Definition stop_after_attempt (max_attempt_number attempt_number : nat) : bool :=
  bool_decide (max_attempt_number <= attempt_number)%nat.

Definition wait_exponential (multiplier min max : Z) (attempt_number : nat) : Z :=
  let exp := 2 ^ (Z.of_nat attempt_number - 1) in
  let result := multiplier * exp in
  Z.max (Z.max 0 min) (Z.min result max).

(** The retrying loop; [budget] bounds the attempts still allowed, which the
    stop condition [stop_after_attempt 3] never lets exceed three. *)
Fixpoint retrying {A} (budget attempt_number : nat) (fn : M A) : M A :=
  emit (EvAttempt attempt_number) ;;
  try_except fn (fun e =>
    if stop_after_attempt 3 attempt_number then raise (RetryError e)
    else
      match budget with
      | O => raise (RetryError e)
      | S budget' =>
          asyncio_sleep (wait_exponential 1 2 10 attempt_number) ;;
          retrying budget' (S attempt_number) fn
      end).

Definition retry {A} (fn : M A) : M A := retrying 3 1 fn.

Definition process_request (session_id : string) (request : AgentRequest)
    : M ProcessResult :=
  retry (process_request_body session_id request).

(** *** stream_response *)

Definition newline : string := String "010"%char EmptyString.
Definition dquote : string := String "034"%char EmptyString.

(** [f"data: {text}\n\n"] *)
Definition sse (text : string) : string :=
  "data: " +:+ text +:+ newline +:+ newline.

(** The error event: [data: {"error": "<str(e)>"}] and two newlines. *)
Definition error_event (e : exn) : string :=
  "data: {" +:+ dquote +:+ "error" +:+ dquote +:+ ": " +:+ dquote +:+ str e
    +:+ dquote +:+ "}" +:+ newline +:+ newline.

Definition done_event : string := sse "[DONE]".

Definition yield (chunk : string) : M unit := emit (EvYield chunk).

(** [async for text in stream.text_stream]: accumulate and yield. *)
Fixpoint consume_text_stream (accumulated_content : string) (fragments : list string)
    : M string :=
  match fragments with
  | [] => ret accumulated_content
  | text :: rest =>
      yield (sse text) ;;
      consume_text_stream (accumulated_content +:+ text) rest
  end.

(** The generator, run until it is exhausted; what it yields is in the trace. *)
Definition stream_response (session_id : string) (request : AgentRequest) : M unit :=
  w <- get ;;
  match sessions (mgr w) !! session_id with
  | None => raise (not_found_error session_id)
  | Some session =>
      try_except
        (session <- call_method session_id session (add_message "user" (prompt request)) ;;
         let messages := message_history session in
         stream <- messages_stream
           (MkCall (max_tokens request) (temperature request)
                   (or_str (req_system_prompt request)
                           (or_str (system_prompt session) default_system_prompt))
                   messages None) ;;
         accumulated_content <- consume_text_stream "" (text_stream stream) ;;
         modify (set_clock (fun t => t + stream_latency stream)) ;;
         match text_stream_raises stream with
         | Some (OfException e) => raise e
         | Some (OfBaseException b) => raise_base b
         | None => ret tt
         end ;;
         session <- call_method session_id session
                      (add_message "assistant" accumulated_content) ;;
         message <- (fun _ w => (get_final_message stream, w)) ;;
         let usage := usage_dict message in
         session <- call_method session_id session
                      (fun s => ret (update_token_usage usage s)) ;;
         yield done_event)
        (fun e =>
           modify_stats (count_error (type_name e)) ;;
           logger "error" "Streaming error"
                  [("session_id", PStr session_id); ("error", PStr (str e))] ;;
           yield (error_event e))
  end.

(** [await asyncio.sleep(seconds)] in a task that can be cancelled while it
    sleeps, as [shutdown] does with the background task: [cancelled = Some d]
    is a [cancel()] that reaches the task [d] seconds into the sleep and
    raises [CancelledError] there. *)
Definition asyncio_sleep_in_task (seconds : Z) (cancelled : option Z) : M unit :=
  match cancelled with
  | None => asyncio_sleep seconds
  | Some d =>
      emit (EvSleep seconds) ;;
      modify (set_clock (fun t => t + d)) ;;
      raise_base CancelledError
  end.

(** One round of the background task [_cleanup_expired_sessions]: one turn
    of its loop.  A [CancelledError] raised in the sleep passes the
    [except Exception] clause and ends the task. *)
Definition cleanup_round (cancelled : option Z) : M unit :=
  w <- get ;;
  if is_shutting_down (mgr w) then ret tt
  else
    try_except
      (asyncio_sleep_in_task 60 cancelled ;; _cleanup_expired_sessions_sync ;; ret tt)
      (fun e => logger "error" "Cleanup task error" [("error", PStr (str e))]).

(** ** Runs of the manager *)

(** What the service layer and the event loop do to a manager; [OpCleanup]
    is a round of the background task that is not cancelled. *)
Inductive op :=
| OpCreate (user_id : string) (system_prompt : option string)
| OpProcess (session_id : string) (request : AgentRequest)
| OpStream (session_id : string) (request : AgentRequest)
| OpDelete (session_id : string)
| OpCleanup
| OpWait (seconds : N).

Definition run {A} (c : M A) (E : Env) (w : World) : World := (c E w).2.

Definition step (E : Env) (w : World) (o : op) : World :=
  match o with
  | OpCreate u sp => run (create_session u sp) E w
  | OpProcess sid rq => run (process_request sid rq) E w
  | OpStream sid rq => run (stream_response sid rq) E w
  | OpDelete sid => run (delete_session sid) E w
  | OpCleanup => run (cleanup_round None) E w
  | OpWait d => set_clock (fun t => t + Z.of_N d) w
  end.

Definition run_ops (E : Env) (w : World) (ops : list op) : World :=
  foldl (step E) w ops.

(** A manager just constructed, at clock reading [t0]. *)
Definition initial_world (max_sessions timeout t0 : Z) : World :=
  MkWorld (AgentManager_init max_sessions timeout) t0 0 0 0 [].

(** The chunks a stretch of trace yields, in order. *)
Fixpoint yields (tr : list event) : list string :=
  match tr with
  | [] => []
  | EvYield c :: tr' => c :: yields tr'
  | _ :: tr' => yields tr'
  end.

Fixpoint sleeps (tr : list event) : list Z :=
  match tr with
  | [] => []
  | EvSleep d :: tr' => d :: sleeps tr'
  | _ :: tr' => sleeps tr'
  end.

(** * Properties *)

(** ** What the reap pass computes *)

(** [now - last_activity > timeout], the test of [is_expired]. *)
Definition idle_exceeds (now timeout : Z) (s : AgentSession) : Prop :=
  now - last_activity s > timeout.

#[global] Instance idle_exceeds_dec now timeout s : Decision (idle_exceeds now timeout s).
Proof. unfold idle_exceeds. apply _. Defined.

(** The ids the list comprehension of the reap pass collects. *)
Definition expired_ids (now timeout : Z) (m : gmap string AgentSession) : list string :=
  (filter (fun item : string * AgentSession => idle_exceeds now timeout item.2)
          (map_to_list m)).*1.

(** The sessions a reap pass leaves. *)
Definition survivors (now timeout : Z) (m : gmap string AgentSession)
    : gmap string AgentSession :=
  filter (fun item : string * AgentSession => ¬ idle_exceeds now timeout item.2) m.

Definition debug_line (session_id : string) : event :=
  EvLog "debug" "Expired session cleaned up" [("session_id", PStr session_id)].

(** The world a reap pass leaves. *)
Definition reaped (w : World) : World :=
  let ids := expired_ids (clock w) (session_timeout (mgr w)) (sessions (mgr w)) in
  let m' := survivors (clock w) (session_timeout (mgr w)) (sessions (mgr w)) in
  let active := Z.of_nat (size m') in
  MkWorld
    (MkManager m' (foldl (fun keys k => delitem_keys k keys) (session_keys (mgr w)) ids)
       (max_concurrent_sessions (mgr w)) (session_timeout (mgr w))
       (is_shutting_down (mgr w))
       (match ids with
        | [] => stats (mgr w)
        | _ :: _ => set_active_sessions active (stats (mgr w))
        end))
    (clock w) (n_uuid w) (n_create w) (n_stream w)
    (trace w ++ (debug_line <$> ids) ++
       match ids with
       | [] => []
       | _ :: _ => [EvLog "info" "Cleanup completed"
                      [("expired_count", PInt (Z.of_nat (length ids)));
                       ("active", PInt active)]]
       end).

(** ** What one attempt of [process_request] leaves *)

(** The session after [add_message("user", text)] at clock reading [now]. *)
Definition user_turn (now : Z) (text : string) (s : AgentSession) : AgentSession :=
  set_last_activity now
    (set_message_history (message_history s ++ [Message "user" text]) s).

Definition assistant_turn (now : Z) (text : string) (s : AgentSession) : AgentSession :=
  set_last_activity now
    (set_message_history (message_history s ++ [Message "assistant" text]) s).

(** The arguments [process_request] gives to the provider. *)
Definition request_call (rq : AgentRequest) (session : AgentSession) : provider_call :=
  MkCall (max_tokens rq) (temperature rq)
         (or_str (req_system_prompt rq)
                 (or_str (system_prompt session) default_system_prompt))
         (message_history session)
         (Some (or_list (tools rq))).

Definition stream_call (rq : AgentRequest) (session : AgentSession) : provider_call :=
  MkCall (max_tokens rq) (temperature rq)
         (or_str (req_system_prompt rq)
                 (or_str (system_prompt session) default_system_prompt))
         (message_history session)
         None.

Definition error_line (sid : string) (e : exn) : event :=
  EvLog "error" "Request processing error"
        [("session_id", PStr sid); ("error", PStr (str e));
         ("error_type", PStr (type_name e))].

(** The world after an attempt in which the provider raised [e] after
    [latency]; [s] is the session found under [sid]. *)
Definition attempt_failed (sid : string) (rq : AgentRequest) (s : AgentSession)
    (e : exn) (latency : Z) (w : World) : World :=
  let s1 := user_turn (clock w) (prompt rq) s in
  MkWorld
    (MkManager (<[sid := s1]> (sessions (mgr w)))
       (session_keys (mgr w))
       (max_concurrent_sessions (mgr w)) (session_timeout (mgr w))
       (is_shutting_down (mgr w))
       (count_error (type_name e) (stats (mgr w))))
    (clock w + latency) (n_uuid w) (S (n_create w)) (n_stream w)
    (trace w ++ [EvCreate (request_call rq s1); error_line sid e]).

(** The world after an attempt in which the provider raised, after
    [latency], an exception that is not an instance of [Exception]: the
    [except] block has not run, so nothing is counted or logged. *)
Definition attempt_aborted (sid : string) (rq : AgentRequest) (s : AgentSession)
    (latency : Z) (w : World) : World :=
  let s1 := user_turn (clock w) (prompt rq) s in
  MkWorld
    (MkManager (<[sid := s1]> (sessions (mgr w)))
       (session_keys (mgr w))
       (max_concurrent_sessions (mgr w)) (session_timeout (mgr w))
       (is_shutting_down (mgr w)) (stats (mgr w)))
    (clock w + latency) (n_uuid w) (S (n_create w)) (n_stream w)
    (trace w ++ [EvCreate (request_call rq s1)]).

(** The session after an attempt that the provider answered. *)
Definition answered (now latency : Z) (rq : AgentRequest) (resp : Response)
    (s : AgentSession) : AgentSession :=
  update_token_usage (usage_dict (resp_usage resp))
    (assistant_turn (now + latency) (extract_content (resp_content resp))
       (user_turn now (prompt rq) s)).

Definition tokens_of (resp : Response) : Z :=
  input_tokens (resp_usage resp) + output_tokens (resp_usage resp).

Definition attempt_succeeded (sid : string) (rq : AgentRequest) (s : AgentSession)
    (resp : Response) (latency : Z) (w : World) : World :=
  let s1 := user_turn (clock w) (prompt rq) s in
  let s3 := answered (clock w) latency rq resp s in
  MkWorld
    (MkManager (<[sid := s3]> (sessions (mgr w)))
       (session_keys (mgr w))
       (max_concurrent_sessions (mgr w)) (session_timeout (mgr w))
       (is_shutting_down (mgr w))
       (add_total_tokens (tokens_of resp) (add_total_requests 1 (stats (mgr w)))))
    (clock w + latency) (n_uuid w) (S (n_create w)) (n_stream w)
    (trace w ++
       [EvCreate (request_call rq s1);
        EvLog "info" "Request processed"
          [("session_id", PStr sid); ("tokens", PInt (tokens_of resp));
           ("messages", PInt (Z.of_nat (length (message_history s3))))]]).

Definition request_result (rq : AgentRequest) (resp : Response) (s : AgentSession)
    : ProcessResult :=
  MkResult (extract_content (resp_content resp)) (usage_dict (resp_usage resp))
           (Z.of_nat (length (message_history s) + 2)).

(** The bookkeeping of the retrying loop around the attempts. *)
Definition begin_attempt (k : nat) (w : World) : World := add_event (EvAttempt k) w.

Definition backoff (k : nat) (w : World) : World :=
  set_clock (fun t => t + wait_exponential 1 2 10 k)
            (add_event (EvSleep (wait_exponential 1 2 10 k)) w).

(** The world after three attempts in each of which the provider raised. *)
Definition exhausted (sid : string) (rq : AgentRequest) (s : AgentSession)
    (e1 e2 e3 : exn) (l1 l2 l3 : Z) (w : World) : World :=
  let s1 := user_turn (clock w) (prompt rq) s in
  let w1 := attempt_failed sid rq s e1 l1 (begin_attempt 1 w) in
  let s2 := user_turn (clock (backoff 1 w1)) (prompt rq) s1 in
  let w2 := attempt_failed sid rq s1 e2 l2 (begin_attempt 2 (backoff 1 w1)) in
  attempt_failed sid rq s2 e3 l3 (begin_attempt 3 (backoff 2 w2)).

(** ** What a stream leaves *)

(** The fragments joined in the order received. *)
Definition join (fragments : list string) : string :=
  foldr String.append "" fragments.

Definition yield_events (fragments : list string) : list event :=
  (fun text => EvYield (sse text)) <$> fragments.

Definition stream_error_line (sid : string) (e : exn) : event :=
  EvLog "error" "Streaming error" [("session_id", PStr sid); ("error", PStr (str e))].

(** The session after a stream that completed with final usage [u]. *)
Definition streamed (now latency : Z) (rq : AgentRequest) (fragments : list string)
    (u : Usage) (s : AgentSession) : AgentSession :=
  update_token_usage (usage_dict u)
    (assistant_turn (now + latency) (join fragments) (user_turn now (prompt rq) s)).

Definition stream_completed (sid : string) (rq : AgentRequest) (s : AgentSession)
    (o : stream_outcome) (u : Usage) (w : World) : World :=
  MkWorld
    (MkManager
       (<[sid := streamed (clock w) (stream_latency o) rq (text_stream o) u s]>
          (sessions (mgr w)))
       (session_keys (mgr w))
       (max_concurrent_sessions (mgr w)) (session_timeout (mgr w))
       (is_shutting_down (mgr w)) (stats (mgr w)))
    (clock w + stream_latency o) (n_uuid w) (n_create w) (S (n_stream w))
    (trace w ++ [EvStream (stream_call rq (user_turn (clock w) (prompt rq) s))]
       ++ yield_events (text_stream o) ++ [EvYield done_event]).

(** The world after a stream whose [text_stream] raised [e]. *)
Definition stream_failed (sid : string) (rq : AgentRequest) (s : AgentSession)
    (o : stream_outcome) (e : exn) (w : World) : World :=
  MkWorld
    (MkManager
       (<[sid := user_turn (clock w) (prompt rq) s]> (sessions (mgr w)))
       (session_keys (mgr w))
       (max_concurrent_sessions (mgr w)) (session_timeout (mgr w))
       (is_shutting_down (mgr w))
       (count_error (type_name e) (stats (mgr w))))
    (clock w + stream_latency o) (n_uuid w) (n_create w) (S (n_stream w))
    (trace w ++ [EvStream (stream_call rq (user_turn (clock w) (prompt rq) s))]
       ++ yield_events (text_stream o)
       ++ [stream_error_line sid e; EvYield (error_event e)]).

(** The world after a stream that ended but whose [get_final_message] raised. *)
Definition stream_unaccounted (sid : string) (rq : AgentRequest) (s : AgentSession)
    (o : stream_outcome) (e : exn) (w : World) : World :=
  MkWorld
    (MkManager
       (<[sid := assistant_turn (clock w + stream_latency o) (join (text_stream o))
                   (user_turn (clock w) (prompt rq) s)]> (sessions (mgr w)))
       (session_keys (mgr w))
       (max_concurrent_sessions (mgr w)) (session_timeout (mgr w))
       (is_shutting_down (mgr w))
       (count_error (type_name e) (stats (mgr w))))
    (clock w + stream_latency o) (n_uuid w) (n_create w) (S (n_stream w))
    (trace w ++ [EvStream (stream_call rq (user_turn (clock w) (prompt rq) s))]
       ++ yield_events (text_stream o)
       ++ [stream_error_line sid e; EvYield (error_event e)]).

(** The world after a stream whose [text_stream] raised an exception that is
    not an instance of [Exception]: the generator ends there. *)
Definition stream_aborted (sid : string) (rq : AgentRequest) (s : AgentSession)
    (o : stream_outcome) (w : World) : World :=
  MkWorld
    (MkManager
       (<[sid := user_turn (clock w) (prompt rq) s]> (sessions (mgr w)))
       (session_keys (mgr w))
       (max_concurrent_sessions (mgr w)) (session_timeout (mgr w))
       (is_shutting_down (mgr w)) (stats (mgr w)))
    (clock w + stream_latency o) (n_uuid w) (n_create w) (S (n_stream w))
    (trace w ++ [EvStream (stream_call rq (user_turn (clock w) (prompt rq) s))]
       ++ yield_events (text_stream o)).

(** The world after a stream that ended but whose [get_final_message] raised
    an exception that is not an instance of [Exception]. *)
Definition stream_unaccounted_aborted (sid : string) (rq : AgentRequest)
    (s : AgentSession) (o : stream_outcome) (w : World) : World :=
  MkWorld
    (MkManager
       (<[sid := assistant_turn (clock w + stream_latency o) (join (text_stream o))
                   (user_turn (clock w) (prompt rq) s)]> (sessions (mgr w)))
       (session_keys (mgr w))
       (max_concurrent_sessions (mgr w)) (session_timeout (mgr w))
       (is_shutting_down (mgr w)) (stats (mgr w)))
    (clock w + stream_latency o) (n_uuid w) (n_create w) (S (n_stream w))
    (trace w ++ [EvStream (stream_call rq (user_turn (clock w) (prompt rq) s))]
       ++ yield_events (text_stream o)).

(** ** What a successful create leaves *)

Definition fresh_session (sid user_id : string) (system_prompt : option string)
    (now : Z) : AgentSession :=
  MkSession sid user_id system_prompt now now [] (TokenUsage 0 0 0).

(** The world after the insertion that ends a successful [create_session]
    started in [w] (after the reap pass, if there was one). *)
Definition inserted (user_id : string) (system_prompt : option string)
    (E : Env) (w : World) : World :=
  let sid := env_uuid4 E (n_uuid w) in
  let m' := <[sid := fresh_session sid user_id system_prompt (clock w)]>
              (sessions (mgr w)) in
  MkWorld
    (MkManager m' (setitem_keys sid (session_keys (mgr w)))
       (max_concurrent_sessions (mgr w)) (session_timeout (mgr w))
       (is_shutting_down (mgr w))
       (set_active_sessions (Z.of_nat (size m'))
          (add_total_sessions 1 (stats (mgr w)))))
    (clock w) (S (n_uuid w)) (n_create w) (n_stream w)
    (trace w ++
       [EvLog "info" "Session created"
          [("session_id", PStr sid); ("user_id", PStr user_id);
           ("active_sessions", PInt (Z.of_nat (size m')))]]).

(** ** Sample environments *)

Definition sample_request : AgentRequest :=
  MkRequest "Hello" "user-123" 100 (Float 1 0) false None None.

Definition api_error : exn := Exc "APIError" "API Error".

Definition sample_uuid (n : nat) : string := "session-" +:+ pretty n.

(** A provider that always raises. *)
Definition failing_provider : Env :=
  MkEnv sample_uuid
        (fun _ => MkCreateOutcome 1 (Raised api_error))
        (fun _ => MkStreamOutcome 1 ["Hel"; "lo!"] (Some (OfException api_error))
                                 (Raised api_error)).

(** A provider that always answers, with usage 10 in and 20 out. *)
Definition working_provider : Env :=
  MkEnv sample_uuid
        (fun _ => MkCreateOutcome 1
                    (Returned (MkResponse [TextBlock "Hello! How can I help?"]
                                          (MkUsage 10 20))))
        (fun _ => MkStreamOutcome 1 ["Hel"; "lo!"] None (Returned (MkUsage 10 20))).

(** A provider whose first [k] completion calls raise and whose later ones
    answer. *)
Definition flaky_provider (k : nat) : Env :=
  MkEnv sample_uuid
        (fun n => if bool_decide (n < k)%nat then env_create failing_provider n
                  else env_create working_provider n)
        (env_stream working_provider).


(** A provider whose stream delivers its fragments and whose
    [get_final_message] then raises. *)
Definition unaccounted_provider : Env :=
  MkEnv sample_uuid
        (env_create working_provider)
        (fun _ => MkStreamOutcome 1 ["Hel"; "lo!"] None (Raised api_error)).

(** ** Usage accounting *)

(** [total == input + output] *)
Definition usage_ok (s : AgentSession) : Prop :=
  total (token_usage s) = input (token_usage s) + output (token_usage s).

(** No counter of [s'] is below the one of [s]. *)
Definition usage_le (s s' : AgentSession) : Prop :=
  input (token_usage s) <= input (token_usage s')
  /\ output (token_usage s) <= output (token_usage s')
  /\ total (token_usage s) <= total (token_usage s').

(** Every usage the provider reports has non-negative token counts. *)
Definition env_nonneg (E : Env) : Prop :=
  (forall n resp, create_result (env_create E n) = Returned resp ->
     0 <= input_tokens (resp_usage resp) /\ 0 <= output_tokens (resp_usage resp))
  /\ (forall n u, get_final_message (env_stream E n) = Returned u ->
     0 <= input_tokens u /\ 0 <= output_tokens u).

(** The provider never takes negative time. *)
Definition env_causal (E : Env) : Prop :=
  (forall n, 0 <= create_latency (env_create E n))
  /\ (forall n, 0 <= stream_latency (env_stream E n)).

(** How a call changes the usage of the session it is made against: not at
    all, or by one [update_token_usage] with a usage the provider reported. *)
Definition usage_step (E : Env) (s s' : AgentSession) : Prop :=
  token_usage s' = token_usage s
  \/ (exists n resp,
        create_result (env_create E n) = Returned resp
        /\ token_usage s'
           = token_usage (update_token_usage (usage_dict (resp_usage resp)) s))
  \/ (exists n u,
        get_final_message (env_stream E n) = Returned u
        /\ token_usage s' = token_usage (update_token_usage (usage_dict u) s)).

(** ** get_stats, is_ready, shutdown *)

(** The dict that [get_stats] returns. *)
Record StatsSnapshot := MkSnapshot {
  snap_total_requests : Z;
  snap_total_tokens : Z;
  snap_total_sessions : Z;
  snap_active_sessions : Z;
  snap_errors : gmap string Z;
  snap_uptime_seconds : Z
}.

(** [get_stats].  The uptime is [time.time()] minus the [created_at] of the
    session under the first key of the dict, or minus a second reading of the
    clock when the dict is empty.  The left operand is read first; [elapsed]
    is the time that passes until the second reading, which shows in the
    result and is therefore not taken as nothing here. *)
Definition get_stats (elapsed : Z) : M StatsSnapshot :=
  w <- get ;;
  now <- time_time ;;
  start <-
    (if bool_decide (sessions (mgr w) = ∅) then
       modify (set_clock (fun t => t + elapsed)) ;;
       time_time
     else
       match session_keys (mgr w) with
       | [] => raise (Exc "IndexError" "list index out of range")
       | first_key :: _ =>
           match sessions (mgr w) !! first_key with
           | Some session => ret (created_at session)
           | None => raise (Exc "KeyError" first_key)
           end
       end) ;;
  ret (MkSnapshot (total_requests (stats (mgr w))) (total_tokens (stats (mgr w)))
                  (total_sessions (stats (mgr w))) (len_sessions w)
                  (errors (stats (mgr w))) (now - start)).

(** [is_ready]; [self.client] is set by the constructor and never cleared. *)
Definition is_ready : M bool :=
  w <- get ;;
  ret (negb (is_shutting_down (mgr w))).

Definition set_is_shutting_down (b : bool) (m : AgentManager) : AgentManager :=
  MkManager (sessions m) (session_keys m) (max_concurrent_sessions m)
            (session_timeout m) b (stats m).

(** [shutdown].  The background task is cancelled in its sleep: that is the
    [cancelled] argument of the round in progress.  From here on the
    cancellation shows in that [cleanup_round] does nothing once the flag is
    raised. *)
Definition shutdown : M unit :=
  logger "info" "Starting graceful shutdown..." [] ;;
  modify (set_mgr (set_is_shutting_down true)) ;;
  w <- get ;;
  let session_count := len_sessions w in
  sessions_clear ;;
  logger "info" "All sessions closed" [("count", PInt session_count)] ;;
  logger "info" "Shutdown complete" [].

(** ** How the content operations change a world *)

(** [s'] is [s] with more messages appended: the identity fields are the
    same and the old history is a prefix of the new one. *)
Definition grows (s s' : AgentSession) : Prop :=
  session_id s' = session_id s
  /\ user_id s' = user_id s
  /\ system_prompt s' = system_prompt s
  /\ created_at s' = created_at s
  /\ message_history s `prefix_of` message_history s'.

(** [errors[name]] with the default of the [defaultdict]. *)
Definition error_count (st : Stats) (name : string) : Z :=
  default 0 (errors st !! name).

(** The same store ids, each session grown, the same configuration and
    session counters, and no request or error counter lower than before. *)
Definition world_grows (w w' : World) : Prop :=
  (forall sid s, sessions (mgr w) !! sid = Some s ->
     exists s', sessions (mgr w') !! sid = Some s' /\ grows s s')
  /\ (forall sid, sessions (mgr w) !! sid = None -> sessions (mgr w') !! sid = None)
  /\ max_concurrent_sessions (mgr w') = max_concurrent_sessions (mgr w)
  /\ session_timeout (mgr w') = session_timeout (mgr w)
  /\ is_shutting_down (mgr w') = is_shutting_down (mgr w)
  /\ active_sessions (stats (mgr w')) = active_sessions (stats (mgr w))
  /\ total_sessions (stats (mgr w')) = total_sessions (stats (mgr w))
  /\ total_requests (stats (mgr w)) <= total_requests (stats (mgr w'))
  /\ (forall name, error_count (stats (mgr w)) name <= error_count (stats (mgr w')) name)
  /\ n_uuid w' = n_uuid w
  /\ (n_create w <= n_create w')%nat
  /\ (n_stream w <= n_stream w')%nat
  /\ trace w `prefix_of` trace w'.

(** ** The server layer: the endpoints of [agent_server.py]

    The endpoints run on the one global [agent_manager] and on the Prometheus
    metrics of the module.  The rate limiter in front of [chat] and the
    request validation are outside: an endpoint is run on a request that has
    passed them. *)

(** The metrics of the module.  [REQUESTS_TOTAL] is labelled by endpoint and
    status, [TOKEN_USAGE] by type, [ERRORS_TOTAL] by error type;
    [REQUEST_DURATION] keeps the observations of each endpoint. *)
Record Metrics := MkMetrics {
  REQUESTS_TOTAL : gmap (string * string) Z;
  REQUEST_DURATION : gmap string (list Z);
  ACTIVE_SESSIONS : Z;
  TOKEN_USAGE : gmap string Z;
  ERRORS_TOTAL : gmap string Z
}.

Record Server := MkServer { agent_manager : World; metrics : Metrics }.

(** The metrics of a process that has served nothing yet. *)
Definition initial_metrics : Metrics := MkMetrics ∅ ∅ 0 ∅ ∅.

Definition SM (A : Type) : Type := Env -> Server -> result A * Server.

Definition s_ret {A} (a : A) : SM A := fun _ sv => (Returned a, sv).

Definition s_bind {A B} (c : SM A) (k : A -> SM B) : SM B :=
  fun E sv =>
    match c E sv with
    | (Returned a, sv') => k a E sv'
    | (Raised e, sv') => (Raised e, sv')
    | (RaisedBase b, sv') => (RaisedBase b, sv')
    end.

Definition s_raise {A} (e : exn) : SM A := fun _ sv => (Raised e, sv).

(** A call into the manager. *)
Definition s_lift {A} (c : M A) : SM A :=
  fun E sv =>
    match c E (agent_manager sv) with
    | (r, w') => (r, MkServer w' (metrics sv))
    end.

(** [try: body except Exception as e: handler e]; as in the manager, an
    exception that is not an instance of [Exception] passes the clause. *)
Definition s_try_except {A} (body : SM A) (handler : exn -> SM A) : SM A :=
  fun E sv =>
    match body E sv with
    | (Returned a, sv') => (Returned a, sv')
    | (Raised e, sv') => handler e E sv'
    | (RaisedBase b, sv') => (RaisedBase b, sv')
    end.

(** [try: body finally: final]: [final] runs however [body] ends. *)
Definition s_finally {A} (body : SM A) (final : SM unit) : SM A :=
  fun E sv =>
    match body E sv with
    | (r, sv1) =>
        match final E sv1 with
        | (Returned _, sv2) => (r, sv2)
        | (Raised e, sv2) => (Raised e, sv2)
        | (RaisedBase b, sv2) => (RaisedBase b, sv2)
        end
    end.

Declare Scope server_scope.
Delimit Scope server_scope with server.
Notation "x <- c ;; k" := (s_bind c (fun x => k))
  (at level 100, c at next level, right associativity) : server_scope.
Notation "c ;; k" := (s_bind c (fun _ => k))
  (at level 100, right associativity) : server_scope.

Definition modify_metrics (f : Metrics -> Metrics) : SM unit :=
  fun _ sv => (Returned tt, MkServer (agent_manager sv) (f (metrics sv))).

(** [Counter.inc(amount)] of prometheus_client: a negative amount is refused. *)
Definition counter_inc {K} `{Countable K} (labels : K) (amount : Z)
    (get_c : Metrics -> gmap K Z) (set_c : gmap K Z -> Metrics -> Metrics) : SM unit :=
  if bool_decide (amount < 0) then
    s_raise (Exc "ValueError" "Counters can only be incremented by non-negative amounts.")
  else
    modify_metrics (fun m => set_c (<[labels := default 0 (get_c m !! labels) + amount]>
                                      (get_c m)) m).

Definition set_REQUESTS_TOTAL (c : gmap (string * string) Z) (m : Metrics) : Metrics :=
  MkMetrics c (REQUEST_DURATION m) (ACTIVE_SESSIONS m) (TOKEN_USAGE m) (ERRORS_TOTAL m).

Definition set_TOKEN_USAGE (c : gmap string Z) (m : Metrics) : Metrics :=
  MkMetrics (REQUESTS_TOTAL m) (REQUEST_DURATION m) (ACTIVE_SESSIONS m) c (ERRORS_TOTAL m).

Definition set_ERRORS_TOTAL (c : gmap string Z) (m : Metrics) : Metrics :=
  MkMetrics (REQUESTS_TOTAL m) (REQUEST_DURATION m) (ACTIVE_SESSIONS m) (TOKEN_USAGE m) c.

(** [ACTIVE_SESSIONS.inc()] and [.dec()] of the gauge. *)
Definition gauge_add (amount : Z) : SM unit :=
  modify_metrics (fun m =>
    MkMetrics (REQUESTS_TOTAL m) (REQUEST_DURATION m) (ACTIVE_SESSIONS m + amount)
              (TOKEN_USAGE m) (ERRORS_TOTAL m)).

(** [REQUEST_DURATION.labels(endpoint=...).observe(duration)] *)
Definition observe_duration (endpoint : string) (duration : Z) : SM unit :=
  modify_metrics (fun m =>
    MkMetrics (REQUESTS_TOTAL m)
              (<[endpoint := default [] (REQUEST_DURATION m !! endpoint) ++ [duration]]>
                 (REQUEST_DURATION m))
              (ACTIVE_SESSIONS m) (TOKEN_USAGE m) (ERRORS_TOTAL m)).

(** [HTTPException(status_code, detail)]; its [str()] is the two joined. *)
Definition http_exception (status_code : Z) (detail : string) : exn :=
  Exc "HTTPException" (pretty status_code +:+ ": " +:+ detail).

(** The [AgentResponse] model. *)
Record AgentResponse := MkAgentResponse {
  ar_session_id : string;
  ar_content : string;
  ar_usage : gmap string Z;
  ar_status : string
}.

(** What [chat] returns: the response model, or the [StreamingResponse]
    around the generator [stream_response(session_id, request)], which has
    not run yet. *)
Inductive chat_reply :=
| Reply (response : AgentResponse)
| StreamingResponse (session_id : string) (request : AgentRequest).

(** The [except] block of [chat]; it ends by raising.  [session_id] is still
    [None] when [create_session] has not returned. *)
Definition chat_error {A} (session_id : option string) (e : exn) : SM A :=
  (counter_inc (type_name e) 1 ERRORS_TOTAL set_ERRORS_TOTAL ;;
   counter_inc ("chat", "error") 1 REQUESTS_TOTAL set_REQUESTS_TOTAL ;;
   s_lift (logger "error" "Agent chat error"
             [("session_id", match session_id with
                             | Some sid => PStr sid
                             | None => PNone
                             end);
              ("error", PStr (str e)); ("error_type", PStr (type_name e))]) ;;
   s_raise (http_exception 500 (str e)))%server.

(** The [chat] endpoint.  The clock of the event loop is the clock of the
    world.  The [try] block is cut where [session_id] is assigned, so that
    the [except] block sees the value the variable has when the exception is
    raised; nothing before [create_session] can raise. *)
Definition chat (agent_request : AgentRequest) : SM chat_reply :=
  (start_time <- s_lift time_time ;;
   s_finally
     (counter_inc ("chat", "started") 1 REQUESTS_TOTAL set_REQUESTS_TOTAL ;;
      gauge_add 1 ;;
      s_lift (logger "info" "Agent chat request"
                [("user_id", PStr (req_user_id agent_request));
                 ("prompt_length",
                  PInt (Z.of_nat (String.length (prompt agent_request))))]) ;;
      session_id <- s_try_except
                      (s_lift (create_session (req_user_id agent_request)
                                              (req_system_prompt agent_request)))
                      (chat_error None) ;;
      s_try_except
        (if stream agent_request then
           s_ret (StreamingResponse session_id agent_request)
         else
           response <- s_lift (process_request session_id agent_request) ;;
           counter_inc "input" (dict_get (res_usage response) "input_tokens" 0)
                       TOKEN_USAGE set_TOKEN_USAGE ;;
           counter_inc "output" (dict_get (res_usage response) "output_tokens" 0)
                       TOKEN_USAGE set_TOKEN_USAGE ;;
           now <- s_lift time_time ;;
           let duration := now - start_time in
           observe_duration "chat" duration ;;
           counter_inc ("chat", "success") 1 REQUESTS_TOTAL set_REQUESTS_TOTAL ;;
           s_lift (logger "info" "Agent chat completed"
                     [("session_id", PStr session_id);
                      ("duration_ms", PInt (duration * 1000));
                      ("tokens", PInt (dict_get (res_usage response) "total_tokens" 0))]) ;;
           s_ret (Reply (MkAgentResponse session_id (res_content response)
                                         (res_usage response) "completed")))
        (chat_error (Some session_id)))
     (gauge_add (-1)))%server.

(** The [DELETE /v1/agent/session/{session_id}] endpoint; it returns the dict
    with "status" and "session_id". *)
Definition delete_session_endpoint (session_id : string) : SM (string * string) :=
  s_try_except
    (s_lift (delete_session session_id) ;;
     s_lift (logger "info" "Session deleted" [("session_id", PStr session_id)]) ;;
     s_ret ("deleted", session_id))%server
    (fun e =>
       s_lift (logger "error" "Session deletion error"
                 [("session_id", PStr session_id); ("error", PStr (str e))]) ;;
       s_raise (http_exception 500 (str e)))%server.

(** The [GET /v1/agent/stats] endpoint. *)
Definition get_stats_endpoint (elapsed : Z) : SM StatsSnapshot :=
  s_try_except
    (s_lift (get_stats elapsed))
    (fun e =>
       s_lift (logger "error" "Stats retrieval error" [("error", PStr (str e))]) ;;
       s_raise (http_exception 500 (str e)))%server.

(** The [GET /ready] endpoint, on a server whose manager is initialised; it
    returns the "status" of its dict. *)
Definition readiness : SM string :=
  (ready <- s_lift is_ready ;;
   if negb ready then s_raise (http_exception 503 "Service not ready")
   else s_ret "ready")%server.

(** ** Invariants of the runs *)

(** The store respects its limit and the session counters agree with it. *)
Definition store_ok (limit timeout : Z) (w : World) : Prop :=
  max_concurrent_sessions (mgr w) = limit
  /\ session_timeout (mgr w) = timeout
  /\ is_shutting_down (mgr w) = false
  /\ len_sessions w <= limit
  /\ active_sessions (stats (mgr w)) = len_sessions w
  /\ len_sessions w <= total_sessions (stats (mgr w)).




(** No lifetime counter of [w'] is below the one of [w]. *)
Definition counters_le (w w' : World) : Prop :=
  total_requests (stats (mgr w)) <= total_requests (stats (mgr w'))
  /\ total_tokens (stats (mgr w)) <= total_tokens (stats (mgr w'))
  /\ total_sessions (stats (mgr w)) <= total_sessions (stats (mgr w'))
  /\ forall name, error_count (stats (mgr w)) name <= error_count (stats (mgr w')) name.

Ltac run_m :=
  cbv beta iota zeta delta
      [bind ret raise raise_base try_except get modify emit time_time uuid4
       asyncio_sleep asyncio_sleep_in_task
       messages_create messages_stream logger
       update_activity add_message call_method modify_stats modify_sessions
       sessions_setitem sessions_delitem sessions_clear yield];
  cbn [set_mgr set_sessions set_session_keys set_stats set_clock add_event
       mgr clock n_uuid n_create n_stream trace
       sessions session_keys max_concurrent_sessions session_timeout
       is_shutting_down stats fst snd].

Ltac run_s :=
  unfold chat_error, counter_inc;
  change (bool_decide (1 < 0)) with false;
  cbv beta iota zeta delta
      [s_bind s_ret s_raise s_lift s_try_except s_finally modify_metrics
       gauge_add observe_duration time_time logger emit modify];
  cbn [agent_manager metrics fst snd add_event clock
       REQUESTS_TOTAL REQUEST_DURATION ACTIVE_SESSIONS TOKEN_USAGE ERRORS_TOTAL
       set_REQUESTS_TOTAL set_TOKEN_USAGE set_ERRORS_TOTAL].

Lemma world_eta (w : World) :
  MkWorld (mgr w) (clock w) (n_uuid w) (n_create w) (n_stream w) (trace w) = w.
Proof. by destruct w. Qed.

Lemma manager_eta (m : AgentManager) :
  MkManager (sessions m) (session_keys m) (max_concurrent_sessions m)
            (session_timeout m) (is_shutting_down m) (stats m) = m.
Proof. by destruct m. Qed.

Lemma filter_m_is_expired (timeout : Z) (l : list (string * AgentSession)) E w :
  filter_m (fun item => is_expired timeout item.2) l E w
  = (Returned (filter (fun item : string * AgentSession =>
                         idle_exceeds (clock w) timeout item.2) l), w).
Proof.
  induction l as [|x l IH]; [done|].
  cbn [filter_m]. cbv beta iota zeta delta [bind ret is_expired time_time] in IH |- *.
  rewrite IH, filter_cons.
  destruct (decide (idle_exceeds (clock w) timeout x.2)) as [Hd|Hd].
  - by rewrite bool_decide_eq_true_2 by exact Hd.
  - by rewrite bool_decide_eq_false_2 by exact Hd.
Qed.

Lemma for_each_delete (ids : list string) E w :
  for_each ids (fun session_id =>
      sessions_delitem session_id ;;
      logger "debug" "Expired session cleaned up" [("session_id", PStr session_id)]) E w
  = (Returned tt,
     MkWorld (set_session_keys
                (fun keys => foldl (fun keys k => delitem_keys k keys) keys ids)
                (set_sessions (fun m => foldl (fun m k => delete k m) m ids) (mgr w)))
             (clock w) (n_uuid w) (n_create w) (n_stream w)
             (trace w ++ (debug_line <$> ids))).
Proof.
  revert w. induction ids as [|k ids IH]; intros w.
  - cbn. unfold ret, set_sessions, set_session_keys. cbn.
    by rewrite manager_eta, app_nil_r, world_eta.
  - cbn [for_each]. run_m. rewrite IH. cbn.
    unfold set_sessions, set_session_keys; cbn. by rewrite <- app_assoc.
Qed.

Lemma lookup_foldl_delete {V} (ids : list string) (m : gmap string V) (i : string) :
  foldl (fun m k => delete k m) m ids !! i
  = if decide (i ∈ ids) then None else m !! i.
Proof.
  revert m. induction ids as [|k ids IH]; intros m; cbn.
  - rewrite decide_False; [done|]. by apply not_elem_of_nil.
  - rewrite IH. destruct (decide (i ∈ ids)) as [Hin|Hin].
    + rewrite decide_True; [done|]. by right.
    + destruct (decide (i = k)) as [->|Hne].
      * rewrite lookup_delete_eq, decide_True; [done|]. by left.
      * rewrite lookup_delete_ne by done. rewrite decide_False; [done|].
        intros [?|?]%elem_of_cons; done.
Qed.

Lemma elem_of_expired_ids now timeout (m : gmap string AgentSession) (i : string) :
  i ∈ expired_ids now timeout m
  <-> exists s, m !! i = Some s /\ idle_exceeds now timeout s.
Proof.
  unfold expired_ids. rewrite list_elem_of_fmap. split.
  - intros [[k s] [-> [Hexp Hin]%list_elem_of_filter]].
    apply elem_of_map_to_list in Hin. by exists s.
  - intros [s [Hs Hexp]]. exists (i, s). split; [done|].
    apply list_elem_of_filter. split; [done|]. by apply elem_of_map_to_list.
Qed.

Lemma foldl_delete_expired now timeout (m : gmap string AgentSession) :
  foldl (fun m k => delete k m) m (expired_ids now timeout m)
  = survivors now timeout m.
Proof.
  apply map_eq. intros i. rewrite lookup_foldl_delete. unfold survivors.
  destruct (decide (i ∈ expired_ids now timeout m)) as [Hin|Hin].
  - apply elem_of_expired_ids in Hin as [s [Hs Hexp]].
    symmetry. apply map_lookup_filter_None. right. intros s' Hs' Hn.
    cbn in Hn. congruence.
  - destruct (m !! i) as [s|] eqn:Hs.
    + symmetry. apply map_lookup_filter_Some. split; [done|]. cbn.
      intros Hexp. apply Hin. apply elem_of_expired_ids. by exists s.
    + symmetry. apply map_lookup_filter_None. by left.
Qed.

Lemma cleanup_sync_run E w :
  _cleanup_expired_sessions_sync E w = (Returned PNone, reaped w).
Proof.
  unfold _cleanup_expired_sessions_sync. run_m.
  rewrite filter_m_is_expired. run_m.
  fold (expired_ids (clock w) (session_timeout (mgr w)) (sessions (mgr w))).
  rewrite for_each_delete. unfold reaped.
  set (ids := expired_ids _ _ _).
  pose proof (foldl_delete_expired (clock w) (session_timeout (mgr w))
                (sessions (mgr w))) as Hfold.
  fold ids in Hfold.
  destruct ids as [|k ids'] eqn:Hids.
  - run_m. cbn in *. unfold set_sessions, set_session_keys. cbn.
    by rewrite <- Hfold.
  - run_m.
    unfold len_sessions, add_event, set_mgr, set_stats, set_sessions,
      set_session_keys.
    cbn [mgr sessions session_keys max_concurrent_sessions session_timeout
         is_shutting_down stats clock n_uuid n_create n_stream trace].
    rewrite Hfold. by rewrite <- app_assoc.
Qed.

(** ** Running one attempt *)

Lemma alter_const_insert {V} (m : gmap string V) (k : string) (v v' : V) :
  m !! k = Some v -> alter (fun _ => v') k m = <[k := v']> m.
Proof.
  intros Hk. apply map_eq. intros i. destruct (decide (i = k)) as [->|Hne].
  - by rewrite lookup_alter_eq, lookup_insert_eq, Hk.
  - by rewrite lookup_alter_ne, lookup_insert_ne.
Qed.

Lemma alter_const_insert' {V} (m : gmap string V) (k : string) (v v' : V) :
  alter (fun _ => v') k (<[k := v]> m) = <[k := v']> m.
Proof.
  rewrite (alter_const_insert _ _ v) by apply lookup_insert_eq.
  apply insert_insert_eq.
Qed.

Lemma usage_dict_total (u : Usage) :
  usage_dict u !! "total_tokens" = Some (input_tokens u + output_tokens u).
Proof. unfold usage_dict. apply lookup_insert_eq. Qed.

Lemma usage_dict_input (u : Usage) :
  dict_get (usage_dict u) "input_tokens" 0 = input_tokens u.
Proof.
  unfold dict_get, usage_dict.
  rewrite lookup_insert_ne, lookup_insert_ne, lookup_insert_eq; done.
Qed.

Lemma usage_dict_output (u : Usage) :
  dict_get (usage_dict u) "output_tokens" 0 = output_tokens u.
Proof.
  unfold dict_get, usage_dict.
  rewrite lookup_insert_ne, lookup_insert_eq; done.
Qed.

Lemma body_not_found E w sid rq :
  sessions (mgr w) !! sid = None ->
  process_request_body sid rq E w = (Raised (not_found_error sid), w).
Proof. intros Hs. unfold process_request_body. run_m. by rewrite Hs. Qed.

Lemma body_fail E w sid rq s e :
  sessions (mgr w) !! sid = Some s ->
  create_result (env_create E (n_create w)) = Raised e ->
  process_request_body sid rq E w
  = (Raised e, attempt_failed sid rq s e (create_latency (env_create E (n_create w))) w).
Proof.
  intros Hs He. unfold process_request_body. run_m. rewrite Hs. run_m.
  rewrite He. run_m. unfold attempt_failed, add_event, set_mgr, set_stats, set_sessions.
  cbn. rewrite (alter_const_insert _ _ s) by done.
  by rewrite <- app_assoc.
Qed.

Lemma body_abort E w sid rq s b :
  sessions (mgr w) !! sid = Some s ->
  create_result (env_create E (n_create w)) = RaisedBase b ->
  process_request_body sid rq E w
  = (RaisedBase b,
     attempt_aborted sid rq s (create_latency (env_create E (n_create w))) w).
Proof.
  intros Hs He. unfold process_request_body. run_m. rewrite Hs. run_m.
  rewrite He. run_m. unfold attempt_aborted, add_event, set_mgr, set_stats, set_sessions.
  cbn. by rewrite (alter_const_insert _ _ s) by done.
Qed.

Lemma body_ok E w sid rq s resp :
  sessions (mgr w) !! sid = Some s ->
  create_result (env_create E (n_create w)) = Returned resp ->
  process_request_body sid rq E w
  = (Returned (request_result rq resp s),
     attempt_succeeded sid rq s resp (create_latency (env_create E (n_create w))) w).
Proof.
  intros Hs He. unfold process_request_body. run_m. rewrite Hs. run_m.
  rewrite He. run_m. unfold subscript. rewrite usage_dict_total. run_m.
  unfold attempt_succeeded, request_result, add_event, set_mgr, set_stats, set_sessions.
  cbn. rewrite !alter_alter_eq. unfold compose.
  rewrite (alter_const_insert _ _ s) by done.
  unfold answered, assistant_turn, user_turn, tokens_of, request_call. cbn.
  rewrite <- !app_assoc. cbn. rewrite !length_app. cbn.
  replace (length (message_history s) + 1 + 1)%nat
    with (length (message_history s) + 2)%nat by lia.
  reflexivity.
Qed.

(** ** The retrying loop *)

Lemma retrying_eq {A} (b k : nat) (fn : M A) E w :
  retrying b k fn E w
  = match fn E (begin_attempt k w) with
    | (Returned a, w') => (Returned a, w')
    | (Raised e, w') =>
        if stop_after_attempt 3 k then (Raised (RetryError e), w')
        else match b with
             | O => (Raised (RetryError e), w')
             | S b' => retrying b' (S k) fn E (backoff k w')
             end
    | (RaisedBase b0, w') => (RaisedBase b0, w')
    end.
Proof.
  destruct b; cbn [retrying]; run_m; unfold begin_attempt, backoff;
    destruct (fn E (add_event (EvAttempt k) w)) as [[a|e|b0] w'];
    try reflexivity; destruct (stop_after_attempt 3 k); reflexivity.
Qed.

Lemma process_request_eq sid rq E w :
  process_request sid rq E w = retrying 3 1 (process_request_body sid rq) E w.
Proof. reflexivity. Qed.

(** An attempt that raised, when attempts remain: back off and go again. *)
Lemma retrying_again {A} (b k : nat) (fn : M A) E w e w' :
  (k < 3)%nat ->
  fn E (begin_attempt k w) = (Raised e, w') ->
  retrying (S b) k fn E w = retrying b (S k) fn E (backoff k w').
Proof.
  intros Hk Hfn. rewrite retrying_eq, Hfn.
  unfold stop_after_attempt. by rewrite bool_decide_eq_false_2 by lia.
Qed.

(** The third attempt raised: the wrapper raises [RetryError]. *)
Lemma retrying_exhausted {A} (b : nat) (fn : M A) E w e w' :
  fn E (begin_attempt 3 w) = (Raised e, w') ->
  retrying b 3 fn E w = (Raised (RetryError e), w').
Proof. intros Hfn. by rewrite retrying_eq, Hfn. Qed.

Lemma retrying_returns {A} (b k : nat) (fn : M A) E w a w' :
  fn E (begin_attempt k w) = (Returned a, w') ->
  retrying b k fn E w = (Returned a, w').
Proof. intros Hfn. by rewrite retrying_eq, Hfn. Qed.

(** An attempt that raised an exception that is not an [Exception]: the
    wrapper raises it, without a further attempt. *)
Lemma retrying_aborts {A} (b k : nat) (fn : M A) E w b0 w' :
  fn E (begin_attempt k w) = (RaisedBase b0, w') ->
  retrying b k fn E w = (RaisedBase b0, w').
Proof. intros Hfn. by rewrite retrying_eq, Hfn. Qed.

Lemma wait_1 : wait_exponential 1 2 10 1 = 2.
Proof. reflexivity. Qed.

Lemma wait_2 : wait_exponential 1 2 10 2 = 2.
Proof. reflexivity. Qed.

(** ** Calls against a session id that is not in the store *)

Lemma process_request_unknown_run E w sid rq :
  sessions (mgr w) !! sid = None ->
  process_request sid rq E w
  = (Raised (RetryError (not_found_error sid)),
     begin_attempt 3 (backoff 2 (begin_attempt 2 (backoff 1 (begin_attempt 1 w))))).
Proof.
  intros Hs. rewrite process_request_eq.
  erewrite retrying_again; [|lia|by apply body_not_found].
  erewrite retrying_again; [|lia|by apply body_not_found].
  erewrite retrying_exhausted; [done|by apply body_not_found].
Qed.

(** C3, as the code has it: a [process_request] for a session id that is not in
    the store goes through the retrying loop like any other failure.  The
    lookup is made in each of three attempts, with a sleep of 2 seconds after
    the first and after the second, and the caller gets a [RetryError] around
    the "Session not found" exception; the manager itself is left as it was. *)
Theorem process_request_unknown_session E w sid rq :
  sessions (mgr w) !! sid = None ->
  let r := process_request sid rq E w in
  r.1 = Raised (RetryError (not_found_error sid))
  /\ trace r.2 = trace w ++ [EvAttempt 1; EvSleep 2; EvAttempt 2; EvSleep 2; EvAttempt 3]
  /\ clock r.2 = clock w + 4
  /\ mgr r.2 = mgr w.
Proof.
  intros Hs r. subst r. rewrite process_request_unknown_run by done.
  cbn. rewrite <- !app_assoc. repeat split. rewrite wait_1, wait_2. lia.
Qed.

(** ** Three failed attempts *)

Lemma process_request_exhausted_run E w sid rq s e1 e2 e3 :
  sessions (mgr w) !! sid = Some s ->
  create_result (env_create E (n_create w)) = Raised e1 ->
  create_result (env_create E (S (n_create w))) = Raised e2 ->
  create_result (env_create E (S (S (n_create w)))) = Raised e3 ->
  process_request sid rq E w
  = (Raised (RetryError e3),
     exhausted sid rq s e1 e2 e3
       (create_latency (env_create E (n_create w)))
       (create_latency (env_create E (S (n_create w))))
       (create_latency (env_create E (S (S (n_create w))))) w).
Proof.
  intros Hs H1 H2 H3. rewrite process_request_eq.
  erewrite retrying_again; [|lia|by apply body_fail].
  erewrite retrying_again; [|lia|apply body_fail; [apply lookup_insert_eq|exact H2]].
  erewrite retrying_exhausted; [reflexivity|].
  apply body_fail; [apply lookup_insert_eq|exact H3].
Qed.

Lemma length_even_odd_3 {A} (l : list A) (a b c : A) :
  Nat.Even (length l) -> Nat.Odd (length (l ++ [a; b; c])).
Proof.
  intros [n Hn]. exists (S n). rewrite length_app. cbn. lia.
Qed.

(** C4, as the code has it: when the provider raises in all three attempts of a
    [process_request], the caller gets tenacity's [RetryError] around the error
    of the last attempt, not that error itself, and the [except] block has run
    once in each attempt: the error counters have been bumped three times, so
    a counter whose class all three errors share has grown by 3. *)
Theorem process_request_exhausted_error E w sid rq s e1 e2 e3 :
  sessions (mgr w) !! sid = Some s ->
  create_result (env_create E (n_create w)) = Raised e1 ->
  create_result (env_create E (S (n_create w))) = Raised e2 ->
  create_result (env_create E (S (S (n_create w)))) = Raised e3 ->
  let r := process_request sid rq E w in
  r.1 = Raised (RetryError e3)
  /\ stats (mgr r.2)
     = count_error (type_name e3)
         (count_error (type_name e2) (count_error (type_name e1) (stats (mgr w))))
  /\ (type_name e1 = type_name e3 -> type_name e2 = type_name e3 ->
      errors (stats (mgr r.2)) !! type_name e3
      = Some (default 0 (errors (stats (mgr w)) !! type_name e3) + 3)).
Proof.
  intros Hs H1 H2 H3 r. subst r.
  rewrite (process_request_exhausted_run _ _ _ _ s e1 e2 e3) by done.
  cbn. split; [done|]. split; [done|]. intros -> ->.
  rewrite !lookup_insert_eq. cbn. f_equal. lia.
Qed.

(** C5, amended: when the provider raises in all three attempts of a
    [process_request] against an existing session, every session of the store
    is still there afterwards; the session's history is the history before the
    call followed by user messages carrying the prompt, one per attempt, and
    by no assistant message; its usage is unchanged; the resulting length is
    odd when the length before the call was even; the global request and
    token counters are unchanged. *)
Theorem process_request_exhausted_session E w sid rq s e1 e2 e3 :
  sessions (mgr w) !! sid = Some s ->
  create_result (env_create E (n_create w)) = Raised e1 ->
  create_result (env_create E (S (n_create w))) = Raised e2 ->
  create_result (env_create E (S (S (n_create w)))) = Raised e3 ->
  let r := process_request sid rq E w in
  let u := Message "user" (prompt rq) in
  (forall sid', is_Some (sessions (mgr w) !! sid') ->
                is_Some (sessions (mgr r.2) !! sid'))
  /\ (exists s',
        sessions (mgr r.2) !! sid = Some s'
        /\ message_history s' = message_history s ++ [u; u; u]
        /\ token_usage s' = token_usage s
        /\ (Nat.Even (length (message_history s)) ->
            Nat.Odd (length (message_history s'))))
  /\ total_requests (stats (mgr r.2)) = total_requests (stats (mgr w))
  /\ total_tokens (stats (mgr r.2)) = total_tokens (stats (mgr w)).
Proof.
  intros Hs H1 H2 H3 r u. subst r.
  rewrite (process_request_exhausted_run _ _ _ _ s e1 e2 e3) by done.
  cbn. split; [|split; [|done]].
  - intros sid' Hin. rewrite !insert_insert_eq.
    destruct (decide (sid' = sid)) as [->|Hne].
    + rewrite lookup_insert_eq. by eexists.
    + by rewrite lookup_insert_ne.
  - eexists. split; [apply lookup_insert_eq|]. cbn.
    rewrite <- !app_assoc. cbn. split; [done|]. split; [done|].
    apply length_even_odd_3.
Qed.

(** ** A success after failed attempts *)

Lemma process_request_second_attempt E w sid rq s e1 resp :
  sessions (mgr w) !! sid = Some s ->
  create_result (env_create E (n_create w)) = Raised e1 ->
  create_result (env_create E (S (n_create w))) = Returned resp ->
  exists res s',
    (process_request sid rq E w).1 = Returned res
    /\ sessions (mgr (process_request sid rq E w).2) !! sid = Some s'
    /\ message_history s'
       = message_history s
           ++ replicate 2 (Message "user" (prompt rq))
           ++ [Message "assistant" (extract_content (resp_content resp))].
Proof.
  intros Hs H1 H2. rewrite process_request_eq.
  erewrite retrying_again; [|lia|by apply body_fail].
  erewrite retrying_returns;
    [|apply body_ok; [apply lookup_insert_eq|exact H2]].
  do 2 eexists. split; [reflexivity|]. cbn.
  split; [apply lookup_insert_eq|]. cbn. by rewrite <- !app_assoc.
Qed.

Lemma process_request_third_attempt E w sid rq s e1 e2 resp :
  sessions (mgr w) !! sid = Some s ->
  create_result (env_create E (n_create w)) = Raised e1 ->
  create_result (env_create E (S (n_create w))) = Raised e2 ->
  create_result (env_create E (S (S (n_create w)))) = Returned resp ->
  exists res s',
    (process_request sid rq E w).1 = Returned res
    /\ sessions (mgr (process_request sid rq E w).2) !! sid = Some s'
    /\ message_history s'
       = message_history s
           ++ replicate 3 (Message "user" (prompt rq))
           ++ [Message "assistant" (extract_content (resp_content resp))].
Proof.
  intros Hs H1 H2 H3. rewrite process_request_eq.
  erewrite retrying_again; [|lia|by apply body_fail].
  erewrite retrying_again; [|lia|apply body_fail; [apply lookup_insert_eq|exact H2]].
  erewrite retrying_returns;
    [|apply body_ok; [apply lookup_insert_eq|exact H3]].
  do 2 eexists. split; [reflexivity|]. cbn.
  split; [apply lookup_insert_eq|]. cbn. by rewrite <- !app_assoc.
Qed.

(** C9: the retry wraps the whole body, so each attempt appends the prompt
    again.  When the provider raises in the first [k] attempts of a
    [process_request] ([k] is 1 or 2) and answers the next one, the call
    returns, and the session's history has gained [k + 1] user messages
    carrying the prompt followed by one assistant message. *)
Theorem process_request_retry_repeats_prompt E w sid rq s (k : nat) resp :
  sessions (mgr w) !! sid = Some s ->
  (1 <= k <= 2)%nat ->
  (forall i, (i < k)%nat ->
     exists e, create_result (env_create E (n_create w + i)%nat) = Raised e) ->
  create_result (env_create E (n_create w + k)%nat) = Returned resp ->
  let r := process_request sid rq E w in
  exists res s',
    r.1 = Returned res
    /\ sessions (mgr r.2) !! sid = Some s'
    /\ message_history s'
       = message_history s
           ++ replicate (S k) (Message "user" (prompt rq))
           ++ [Message "assistant" (extract_content (resp_content resp))].
Proof.
  intros Hs Hk Hfail Hok r. subst r.
  assert (k = 1 \/ k = 2)%nat as [-> | ->] by lia.
  - destruct (Hfail 0%nat) as [e1 H1]; [lia|].
    rewrite Nat.add_0_r in H1. rewrite Nat.add_1_r in Hok.
    by apply (process_request_second_attempt _ _ _ _ _ e1).
  - destruct (Hfail 0%nat) as [e1 H1]; [lia|].
    destruct (Hfail 1%nat) as [e2 H2]; [lia|].
    rewrite Nat.add_0_r in H1. rewrite Nat.add_1_r in H2.
    replace (n_create w + 2)%nat with (S (S (n_create w))) in Hok by lia.
    by apply (process_request_third_attempt _ _ _ _ _ e1 e2).
Qed.

(** ** Running a stream *)

Lemma append_assoc (a b c : string) : (a +:+ b) +:+ c = a +:+ (b +:+ c).
Proof.
  induction a as [|x a IH]; [reflexivity|].
  change (String x ((a +:+ b) +:+ c) = String x (a +:+ (b +:+ c))).
  by rewrite IH.
Qed.

Lemma append_empty_r (a : string) : a +:+ "" = a.
Proof.
  induction a as [|x a IH]; [reflexivity|].
  change (String x (a +:+ "") = String x a). by rewrite IH.
Qed.

Lemma consume_text_stream_run (acc : string) (fragments : list string) E w :
  consume_text_stream acc fragments E w
  = (Returned (acc +:+ join fragments),
     MkWorld (mgr w) (clock w) (n_uuid w) (n_create w) (n_stream w)
             (trace w ++ yield_events fragments)).
Proof.
  revert acc w. induction fragments as [|text rest IH]; intros acc w.
  - cbn. unfold ret. by rewrite append_empty_r, app_nil_r, world_eta.
  - cbn [consume_text_stream]. run_m. rewrite IH. cbn.
    by rewrite append_assoc, <- app_assoc.
Qed.

Lemma yields_app (l1 l2 : list event) : yields (l1 ++ l2) = yields l1 ++ yields l2.
Proof.
  induction l1 as [|ev l1 IH]; [done|]. destruct ev; cbn; by rewrite ?IH.
Qed.

Lemma yields_yield_events (fragments : list string) :
  yields (yield_events fragments) = sse <$> fragments.
Proof.
  induction fragments as [|t l IH]; [done|].
  change (sse t :: yields (yield_events l) = sse t :: (sse <$> l)).
  by rewrite IH.
Qed.

Lemma stream_not_found E w sid rq :
  sessions (mgr w) !! sid = None ->
  stream_response sid rq E w = (Raised (not_found_error sid), w).
Proof. intros Hs. unfold stream_response. run_m. by rewrite Hs. Qed.

Lemma stream_fail_run E w sid rq s e :
  sessions (mgr w) !! sid = Some s ->
  text_stream_raises (env_stream E (n_stream w)) = Some (OfException e) ->
  stream_response sid rq E w
  = (Returned tt, stream_failed sid rq s (env_stream E (n_stream w)) e w).
Proof.
  intros Hs He. unfold stream_response. run_m. rewrite Hs. run_m.
  rewrite consume_text_stream_run. run_m. rewrite He. run_m.
  unfold stream_failed, add_event, set_mgr, set_stats, set_sessions, stream_call,
    user_turn, stream_error_line.
  cbn. rewrite (alter_const_insert _ _ s) by done.
  by rewrite <- !app_assoc.
Qed.

Lemma stream_ok_run E w sid rq s u :
  sessions (mgr w) !! sid = Some s ->
  text_stream_raises (env_stream E (n_stream w)) = None ->
  get_final_message (env_stream E (n_stream w)) = Returned u ->
  stream_response sid rq E w
  = (Returned tt, stream_completed sid rq s (env_stream E (n_stream w)) u w).
Proof.
  intros Hs He Hu. unfold stream_response. run_m. rewrite Hs. run_m.
  rewrite consume_text_stream_run. run_m. rewrite He. run_m. rewrite Hu. run_m.
  unfold stream_completed, streamed, assistant_turn, add_event, set_mgr, set_stats,
    set_sessions, stream_call, user_turn.
  cbn. rewrite !alter_alter_eq. unfold compose.
  rewrite (alter_const_insert _ _ s) by done.
  by rewrite <- !app_assoc.
Qed.

Lemma stream_unaccounted_run E w sid rq s e :
  sessions (mgr w) !! sid = Some s ->
  text_stream_raises (env_stream E (n_stream w)) = None ->
  get_final_message (env_stream E (n_stream w)) = Raised e ->
  stream_response sid rq E w
  = (Returned tt, stream_unaccounted sid rq s (env_stream E (n_stream w)) e w).
Proof.
  intros Hs He Hu. unfold stream_response. run_m. rewrite Hs. run_m.
  rewrite consume_text_stream_run. run_m. rewrite He. run_m. rewrite Hu. run_m.
  unfold stream_unaccounted, assistant_turn, add_event, set_mgr, set_stats,
    set_sessions, stream_call, user_turn, stream_error_line.
  cbn. rewrite !alter_alter_eq. unfold compose.
  rewrite (alter_const_insert _ _ s) by done.
  by rewrite <- !app_assoc.
Qed.

Lemma stream_abort_run E w sid rq s b :
  sessions (mgr w) !! sid = Some s ->
  text_stream_raises (env_stream E (n_stream w)) = Some (OfBaseException b) ->
  stream_response sid rq E w
  = (RaisedBase b, stream_aborted sid rq s (env_stream E (n_stream w)) w).
Proof.
  intros Hs He. unfold stream_response. run_m. rewrite Hs. run_m.
  rewrite consume_text_stream_run. run_m. rewrite He. run_m.
  unfold stream_aborted, add_event, set_mgr, set_stats, set_sessions, stream_call,
    user_turn.
  cbn. rewrite (alter_const_insert _ _ s) by done.
  by rewrite <- !app_assoc.
Qed.

Lemma stream_unaccounted_abort_run E w sid rq s b :
  sessions (mgr w) !! sid = Some s ->
  text_stream_raises (env_stream E (n_stream w)) = None ->
  get_final_message (env_stream E (n_stream w)) = RaisedBase b ->
  stream_response sid rq E w
  = (RaisedBase b,
     stream_unaccounted_aborted sid rq s (env_stream E (n_stream w)) w).
Proof.
  intros Hs He Hu. unfold stream_response. run_m. rewrite Hs. run_m.
  rewrite consume_text_stream_run. run_m. rewrite He. run_m. rewrite Hu. run_m.
  unfold stream_unaccounted_aborted, assistant_turn, add_event, set_mgr, set_stats,
    set_sessions, stream_call, user_turn.
  cbn. rewrite !alter_alter_eq. unfold compose.
  rewrite (alter_const_insert _ _ s) by done.
  by rewrite <- !app_assoc.
Qed.

Lemma sleeps_app (l1 l2 : list event) : sleeps (l1 ++ l2) = sleeps l1 ++ sleeps l2.
Proof.
  induction l1 as [|ev l1 IH]; [done|]. destruct ev; cbn; by rewrite ?IH.
Qed.

Lemma sleeps_yield_events (fragments : list string) :
  sleeps (yield_events fragments) = [].
Proof. induction fragments as [|t l IH]; [done|]. exact IH. Qed.

(** C6, as the code has it: when the provider's stream completes with
    fragments f1..fn, [stream_response] yields each fragment in the order
    received and the [DONE] sentinel last, appends one assistant message that
    is the fragments joined in order, and folds the final usage into the
    session's usage.  The manager's [stats] are left exactly as they were:
    neither [total_requests] nor [total_tokens] sees the stream. *)
Theorem stream_response_completed E w sid rq s u :
  sessions (mgr w) !! sid = Some s ->
  text_stream_raises (env_stream E (n_stream w)) = None ->
  get_final_message (env_stream E (n_stream w)) = Returned u ->
  let fragments := text_stream (env_stream E (n_stream w)) in
  let r := stream_response sid rq E w in
  r.1 = Returned tt
  /\ (exists evs, trace r.2 = trace w ++ evs
                  /\ yields evs = (sse <$> fragments) ++ [done_event])
  /\ (exists s',
        sessions (mgr r.2) !! sid = Some s'
        /\ message_history s'
           = message_history s
               ++ [Message "user" (prompt rq); Message "assistant" (join fragments)]
        /\ input (token_usage s') = input (token_usage s) + input_tokens u
        /\ output (token_usage s') = output (token_usage s) + output_tokens u
        /\ total (token_usage s') = input (token_usage s') + output (token_usage s'))
  /\ stats (mgr r.2) = stats (mgr w)
  /\ join ["Hel"; "lo!"] = "Hello!".
Proof.
  intros Hs He Hu fragments r. subst r fragments.
  rewrite (stream_ok_run _ _ _ _ s u) by done. cbn.
  split; [done|]. split; [|split; [|done]].
  - eexists. split; [reflexivity|].
    cbn [yields]. by rewrite yields_app, yields_yield_events.
  - eexists. split; [apply lookup_insert_eq|]. cbn.
    rewrite usage_dict_input, usage_dict_output, <- app_assoc. done.
Qed.

(** C7: when the provider's [text_stream] raises an [Exception] after some
    fragments, [stream_response] yields those fragments and then one error
    event, and ends.  The error event is the line
    [data: {"error": "<text of the exception>"}] followed by two newlines,
    and is not the [DONE] sentinel.  The provider's stream is used once
    and nothing sleeps: there is no retry.  The session keeps the user message
    appended before streaming began and gets no assistant message; its usage
    and the global request and token counters are unchanged. *)
Theorem stream_response_failure E w sid rq s e :
  sessions (mgr w) !! sid = Some s ->
  text_stream_raises (env_stream E (n_stream w)) = Some (OfException e) ->
  let fragments := text_stream (env_stream E (n_stream w)) in
  let r := stream_response sid rq E w in
  let q := String "034"%char EmptyString in
  let nl := String "010"%char EmptyString in
  r.1 = Returned tt
  /\ (exists evs, trace r.2 = trace w ++ evs
                  /\ yields evs = (sse <$> fragments) ++ [error_event e]
                  /\ sleeps evs = [])
  /\ error_event e
     = "data: {" +:+ q +:+ "error" +:+ q +:+ ": " +:+ q +:+ str e +:+ q +:+ "}"
         +:+ nl +:+ nl
  /\ (forall text, sse text = "data: " +:+ text +:+ nl +:+ nl)
  /\ error_event e <> done_event
  /\ n_stream r.2 = S (n_stream w)
  /\ n_create r.2 = n_create w
  /\ (exists s',
        sessions (mgr r.2) !! sid = Some s'
        /\ message_history s' = message_history s ++ [Message "user" (prompt rq)]
        /\ token_usage s' = token_usage s)
  /\ total_requests (stats (mgr r.2)) = total_requests (stats (mgr w))
  /\ total_tokens (stats (mgr r.2)) = total_tokens (stats (mgr w)).
Proof.
  intros Hs He fragments r q nl. subst r fragments q nl.
  rewrite (stream_fail_run _ _ _ _ s e) by done. cbn.
  split; [done|]. split; [|split; [done|split; [done|split; [discriminate|]]]].
  - eexists. split; [reflexivity|]. split.
    + cbn [yields]. by rewrite yields_app, yields_yield_events.
    + cbn [sleeps]. by rewrite sleeps_app, sleeps_yield_events.
  - do 2 (split; [done|]). split; [|done].
    eexists. split; [apply lookup_insert_eq|]. done.
Qed.

(** ** The reap pass *)

Lemma expired_survivors_size now timeout (m : gmap string AgentSession) :
  (length (expired_ids now timeout m) + size (survivors now timeout m))%nat = size m.
Proof.
  unfold expired_ids, survivors. rewrite length_fmap.
  rewrite <- (map_filter_union_complement
                (fun item : string * AgentSession => idle_exceeds now timeout item.2) m)
    at 3.
  rewrite map_size_disj_union by apply map_disjoint_filter_complement.
  f_equal. rewrite map_filter_alt, map_size_list_to_map; [done|].
  apply NoDup_fmap_fst.
  - intros k x y [_ Hx]%list_elem_of_filter [_ Hy]%list_elem_of_filter.
    apply elem_of_map_to_list in Hx, Hy. congruence.
  - apply NoDup_filter, NoDup_map_to_list.
Qed.

Lemma lookup_survivors now timeout (m : gmap string AgentSession) sid :
  survivors now timeout m !! sid
  = match m !! sid with
    | Some s => if decide (idle_exceeds now timeout s) then None else Some s
    | None => None
    end.
Proof.
  unfold survivors. destruct (m !! sid) as [s|] eqn:Hs.
  - destruct (decide (idle_exceeds now timeout s)) as [Hd|Hd].
    + apply map_lookup_filter_None. right. intros s' Hs' Hn. cbn in Hn. congruence.
    + apply map_lookup_filter_Some. done.
  - apply map_lookup_filter_None. by left.
Qed.

(** C8, amended: one reap pass at clock reading [now] removes exactly the
    sessions with [now - last_activity > timeout]: such a session is absent
    afterwards, a session idle for at most the timeout is kept as it is, and
    no session appears.  The pass returns [None]; the number of sessions it
    removed goes to the log line "Cleanup completed" only, written when that
    number is not zero, together with the refreshed [active_sessions]. *)
Theorem reap_pass E w :
  let now := clock w in
  let timeout := session_timeout (mgr w) in
  let m := sessions (mgr w) in
  let r := _cleanup_expired_sessions_sync E w in
  let m' := sessions (mgr r.2) in
  let removed := (size m - size m')%nat in
  (forall sid s, m !! sid = Some s -> now - last_activity s > timeout ->
                 m' !! sid = None)
  /\ (forall sid s, m !! sid = Some s -> now - last_activity s <= timeout ->
                    m' !! sid = Some s)
  /\ (forall sid, m !! sid = None -> m' !! sid = None)
  /\ r.1 = Returned PNone
  /\ (removed = 0%nat -> trace r.2 = trace w /\ stats (mgr r.2) = stats (mgr w))
  /\ (removed <> 0%nat ->
      (exists evs,
         trace r.2
         = trace w ++ evs
             ++ [EvLog "info" "Cleanup completed"
                   [("expired_count", PInt (Z.of_nat removed));
                    ("active", PInt (Z.of_nat (size m')))]])
      /\ active_sessions (stats (mgr r.2)) = Z.of_nat (size m')).
Proof.
  intros now timeout m r m' removed. subst r m' removed.
  rewrite cleanup_sync_run. cbn [fst snd]. unfold reaped.
  cbn [mgr sessions clock trace stats].
  fold now timeout m.
  pose proof (expired_survivors_size now timeout m) as Hsize.
  split; [|split; [|split; [|split; [done|split]]]].
  - intros sid s Hs Hexp. rewrite lookup_survivors, Hs.
    by rewrite decide_True.
  - intros sid s Hs Hexp. rewrite lookup_survivors, Hs.
    rewrite decide_False; [done|]. unfold idle_exceeds. lia.
  - intros sid Hs. by rewrite lookup_survivors, Hs.
  - intros Hrem. destruct (expired_ids now timeout m) as [|k ids].
    + cbn. by rewrite app_nil_r.
    + cbn in Hsize. lia.
  - intros Hrem. destruct (expired_ids now timeout m) as [|k ids] eqn:Hids.
    + cbn in Hsize. lia.
    + split; [|done]. eexists.
      replace (size m - size (survivors now timeout m))%nat
        with (length (k :: ids)) by lia.
      reflexivity.
Qed.

(** The count of removed sessions is not what the reap pass returns: with one
    session idle for 400 seconds under a timeout of 300, the pass removes one
    session and returns [None]. *)
Lemma reap_pass_returns_none :
  let w := run_ops working_provider (initial_world 10 300 0)
                   [OpCreate "user-1" None; OpWait 400] in
  let r := _cleanup_expired_sessions_sync working_provider w in
  (size (sessions (mgr w)) - size (sessions (mgr r.2)))%nat = 1%nat
  /\ r.1 <> Returned (PInt 1).
Proof. vm_compute. split; [reflexivity|discriminate]. Qed.

(** ** Admission *)

Lemma create_session_run E w user_id system_prompt :
  create_session user_id system_prompt E w
  = if bool_decide (len_sessions w >= max_concurrent_sessions (mgr w)) then
      if bool_decide (len_sessions (reaped w) >= max_concurrent_sessions (mgr w)) then
        (Raised (capacity_error (max_concurrent_sessions (mgr w))), reaped w)
      else
        (Returned (env_uuid4 E (n_uuid w)), inserted user_id system_prompt E (reaped w))
    else
      (Returned (env_uuid4 E (n_uuid w)), inserted user_id system_prompt E w).
Proof.
  unfold create_session. run_m.
  destruct (bool_decide (len_sessions w >= max_concurrent_sessions (mgr w))).
  - run_m. rewrite cleanup_sync_run.
    change (max_concurrent_sessions (mgr (reaped w)))
      with (max_concurrent_sessions (mgr w)).
    destruct (bool_decide (len_sessions (reaped w) >= max_concurrent_sessions (mgr w))).
    + reflexivity.
    + reflexivity.
  - reflexivity.
Qed.

Lemma len_inserted user_id system_prompt E w :
  len_sessions (inserted user_id system_prompt E w) <= len_sessions w + 1.
Proof.
  unfold len_sessions, inserted. cbn [mgr sessions].
  pose proof (map_size_insert (env_uuid4 E (n_uuid w))
                (fresh_session (env_uuid4 E (n_uuid w)) user_id system_prompt (clock w))
                (sessions (mgr w))) as Hsz.
  destruct (sessions (mgr w) !! env_uuid4 E (n_uuid w)); cbn in Hsz; lia.
Qed.

Lemma delete_session_run E w sid :
  let w' := run (delete_session sid) E w in
  sessions (mgr w') = delete sid (sessions (mgr w))
  /\ max_concurrent_sessions (mgr w') = max_concurrent_sessions (mgr w)
  /\ session_timeout (mgr w') = session_timeout (mgr w)
  /\ n_uuid w' = n_uuid w
  /\ clock w' = clock w.
Proof.
  unfold run, delete_session. run_m.
  destruct (bool_decide (is_Some (sessions (mgr w) !! sid))) eqn:Hin.
  - run_m. done.
  - cbn. apply bool_decide_eq_false in Hin.
    rewrite delete_id; [done|]. by apply eq_None_not_Some.
Qed.

Lemma survivors_all now timeout (m : gmap string AgentSession) :
  (forall sid s, m !! sid = Some s -> now - last_activity s <= timeout) ->
  survivors now timeout m = m.
Proof.
  intros Hall. unfold survivors. apply map_filter_id.
  intros sid s Hs. cbn. unfold idle_exceeds. specialize (Hall sid s Hs). lia.
Qed.

Lemma create_session_general E w user_id system_prompt :
  let C := max_concurrent_sessions (mgr w) in
  let r := create_session user_id system_prompt E w in
  let after_reap := (_cleanup_expired_sessions_sync E w).2 in
  (forall sid, r.1 = Returned sid ->
               len_sessions r.2 <= C /\ max_concurrent_sessions (mgr r.2) = C)
  /\ (len_sessions w >= C -> len_sessions after_reap >= C ->
      r = (Raised (capacity_error C), after_reap))
  /\ (len_sessions w >= C -> len_sessions after_reap < C ->
      r = (Returned (env_uuid4 E (n_uuid w)),
           inserted user_id system_prompt E after_reap))
  /\ (len_sessions w < C ->
      r = (Returned (env_uuid4 E (n_uuid w)), inserted user_id system_prompt E w))
  /\ sessions (mgr after_reap)
     = survivors (clock w) (session_timeout (mgr w)) (sessions (mgr w)).
Proof.
  intros C r after_reap. subst r after_reap.
  rewrite cleanup_sync_run, create_session_run. cbn [snd]. fold C.
  split; [|split; [|split; [|split]]].
  - intros sid.
    destruct (bool_decide (len_sessions w >= C)) eqn:H1.
    + destruct (bool_decide (len_sessions (reaped w) >= C)) eqn:H2; [done|].
      intros _. cbn [snd]. apply bool_decide_eq_false in H2.
      pose proof (len_inserted user_id system_prompt E (reaped w)).
      split; [lia|done].
    + intros _. cbn [snd]. apply bool_decide_eq_false in H1.
      pose proof (len_inserted user_id system_prompt E w).
      split; [lia|done].
  - intros H1 H2. by rewrite !bool_decide_eq_true_2.
  - intros H1 H2. rewrite bool_decide_eq_true_2 by done.
    rewrite bool_decide_eq_false_2 by lia. done.
  - intros H1. by rewrite bool_decide_eq_false_2 by lia.
  - done.
Qed.

Lemma create_session_below E w user_id system_prompt :
  len_sessions w < max_concurrent_sessions (mgr w) ->
  create_session user_id system_prompt E w
  = (Returned (env_uuid4 E (n_uuid w)), inserted user_id system_prompt E w).
Proof.
  intros Hlt. rewrite create_session_run. by rewrite bool_decide_eq_false_2 by lia.
Qed.

Lemma create_session_full E w user_id system_prompt :
  len_sessions w >= max_concurrent_sessions (mgr w) ->
  len_sessions (reaped w) >= max_concurrent_sessions (mgr w) ->
  create_session user_id system_prompt E w
  = (Raised (capacity_error (max_concurrent_sessions (mgr w))), reaped w).
Proof.
  intros H1 H2. rewrite create_session_run. by rewrite !bool_decide_eq_true_2.
Qed.

Lemma capacity_two_scenario E timeout t0 (ua ub uc : string)
    (spa spb spc : option string) (d1 d2 d3 d4 : N) :
  env_uuid4 E 0 <> env_uuid4 E 1 ->
  Z.of_N d1 + Z.of_N d2 <= timeout ->
  let w2 := run_ops E (initial_world 2 timeout t0)
                    [OpCreate ua spa; OpWait d1; OpCreate ub spb; OpWait d2] in
  let w3 := run_ops E w2 [OpCreate uc spc; OpWait d3;
                          OpDelete (env_uuid4 E 0); OpWait d4] in
  size (sessions (mgr w2)) = 2%nat
  /\ (create_session uc spc E w2).1 = Raised (capacity_error 2)
  /\ sessions (mgr (create_session uc spc E w2).2) = sessions (mgr w2)
  /\ (create_session uc spc E w3).1 = Returned (env_uuid4 E 2)
  /\ is_Some (sessions (mgr (create_session uc spc E w3).2) !! env_uuid4 E 2)
  /\ (size (sessions (mgr (create_session uc spc E w3).2)) <= 2)%nat.
Proof.
  intros Hab Hidle w2 w3.
  set (A := env_uuid4 E 0) in *. set (B := env_uuid4 E 1) in *.
  set (sA := fresh_session A ua spa t0).
  set (sB := fresh_session B ub spb (t0 + Z.of_N d1)).
  set (m2 := <[B := sB]> (<[A := sA]> (∅ : gmap string AgentSession))).
  assert (Hsize2 : size m2 = 2%nat).
  { subst m2. rewrite map_size_insert_None.
    - by rewrite map_size_insert_None, map_size_empty by apply lookup_empty.
    - rewrite lookup_insert_ne by done. apply lookup_empty. }
  set (w0 := initial_world 2 timeout t0).
  set (w1 := set_clock (fun t => t + Z.of_N d1) (inserted ua spa E w0)).
  assert (Hw2 : w2 = set_clock (fun t => t + Z.of_N d2) (inserted ub spb E w1)).
  { subst w2. unfold run_ops. cbn [foldl step]. unfold run.
    rewrite (create_session_below E w0).
    2:{ unfold len_sessions. cbn [w0 initial_world AgentManager_init mgr sessions
          max_concurrent_sessions]. rewrite map_size_empty. lia. }
    cbn [snd]. fold w1.
    rewrite (create_session_below E w1); [done|].
    unfold len_sessions. cbn [w1 set_clock inserted mgr sessions max_concurrent_sessions
      w0 initial_world AgentManager_init].
    rewrite map_size_insert_None by apply lookup_empty. rewrite map_size_empty. lia. }
  assert (Hm2 : sessions (mgr w2) = m2) by (by rewrite Hw2).
  assert (Hmax2 : max_concurrent_sessions (mgr w2) = 2) by (by rewrite Hw2).
  assert (Ht2 : session_timeout (mgr w2) = timeout) by (by rewrite Hw2).
  assert (Hc2 : clock w2 = t0 + Z.of_N d1 + Z.of_N d2) by (by rewrite Hw2).
  assert (Hu2 : n_uuid w2 = 2%nat) by (by rewrite Hw2).
  clear Hw2. clearbody w2.
  assert (Hkeep : survivors (clock w2) timeout m2 = m2).
  { rewrite Hc2. apply survivors_all. intros sid s. subst m2.
    rewrite lookup_insert. case_decide as HB.
    - intros [= <-]. cbn [sB fresh_session last_activity]. lia.
    - rewrite lookup_insert. case_decide as HA; [|by rewrite lookup_empty].
      intros [= <-]. cbn [sA fresh_session last_activity]. lia. }
  assert (Hfull : create_session uc spc E w2 = (Raised (capacity_error 2), reaped w2)).
  { rewrite <- Hmax2. apply create_session_full.
    - unfold len_sessions. rewrite Hm2, Hsize2, Hmax2. lia.
    - unfold len_sessions, reaped. cbn [mgr sessions].
      rewrite Hm2, Ht2, Hkeep, Hsize2, Hmax2. lia. }
  assert (Hr2 : sessions (mgr (reaped w2)) = m2).
  { unfold reaped. cbn [mgr sessions]. by rewrite Hm2, Ht2, Hkeep. }
  split; [by rewrite Hm2|]. split; [by rewrite Hfull|].
  split; [by rewrite Hfull, Hm2|].
  set (wd := run (delete_session A) E (set_clock (fun t => t + Z.of_N d3) (reaped w2))).
  assert (Hw3 : w3 = set_clock (fun t => t + Z.of_N d4) wd).
  { subst w3 wd. unfold run_ops. cbn [foldl step]. unfold run. by rewrite Hfull. }
  pose proof (delete_session_run E (set_clock (fun t => t + Z.of_N d3) (reaped w2)) A)
    as Hdel.
  cbv zeta in Hdel. fold wd in Hdel. clearbody w3 wd.
  destruct Hdel as (Hds & Hdmax & _ & Hdu & _).
  cbn in Hds, Hdmax, Hdu.
  assert (Hm3 : sessions (mgr w3) = <[B := sB]> ∅).
  { rewrite Hw3. cbn [set_clock mgr]. rewrite Hds.
    change (survivors _ _ _) with (sessions (mgr (reaped w2))). rewrite Hr2.
    subst m2. rewrite delete_insert_ne by done. by rewrite delete_insert_eq, delete_empty. }
  assert (Hbelow : create_session uc spc E w3
                   = (Returned (env_uuid4 E (n_uuid w3)), inserted uc spc E w3)).
  { apply create_session_below. unfold len_sessions. rewrite Hm3.
    rewrite map_size_insert_None by apply lookup_empty. rewrite map_size_empty.
    rewrite Hw3. cbn [set_clock mgr]. rewrite Hdmax, Hmax2. lia. }
  assert (Hu3 : n_uuid w3 = 2%nat).
  { rewrite Hw3. cbn [set_clock n_uuid]. by rewrite Hdu, Hu2. }
  rewrite Hbelow, Hu3. cbn [fst snd inserted mgr sessions]. rewrite Hu3, Hm3.
  split; [done|]. split.
  - rewrite lookup_insert_eq. by eexists.
  - rewrite map_size_insert.
    rewrite map_size_insert_None by apply lookup_empty. rewrite map_size_empty.
    destruct (_ !! _); cbn; lia.
Qed.

(** ** What any call does to the session it is made against *)

Lemma process_request_session E w sid rq s :
  sessions (mgr w) !! sid = Some s ->
  let w' := (process_request sid rq E w).2 in
  exists s',
    sessions (mgr w') = <[sid := s']> (sessions (mgr w))
    /\ session_timeout (mgr w') = session_timeout (mgr w)
    /\ (env_causal E -> clock w <= last_activity s')
    /\ usage_step E s s'.
Proof.
  intros Hs w'. subst w'. rewrite process_request_eq.
  destruct (create_result (env_create E (n_create w))) as [r1|e1|b1] eqn:H1.
  { erewrite retrying_returns by (by apply body_ok).
    eexists. split; [reflexivity|]. split; [done|]. split.
    - intros [Hc _]. cbn. specialize (Hc (n_create w)). lia.
    - right; left. by exists (n_create w), r1. }
  2:{ erewrite retrying_aborts by (by apply body_abort).
      eexists. split; [reflexivity|]. split; [done|]. split.
      - intros _. cbn. lia.
      - by left. }
  erewrite retrying_again; [|lia|by apply body_fail].
  destruct (create_result (env_create E (S (n_create w)))) as [r2|e2|b2] eqn:H2.
  { erewrite retrying_returns
      by (apply body_ok; [apply lookup_insert_eq|exact H2]).
    eexists. split; [cbn; by rewrite insert_insert_eq|]. split; [done|]. split.
    - intros [Hc _]. cbn. rewrite wait_1.
      pose proof (Hc (n_create w)). pose proof (Hc (S (n_create w))). lia.
    - right; left. by exists (S (n_create w)), r2. }
  2:{ erewrite retrying_aborts
        by (apply body_abort; [apply lookup_insert_eq|exact H2]).
      eexists. split; [cbn; by rewrite insert_insert_eq|]. split; [done|]. split.
      - intros [Hc _]. cbn. rewrite wait_1. pose proof (Hc (n_create w)). lia.
      - by left. }
  erewrite retrying_again; [|lia|apply body_fail; [apply lookup_insert_eq|exact H2]].
  destruct (create_result (env_create E (S (S (n_create w))))) as [r3|e3|b3] eqn:H3.
  { erewrite retrying_returns
      by (apply body_ok; [apply lookup_insert_eq|exact H3]).
    eexists. split; [cbn; by rewrite !insert_insert_eq|]. split; [done|]. split.
    - intros [Hc _]. cbn. rewrite wait_1, wait_2.
      pose proof (Hc (n_create w)). pose proof (Hc (S (n_create w))).
      pose proof (Hc (S (S (n_create w)))). lia.
    - right; left. by exists (S (S (n_create w))), r3. }
  2:{ erewrite retrying_aborts
        by (apply body_abort; [apply lookup_insert_eq|exact H3]).
      eexists. split; [cbn; by rewrite !insert_insert_eq|]. split; [done|]. split.
      - intros [Hc _]. cbn. rewrite wait_1, wait_2.
        pose proof (Hc (n_create w)). pose proof (Hc (S (n_create w))). lia.
      - by left. }
  erewrite retrying_exhausted
    by (apply body_fail; [apply lookup_insert_eq|exact H3]).
  eexists. split; [cbn; by rewrite !insert_insert_eq|]. split; [done|]. split.
  - intros [Hc _]. cbn. rewrite wait_1, wait_2.
    pose proof (Hc (n_create w)). pose proof (Hc (S (n_create w))). lia.
  - by left.
Qed.

Lemma stream_response_session E w sid rq s :
  sessions (mgr w) !! sid = Some s ->
  let w' := (stream_response sid rq E w).2 in
  exists s',
    sessions (mgr w') = <[sid := s']> (sessions (mgr w))
    /\ session_timeout (mgr w') = session_timeout (mgr w)
    /\ (env_causal E -> clock w <= last_activity s')
    /\ usage_step E s s'.
Proof.
  intros Hs w'. subst w'.
  destruct (text_stream_raises (env_stream E (n_stream w))) as [[e|b]|] eqn:He.
  { rewrite (stream_fail_run _ _ _ _ s e) by done.
    eexists. split; [reflexivity|]. split; [done|]. split.
    - intros _. cbn. lia.
    - by left. }
  { rewrite (stream_abort_run _ _ _ _ s b) by done.
    eexists. split; [reflexivity|]. split; [done|]. split.
    - intros _. cbn. lia.
    - by left. }
  destruct (get_final_message (env_stream E (n_stream w))) as [u|e|b] eqn:Hu.
  - rewrite (stream_ok_run _ _ _ _ s u) by done.
    eexists. split; [reflexivity|]. split; [done|]. split.
    + intros [_ Hc]. cbn. specialize (Hc (n_stream w)). lia.
    + right; right. by exists (n_stream w), u.
  - rewrite (stream_unaccounted_run _ _ _ _ s e) by done.
    eexists. split; [reflexivity|]. split; [done|]. split.
    + intros [_ Hc]. cbn. specialize (Hc (n_stream w)). lia.
    + by left.
  - rewrite (stream_unaccounted_abort_run _ _ _ _ s b) by done.
    eexists. split; [reflexivity|]. split; [done|]. split.
    + intros [_ Hc]. cbn. specialize (Hc (n_stream w)). lia.
    + by left.
Qed.

(** ** Usage over the runs of the manager *)

Lemma update_token_usage_spec (usage : gmap string Z) (s : AgentSession) :
  let s' := update_token_usage usage s in
  input (token_usage s') = input (token_usage s) + dict_get usage "input_tokens" 0
  /\ output (token_usage s') = output (token_usage s) + dict_get usage "output_tokens" 0
  /\ total (token_usage s') = input (token_usage s') + output (token_usage s').
Proof. done. Qed.

Lemma usage_step_ok E s s' : usage_step E s s' -> usage_ok s -> usage_ok s'.
Proof.
  unfold usage_ok. intros [Heq | [(n & resp & _ & Heq) | (n & u & _ & Heq)]] Hok;
    rewrite Heq; [done| |]; cbn; lia.
Qed.

Lemma usage_step_le E s s' :
  env_nonneg E -> usage_ok s -> usage_step E s s' -> usage_le s s'.
Proof.
  unfold usage_ok, usage_le. intros [Hc Hs] Hok.
  intros [Heq | [(n & resp & Hr & Heq) | (n & u & Hu & Heq)]]; rewrite Heq.
  - lia.
  - apply Hc in Hr. cbn. rewrite usage_dict_input, usage_dict_output. lia.
  - apply Hs in Hu. cbn. rewrite usage_dict_input, usage_dict_output. lia.
Qed.

Lemma usage_step_refl E s : usage_step E s s.
Proof. by left. Qed.

(** Where a session found after a step comes from: from the session stored
    under the same id before, by a usage step, or from the insertion that ends
    a create. *)
Lemma step_sessions E w o sid s' :
  sessions (mgr (step E w o)) !! sid = Some s' ->
  (exists s, sessions (mgr w) !! sid = Some s /\ usage_step E s s')
  \/ (exists u sp, o = OpCreate u sp /\ sid = env_uuid4 E (n_uuid w)
                   /\ token_usage s' = TokenUsage 0 0 0).
Proof.
  destruct o as [u sp|sid0 rq|sid0 rq|sid0| |d]; cbn [step]; unfold run.
  - rewrite create_session_run.
    assert (Hreap : forall x, sessions (mgr (reaped w)) !! sid = Some x ->
                              sessions (mgr w) !! sid = Some x).
    { intros x. unfold reaped. cbn [mgr sessions]. rewrite lookup_survivors.
      destruct (sessions (mgr w) !! sid); [|done]. by case_decide. }
    assert (Hins : forall w0, (forall x, sessions (mgr w0) !! sid = Some x ->
                                 sessions (mgr w) !! sid = Some x) ->
                   n_uuid w0 = n_uuid w ->
                   sessions (mgr (inserted u sp E w0)) !! sid = Some s' ->
      (exists s, sessions (mgr w) !! sid = Some s /\ usage_step E s s')
      \/ (exists u0 sp0, OpCreate u sp = OpCreate u0 sp0
                         /\ sid = env_uuid4 E (n_uuid w)
                         /\ token_usage s' = TokenUsage 0 0 0)).
    { intros w0 Hw0 Hn. unfold inserted. cbn [mgr sessions]. rewrite Hn.
      rewrite lookup_insert. case_decide as Hk.
      - intros [= <-]. right. by exists u, sp.
      - intros Hx. left. exists s'. split; [by apply Hw0|apply usage_step_refl]. }
    destruct (bool_decide (len_sessions w >= max_concurrent_sessions (mgr w))).
    + destruct (bool_decide (len_sessions (reaped w) >= max_concurrent_sessions (mgr w)));
        cbn [snd].
      * intros Hx. left. exists s'. split; [by apply Hreap|apply usage_step_refl].
      * by apply Hins.
    + cbn [snd]. by apply Hins.
  - destruct (sessions (mgr w) !! sid0) as [s0|] eqn:Hs0.
    + destruct (process_request_session E w sid0 rq s0 Hs0) as (s1 & Hm & _ & _ & Hstep).
      rewrite Hm, lookup_insert. case_decide as Hk.
      * subst sid0. intros [= <-]. left. by exists s0.
      * intros Hx. left. exists s'. split; [done|apply usage_step_refl].
    + rewrite process_request_unknown_run by done. cbn.
      intros Hx. left. exists s'. split; [done|apply usage_step_refl].
  - destruct (sessions (mgr w) !! sid0) as [s0|] eqn:Hs0.
    + destruct (stream_response_session E w sid0 rq s0 Hs0) as (s1 & Hm & _ & _ & Hstep).
      rewrite Hm, lookup_insert. case_decide as Hk.
      * subst sid0. intros [= <-]. left. by exists s0.
      * intros Hx. left. exists s'. split; [done|apply usage_step_refl].
    + rewrite stream_not_found by done. cbn.
      intros Hx. left. exists s'. split; [done|apply usage_step_refl].
  - destruct (delete_session_run E w sid0) as (Hm & _). unfold run in Hm.
    rewrite Hm. intros [_ Hx]%lookup_delete_Some.
    left. exists s'. split; [done|apply usage_step_refl].
  - unfold cleanup_round. run_m. destruct (is_shutting_down (mgr w)).
    + cbn. intros Hx. left. exists s'. split; [done|apply usage_step_refl].
    + run_m. rewrite cleanup_sync_run. cbn. rewrite lookup_survivors.
      destruct (sessions (mgr w) !! sid) as [s|]; [|done]. case_decide; [done|].
      intros [= <-]. left. exists s. split; [done|apply usage_step_refl].
  - cbn. intros Hx. left. exists s'. split; [done|apply usage_step_refl].
Qed.

Lemma run_ops_snoc E w ops o :
  run_ops E w (ops ++ [o]) = step E (run_ops E w ops) o.
Proof. unfold run_ops. by rewrite foldl_app. Qed.

Lemma reachable_usage_ok E max_sessions timeout t0 ops sid s :
  sessions (mgr (run_ops E (initial_world max_sessions timeout t0) ops)) !! sid = Some s ->
  usage_ok s.
Proof.
  revert sid s. induction ops as [|o ops IH] using rev_ind; intros sid s.
  - cbn. by rewrite lookup_empty.
  - rewrite run_ops_snoc. intros [(s0 & Hs0 & Hstep) | (u & sp & _ & _ & Hfresh)]%step_sessions.
    + eapply usage_step_ok; [exact Hstep|]. by eapply IH.
    + unfold usage_ok. by rewrite Hfresh.
Qed.

(** C2: [update_token_usage] adds the reported input and output tokens and
    recomputes [total] as their sum.  In every world the manager can reach
    from its construction, whatever the sequence of calls, every session has
    [total = input + output]; and when every usage the provider reports is
    non-negative, no step lowers the input, output or total of a session that
    is in the store before and after it (a create is assumed not to draw the
    id of a session already stored). *)
Theorem token_usage_invariant :
  (forall usage s,
     let s' := update_token_usage usage s in
     input (token_usage s') = input (token_usage s) + dict_get usage "input_tokens" 0
     /\ output (token_usage s') = output (token_usage s) + dict_get usage "output_tokens" 0
     /\ total (token_usage s') = input (token_usage s') + output (token_usage s'))
  /\ (forall E max_sessions timeout t0 ops,
        env_nonneg E ->
        let w := run_ops E (initial_world max_sessions timeout t0) ops in
        (forall sid s, sessions (mgr w) !! sid = Some s -> usage_ok s)
        /\ (forall o sid s s',
              sessions (mgr w) !! sid = Some s ->
              sessions (mgr (step E w o)) !! sid = Some s' ->
              (forall u sp, o = OpCreate u sp -> env_uuid4 E (n_uuid w) <> sid) ->
              usage_le s s' /\ usage_ok s')).
Proof.
  split; [apply update_token_usage_spec|].
  intros E max_sessions timeout t0 ops Hnn w. split.
  - intros sid s. apply reachable_usage_ok.
  - intros o sid s s' Hs Hs' Hfresh.
    assert (Hok : usage_ok s) by (by eapply reachable_usage_ok).
    apply step_sessions in Hs' as [(s0 & Hs0 & Hstep) | (u & sp & -> & -> & _)].
    + assert (s0 = s) as -> by congruence.
      split; [by eapply usage_step_le|by eapply usage_step_ok].
    + by destruct (Hfresh u sp).
Qed.

(** C10: [add_message] appends the message and sets [last_activity] to the
    current clock reading.  So after a [process_request] or a
    [stream_response] against an existing session, whether the provider
    answered or raised, the session is in the store with a [last_activity]
    not earlier than the start of the call (the provider taking no negative
    time), and a reap pass at any reading [now] with
    [now - start <= timeout] keeps it. *)
Theorem activity_resets_idle_clock :
  (forall role content s E w,
     exists s', add_message role content s E w = (Returned s', w)
                /\ last_activity s' = clock w
                /\ message_history s' = message_history s ++ [Message role content])
  /\ (forall E w sid rq s w',
        sessions (mgr w) !! sid = Some s ->
        env_causal E ->
        w' = run (process_request sid rq) E w
        \/ w' = run (stream_response sid rq) E w ->
        exists s',
          sessions (mgr w') !! sid = Some s'
          /\ clock w <= last_activity s'
          /\ forall E' now,
               now - clock w <= session_timeout (mgr w) ->
               sessions (mgr (run _cleanup_expired_sessions_sync E'
                                  (set_clock (fun _ => now) w'))) !! sid
               = Some s').
Proof.
  split.
  - intros role content s E w. eexists. split; [reflexivity|]. done.
  - intros E w sid rq s w' Hs Hc Hw'.
    assert (exists s', sessions (mgr w') = <[sid := s']> (sessions (mgr w))
                       /\ session_timeout (mgr w') = session_timeout (mgr w)
                       /\ clock w <= last_activity s') as (s' & Hm & Ht & Hact).
    { destruct Hw' as [-> | ->]; unfold run.
      - destruct (process_request_session E w sid rq s Hs) as (s' & ? & ? & ? & _).
        exists s'. auto.
      - destruct (stream_response_session E w sid rq s Hs) as (s' & ? & ? & ? & _).
        exists s'. auto. }
    exists s'. split; [by rewrite Hm, lookup_insert_eq|]. split; [done|].
    intros E' now Hnow. unfold run. rewrite cleanup_sync_run. cbn.
    rewrite lookup_survivors, Hm, lookup_insert_eq, Ht.
    rewrite decide_False; [done|]. unfold idle_exceeds. lia.
Qed.

(** C1: after every successful [create_session] the store holds at most
    [max_concurrent_sessions] sessions.  A create that finds the store full
    runs one reap pass first; if the store is still full it raises the
    exception that carries the limit, an [Exception] whose text is
    "Maximum concurrent sessions reached: " followed by the limit, and leaves
    the world as the reap pass left it, and otherwise it inserts into what
    the reap pass left.  With a limit of 2: after creating A and B (with
    distinct ids, and neither idle beyond the timeout) a third create raises
    that exception with limit 2 and leaves the store as it was, and after
    deleting A the third create returns the id of a session then in the
    store. *)
Theorem create_session_capacity :
  (forall E w user_id system_prompt,
     let C := max_concurrent_sessions (mgr w) in
     let r := create_session user_id system_prompt E w in
     let after_reap := (_cleanup_expired_sessions_sync E w).2 in
     (forall sid, r.1 = Returned sid ->
                  len_sessions r.2 <= C /\ max_concurrent_sessions (mgr r.2) = C)
     /\ (len_sessions w >= C -> len_sessions after_reap >= C ->
         r = (Raised (capacity_error C), after_reap))
     /\ (len_sessions w >= C -> len_sessions after_reap < C ->
         r = (Returned (env_uuid4 E (n_uuid w)),
              inserted user_id system_prompt E after_reap))
     /\ (len_sessions w < C ->
         r = (Returned (env_uuid4 E (n_uuid w)), inserted user_id system_prompt E w))
     /\ sessions (mgr after_reap)
        = survivors (clock w) (session_timeout (mgr w)) (sessions (mgr w))
     /\ capacity_error C
        = Exc "Exception" ("Maximum concurrent sessions reached: " +:+ pretty C))
  /\ (forall E timeout t0 (ua ub uc : string) (spa spb spc : option string)
             (d1 d2 d3 d4 : N),
        env_uuid4 E 0 <> env_uuid4 E 1 ->
        Z.of_N d1 + Z.of_N d2 <= timeout ->
        let w2 := run_ops E (initial_world 2 timeout t0)
                          [OpCreate ua spa; OpWait d1; OpCreate ub spb; OpWait d2] in
        let w3 := run_ops E w2 [OpCreate uc spc; OpWait d3;
                                OpDelete (env_uuid4 E 0); OpWait d4] in
        size (sessions (mgr w2)) = 2%nat
        /\ (create_session uc spc E w2).1
           = Raised (Exc "Exception" "Maximum concurrent sessions reached: 2")
        /\ sessions (mgr (create_session uc spc E w2).2) = sessions (mgr w2)
        /\ (create_session uc spc E w3).1 = Returned (env_uuid4 E 2)
        /\ is_Some (sessions (mgr (create_session uc spc E w3).2) !! env_uuid4 E 2)
        /\ (size (sessions (mgr (create_session uc spc E w3).2)) <= 2)%nat).
Proof.
  split.
  - intros E w user_id system_prompt.
    pose proof (create_session_general E w user_id system_prompt) as H.
    cbv zeta in H |- *. destruct H as (H1 & H2 & H3 & H4 & H5).
    do 4 (split; [assumption|]). split; [assumption|reflexivity].
  - intros E timeout t0 ua ub uc spa spb spc d1 d2 d3 d4 Hne Hd.
    exact (capacity_two_scenario E timeout t0 ua ub uc spa spb spc d1 d2 d3 d4
             Hne Hd).
Qed.

(** ** The theorems at sample inputs *)

(** A store with one session, created at clock reading 0. *)
Lemma one_session E :
  sessions (mgr (run_ops E (initial_world 10 300 0) [OpCreate "user-123" None]))
    !! env_uuid4 E 0
  = Some (fresh_session (env_uuid4 E 0) "user-123" None 0).
Proof.
  unfold run_ops. cbn [foldl step]. unfold run.
  rewrite create_session_below.
  - cbn. apply lookup_insert_eq.
  - unfold len_sessions. cbn. rewrite map_size_empty. lia.
Qed.

Lemma process_request_unknown_session_witness :
  sessions (mgr (initial_world 10 300 0)) !! "invalid-session" = None
  /\ (process_request "invalid-session" sample_request working_provider
        (initial_world 10 300 0)).1
     = Raised (RetryError (not_found_error "invalid-session")).
Proof.
  split; [reflexivity|].
  exact (proj1 (process_request_unknown_session working_provider
                  (initial_world 10 300 0) "invalid-session" sample_request
                  eq_refl)).
Defined.

Lemma process_request_exhausted_error_witness :
  let w := run_ops failing_provider (initial_world 10 300 0)
                   [OpCreate "user-123" None] in
  let r := process_request (sample_uuid 0) sample_request failing_provider w in
  r.1 = Raised (RetryError api_error)
  /\ errors (stats (mgr r.2)) !! "APIError" = Some 3.
Proof.
  intros w r.
  destruct (process_request_exhausted_error failing_provider w (sample_uuid 0)
              sample_request _ api_error api_error api_error
              (one_session failing_provider) eq_refl eq_refl eq_refl)
    as (Hr & _ & Hcount).
  split; [exact Hr|]. exact (Hcount eq_refl eq_refl).
Defined.

Lemma process_request_exhausted_session_witness :
  let w := run_ops failing_provider (initial_world 10 300 0)
                   [OpCreate "user-123" None] in
  let r := process_request (sample_uuid 0) sample_request failing_provider w in
  exists s',
    sessions (mgr r.2) !! sample_uuid 0 = Some s'
    /\ message_history s'
       = [Message "user" "Hello"; Message "user" "Hello"; Message "user" "Hello"]
    /\ Nat.Odd (length (message_history s')).
Proof.
  intros w r.
  destruct (process_request_exhausted_session failing_provider w (sample_uuid 0)
              sample_request _ api_error api_error api_error
              (one_session failing_provider) eq_refl eq_refl eq_refl)
    as (_ & (s' & Hs' & Hh & _ & Hodd) & _).
  exists s'. split; [exact Hs'|]. split; [exact Hh|].
  apply Hodd. exists 0%nat. reflexivity.
Defined.

(** The claim C5 as stated fails on a session whose history has odd length:
    after one exhausted [process_request] the history holds three user
    messages, and after a second exhausted call it holds six. *)
Lemma exhausted_twice_even_history :
  let w := run_ops failing_provider (initial_world 10 300 0)
                   [OpCreate "user-123" None;
                    OpProcess (sample_uuid 0) sample_request] in
  let r := process_request (sample_uuid 0) sample_request failing_provider w in
  (length ∘ message_history <$> sessions (mgr w) !! sample_uuid 0) = Some 3%nat
  /\ r.1 = Raised (RetryError api_error)
  /\ (length ∘ message_history <$> sessions (mgr r.2) !! sample_uuid 0) = Some 6%nat
  /\ ~ Nat.Odd 6.
Proof.
  intros w r. split; [|split; [|split]].
  - vm_compute. reflexivity.
  - vm_compute. reflexivity.
  - vm_compute. reflexivity.
  - intros [k Hk]. lia.
Qed.

Lemma process_request_retry_repeats_prompt_witness :
  let w := run_ops (flaky_provider 1) (initial_world 10 300 0)
                   [OpCreate "user-123" None] in
  let r := process_request (sample_uuid 0) sample_request (flaky_provider 1) w in
  exists res s',
    r.1 = Returned res
    /\ sessions (mgr r.2) !! sample_uuid 0 = Some s'
    /\ message_history s'
       = [Message "user" "Hello"; Message "user" "Hello";
          Message "assistant" "Hello! How can I help?"].
Proof.
  intros w r.
  refine (process_request_retry_repeats_prompt (flaky_provider 1) w (sample_uuid 0)
            sample_request _ 1
            (MkResponse [TextBlock "Hello! How can I help?"] (MkUsage 10 20))
            (one_session (flaky_provider 1)) _ _ eq_refl).
  - lia.
  - intros i Hi. exists api_error.
    destruct i as [|i]; [reflexivity|lia].
Defined.

Lemma stream_response_completed_witness :
  let w := run_ops working_provider (initial_world 10 300 0)
                   [OpCreate "user-123" None] in
  let r := stream_response (sample_uuid 0) sample_request working_provider w in
  stats (mgr r.2) = stats (mgr w)
  /\ exists s',
       sessions (mgr r.2) !! sample_uuid 0 = Some s'
       /\ message_history s' = [Message "user" "Hello"; Message "assistant" "Hello!"]
       /\ total (token_usage s') = 30.
Proof.
  intros w r.
  destruct (stream_response_completed working_provider w (sample_uuid 0)
              sample_request _ (MkUsage 10 20)
              (one_session working_provider) eq_refl eq_refl)
    as (_ & _ & (s' & Hs' & Hh & Hi & Ho & Ht) & Hstats & _).
  split; [exact Hstats|]. exists s'. split; [exact Hs'|]. split; [exact Hh|].
  rewrite Ht, Hi, Ho. reflexivity.
Defined.

Lemma stream_response_failure_witness :
  let w := run_ops failing_provider (initial_world 10 300 0)
                   [OpCreate "user-123" None] in
  let r := stream_response (sample_uuid 0) sample_request failing_provider w in
  r.1 = Returned tt
  /\ exists evs, trace r.2 = trace w ++ evs
                 /\ yields evs = [sse "Hel"; sse "lo!"; error_event api_error].
Proof.
  intros w r.
  destruct (stream_response_failure failing_provider w (sample_uuid 0)
              sample_request _ api_error
              (one_session failing_provider) eq_refl)
    as (Hr & (evs & Htr & Hy & _) & _).
  split; [exact Hr|]. exists evs. split; [exact Htr|exact Hy].
Defined.

Lemma reap_pass_witness :
  let w := run_ops working_provider (initial_world 10 300 0)
                   [OpCreate "user-1" None; OpWait 400] in
  (_cleanup_expired_sessions_sync working_provider w).1 = Returned PNone.
Proof.
  intros w.
  exact (proj1 (proj2 (proj2 (proj2 (reap_pass working_provider w))))).
Defined.

Lemma working_provider_nonneg : env_nonneg working_provider.
Proof.
  split.
  - intros n resp [= <-]. cbn. lia.
  - intros n u [= <-]. cbn. lia.
Defined.

Lemma token_usage_invariant_witness :
  env_nonneg working_provider
  /\ forall sid s,
       sessions (mgr (run_ops working_provider (initial_world 10 300 0)
                        [OpCreate "user-123" None;
                         OpProcess (sample_uuid 0) sample_request])) !! sid
       = Some s ->
       usage_ok s.
Proof.
  split; [exact working_provider_nonneg|].
  exact (proj1 (proj2 token_usage_invariant working_provider 10 300 0
                  [OpCreate "user-123" None;
                   OpProcess (sample_uuid 0) sample_request]
                  working_provider_nonneg)).
Defined.

Lemma activity_resets_idle_clock_witness :
  let w := run_ops failing_provider (initial_world 10 300 0)
                   [OpCreate "user-123" None] in
  let w' := run (process_request (sample_uuid 0) sample_request) failing_provider w in
  exists s',
    sessions (mgr w') !! sample_uuid 0 = Some s'
    /\ sessions (mgr (run _cleanup_expired_sessions_sync failing_provider
                          (set_clock (fun _ => 300) w'))) !! sample_uuid 0
       = Some s'.
Proof.
  intros w w'.
  assert (Hc : env_causal failing_provider) by (split; intros n; cbn; lia).
  destruct (proj2 activity_resets_idle_clock failing_provider w (sample_uuid 0)
              sample_request _ w' (one_session failing_provider) Hc
              (or_introl eq_refl))
    as (s' & Hs' & _ & Hkeep).
  exists s'. split; [exact Hs'|]. apply Hkeep.
  vm_compute. discriminate.
Defined.

Lemma create_session_capacity_witness :
  let E := working_provider in
  let w2 := run_ops E (initial_world 2 300 0)
                    [OpCreate "A" None; OpWait 10; OpCreate "B" None; OpWait 20] in
  let w3 := run_ops E w2 [OpCreate "C" None; OpWait 30;
                          OpDelete (sample_uuid 0); OpWait 40] in
  (create_session "C" None E w2).1
  = Raised (Exc "Exception" "Maximum concurrent sessions reached: 2")
  /\ (create_session "C" None E w3).1 = Returned (sample_uuid 2).
Proof.
  intros E w2 w3.
  assert (H1 : env_uuid4 E 0 <> env_uuid4 E 1) by (vm_compute; discriminate).
  assert (H2 : Z.of_N 10 + Z.of_N 20 <= 300) by (vm_compute; discriminate).
  destruct (proj2 create_session_capacity E 300 0 "A" "B" "C" None None None
              10%N 20%N 30%N 40%N H1 H2)
    as (_ & Hfull & _ & Hok & _).
  split; [exact Hfull|exact Hok].
Defined.

(** ** Content operations keep the store *)

Lemma grows_refl s : grows s s.
Proof. by repeat split. Qed.

Lemma grows_trans s1 s2 s3 : grows s1 s2 -> grows s2 s3 -> grows s1 s3.
Proof.
  intros (?&?&?&?&?) (?&?&?&?&?). repeat split; try congruence. by etrans.
Qed.

Lemma world_grows_refl w : world_grows w w.
Proof.
  repeat split; try done; try lia.
  intros sid s Hs. exists s. split; [done|apply grows_refl].
Qed.

Lemma world_grows_trans w1 w2 w3 :
  world_grows w1 w2 -> world_grows w2 w3 -> world_grows w1 w3.
Proof.
  intros (Ha & Hb & ? & ? & ? & ? & ? & ? & He & ? & ? & ? & ?)
         (Ha' & Hb' & ? & ? & ? & ? & ? & ? & He' & ? & ? & ? & ?).
  repeat split; try congruence; try lia; try (by etrans).
  - intros sid s Hs. destruct (Ha sid s Hs) as (s' & Hs' & Hg).
    destruct (Ha' sid s' Hs') as (s'' & Hs'' & Hg').
    exists s''. split; [done|by eapply grows_trans].
  - intros sid Hs. by apply Hb', Hb.
  - intros name. specialize (He name). specialize (He' name). lia.
Qed.

Lemma world_grows_add_event ev w : world_grows w (add_event ev w).
Proof.
  repeat split; try done; try lia.
  - intros sid s Hs. exists s. split; [done|apply grows_refl].
  - cbn. by apply prefix_app_r.
Qed.

Lemma world_grows_set_clock f w : world_grows w (set_clock f w).
Proof.
  repeat split; try done; try lia.
  intros sid s Hs. exists s. split; [done|apply grows_refl].
Qed.

Lemma error_count_count_error name name' st :
  error_count st name' <= error_count (count_error name st) name'.
Proof.
  unfold error_count, count_error. cbn. rewrite lookup_insert.
  case_decide as Hk; [subst; cbn; lia|lia].
Qed.

(** A world that differs from [w] by a grown session under [sid], more
    requests, more errors and a longer trace. *)
Lemma world_grows_session w w' sid s s' :
  sessions (mgr w) !! sid = Some s ->
  grows s s' ->
  sessions (mgr w') = <[sid := s']> (sessions (mgr w)) ->
  max_concurrent_sessions (mgr w') = max_concurrent_sessions (mgr w) ->
  session_timeout (mgr w') = session_timeout (mgr w) ->
  is_shutting_down (mgr w') = is_shutting_down (mgr w) ->
  active_sessions (stats (mgr w')) = active_sessions (stats (mgr w)) ->
  total_sessions (stats (mgr w')) = total_sessions (stats (mgr w)) ->
  total_requests (stats (mgr w)) <= total_requests (stats (mgr w')) ->
  (forall name, error_count (stats (mgr w)) name <= error_count (stats (mgr w')) name) ->
  n_uuid w' = n_uuid w ->
  (n_create w <= n_create w')%nat ->
  (n_stream w <= n_stream w')%nat ->
  trace w `prefix_of` trace w' ->
  world_grows w w'.
Proof.
  intros Hs Hg Hm. intros. repeat split; try done.
  - intros sid0 s0 Hs0. rewrite Hm, lookup_insert. case_decide as Hk.
    + subst sid0. exists s'. split; [done|]. congruence.
    + exists s0. split; [done|apply grows_refl].
  - intros sid0 Hs0. rewrite Hm, lookup_insert_ne; [done|]. congruence.
Qed.

Lemma grows_user_turn now text s : grows s (user_turn now text s).
Proof. repeat split. cbn. by apply prefix_app_r. Qed.

Lemma grows_assistant_turn now text s : grows s (assistant_turn now text s).
Proof. repeat split. cbn. by apply prefix_app_r. Qed.

Lemma grows_update_token_usage usage s : grows s (update_token_usage usage s).
Proof. by repeat split. Qed.

Lemma grows_answered now latency rq resp s : grows s (answered now latency rq resp s).
Proof.
  unfold answered. eapply grows_trans; [apply grows_user_turn|].
  eapply grows_trans; [apply grows_assistant_turn|apply grows_update_token_usage].
Qed.

Lemma world_grows_attempt_failed sid rq s e latency w :
  sessions (mgr w) !! sid = Some s ->
  world_grows w (attempt_failed sid rq s e latency w).
Proof.
  intros Hs.
  apply (world_grows_session _ _ sid s (user_turn (clock w) (prompt rq) s));
    try done; cbn; try lia.
  - apply grows_user_turn.
  - intros name. apply error_count_count_error.
  - by apply prefix_app_r.
Qed.

Lemma world_grows_attempt_aborted sid rq s latency w :
  sessions (mgr w) !! sid = Some s ->
  world_grows w (attempt_aborted sid rq s latency w).
Proof.
  intros Hs.
  apply (world_grows_session _ _ sid s (user_turn (clock w) (prompt rq) s));
    try done; cbn; try lia.
  - apply grows_user_turn.
  - by apply prefix_app_r.
Qed.

Lemma world_grows_attempt_succeeded sid rq s resp latency w :
  sessions (mgr w) !! sid = Some s ->
  world_grows w (attempt_succeeded sid rq s resp latency w).
Proof.
  intros Hs.
  apply (world_grows_session _ _ sid s (answered (clock w) latency rq resp s));
    try done; cbn; try lia.
  - apply grows_answered.
  - by apply prefix_app_r.
Qed.

Lemma world_grows_body E w sid rq :
  world_grows w (process_request_body sid rq E w).2.
Proof.
  destruct (sessions (mgr w) !! sid) as [s|] eqn:Hs.
  - destruct (create_result (env_create E (n_create w))) as [resp|e|b] eqn:Hr.
    + rewrite (body_ok _ _ _ _ s resp) by done.
      by apply world_grows_attempt_succeeded.
    + rewrite (body_fail _ _ _ _ s e) by done.
      by apply world_grows_attempt_failed.
    + rewrite (body_abort _ _ _ _ s b) by done.
      by apply world_grows_attempt_aborted.
  - rewrite body_not_found by done. apply world_grows_refl.
Qed.

(** What every attempt keeps, the retrying loop keeps. *)
Lemma retrying_preserves {A} (R : World -> World -> Prop) (fn : M A) E :
  (forall w, R w w) ->
  (forall w1 w2 w3, R w1 w2 -> R w2 w3 -> R w1 w3) ->
  (forall w, R w (fn E w).2) ->
  (forall k w, R w (begin_attempt k w)) ->
  (forall k w, R w (backoff k w)) ->
  forall b k w, R w (retrying b k fn E w).2.
Proof.
  intros Hrefl Htrans Hfn Hev Hclk b.
  induction b as [|b IH]; intros k w; rewrite retrying_eq;
    pose proof (Hfn (begin_attempt k w)) as Hstep;
    assert (R w (fn E (begin_attempt k w)).2) as Hw
      by (eapply Htrans; [apply Hev|exact Hstep]);
    destruct (fn E (begin_attempt k w)) as [[a|e|b0] w1]; cbn [snd] in *; try done;
    destruct (stop_after_attempt 3 k); try done.
  eapply Htrans; [exact Hw|]. eapply Htrans; [|apply IH]. apply Hclk.
Qed.

Lemma world_grows_begin_attempt k w : world_grows w (begin_attempt k w).
Proof. apply world_grows_add_event. Qed.

Lemma world_grows_backoff k w : world_grows w (backoff k w).
Proof.
  unfold backoff. eapply world_grows_trans;
    [apply world_grows_add_event|apply world_grows_set_clock].
Qed.




Lemma world_grows_process_request E w sid rq :
  world_grows w (process_request sid rq E w).2.
Proof.
  rewrite process_request_eq.
  apply (retrying_preserves world_grows).
  - apply world_grows_refl.
  - apply world_grows_trans.
  - intros w0. apply world_grows_body.
  - apply world_grows_begin_attempt.
  - apply world_grows_backoff.
Qed.

(** X1: whatever the provider does, [process_request] neither adds nor removes
    a session; every session keeps its id, owner, system prompt and creation
    time, and its old history is a prefix of its new one; the limits, the
    shutdown flag and the session counters of [stats] are untouched; the
    request and error counters are not lowered; no id is drawn and no stream
    is opened (see [world_grows]). *)
Theorem process_request_keeps_store E w sid rq :
  world_grows w (process_request sid rq E w).2
  /\ n_stream (process_request sid rq E w).2 = n_stream w.
Proof.
  split; [apply world_grows_process_request|].
  - rewrite process_request_eq.
    apply (retrying_preserves (fun w1 w2 => n_stream w2 = n_stream w1)); try done.
    + intros; congruence.
    + intros w0. destruct (sessions (mgr w0) !! sid) as [s|] eqn:Hs.
      * destruct (create_result (env_create E (n_create w0))) as [resp|e|b] eqn:Hr.
        -- by rewrite (body_ok _ _ _ _ s resp) by done.
        -- by rewrite (body_fail _ _ _ _ s e) by done.
        -- by rewrite (body_abort _ _ _ _ s b) by done.
      * by rewrite body_not_found by done.
Qed.




(** X3: a [process_request] that returns has been answered by exactly one
    provider call, made during this request, however many attempts failed before: the
    result carries the joined text and the usage of that response and the
    length of the history after the call; the history ends with the assistant
    message; the session's usage has been updated once with that usage;
    [total_requests] has grown by 1 and [total_tokens] by the tokens of that
    response. *)
Theorem process_request_success_accounting E w sid rq s res :
  sessions (mgr w) !! sid = Some s ->
  (process_request sid rq E w).1 = Returned res ->
  let w' := (process_request sid rq E w).2 in
  exists resp s',
    (exists n, (n_create w <= n < n_create w')%nat
               /\ create_result (env_create E n) = Returned resp)
    /\ res_content res = extract_content (resp_content resp)
    /\ res_usage res = usage_dict (resp_usage resp)
    /\ sessions (mgr w') !! sid = Some s'
    /\ res_message_count res = Z.of_nat (length (message_history s'))
    /\ last (message_history s') = Some (Message "assistant" (res_content res))
    /\ token_usage s' = token_usage (update_token_usage (usage_dict (resp_usage resp)) s)
    /\ total_requests (stats (mgr w')) = total_requests (stats (mgr w)) + 1
    /\ total_tokens (stats (mgr w'))
       = total_tokens (stats (mgr w))
         + (input_tokens (resp_usage resp) + output_tokens (resp_usage resp)).
Proof.
  intros Hs Hres w'. subst w'. revert Hres. rewrite process_request_eq.
  assert (Hfin : forall (h : list message) (a b : message),
            last (h ++ [a; b]) = Some b /\ length (h ++ [a; b]) = (length h + 2)%nat).
  { intros h a b. split.
    - by rewrite (last_app h [a; b]).
    - rewrite length_app. cbn. lia. }
  destruct (create_result (env_create E (n_create w))) as [r1|e1|b1] eqn:H1.
  3:{ erewrite retrying_aborts by (by apply body_abort). discriminate. }
  { erewrite retrying_returns by (by apply body_ok).
    cbn [fst snd]. intros [= <-]. exists r1. eexists.
    split; [exists (n_create w); split; [cbn; lia|done]|].
    do 2 (split; [done|]). split; [cbn; apply lookup_insert_eq|].
    cbn. rewrite <- !app_assoc. cbn.
    destruct (Hfin (message_history s) (Message "user" (prompt rq))
                (Message "assistant" (extract_content (resp_content r1)))) as [-> ->].
    repeat split. }
  erewrite retrying_again; [|lia|by apply body_fail].
  destruct (create_result (env_create E (S (n_create w)))) as [r2|e2|b2] eqn:H2.
  3:{ erewrite retrying_aborts
        by (apply body_abort; [apply lookup_insert_eq|exact H2]).
      discriminate. }
  { erewrite retrying_returns
      by (apply body_ok; [apply lookup_insert_eq|exact H2]).
    cbn [fst snd]. intros [= <-]. exists r2. eexists.
    split; [exists (S (n_create w)); split; [cbn; lia|done]|].
    do 2 (split; [done|]). split; [cbn; apply lookup_insert_eq|].
    cbn. rewrite <- !app_assoc. cbn.
    destruct (Hfin (message_history s ++ [Message "user" (prompt rq)])
                (Message "user" (prompt rq))
                (Message "assistant" (extract_content (resp_content r2)))) as [Ha Hb].
    rewrite <- !app_assoc in Ha, Hb. cbn in Ha, Hb. rewrite Ha, Hb.
    rewrite length_app. cbn.
    repeat split; f_equal; lia. }
  erewrite retrying_again; [|lia|apply body_fail; [apply lookup_insert_eq|exact H2]].
  destruct (create_result (env_create E (S (S (n_create w))))) as [r3|e3|b3] eqn:H3.
  3:{ erewrite retrying_aborts
        by (apply body_abort; [apply lookup_insert_eq|exact H3]).
      discriminate. }
  { erewrite retrying_returns
      by (apply body_ok; [apply lookup_insert_eq|exact H3]).
    cbn [fst snd]. intros [= <-]. exists r3. eexists.
    split; [exists (S (S (n_create w))); split; [cbn; lia|done]|].
    do 2 (split; [done|]). split; [cbn; apply lookup_insert_eq|].
    cbn. rewrite <- !app_assoc. cbn.
    destruct (Hfin (message_history s ++ [Message "user" (prompt rq);
                                          Message "user" (prompt rq)])
                (Message "user" (prompt rq))
                (Message "assistant" (extract_content (resp_content r3)))) as [Ha Hb].
    rewrite <- !app_assoc in Ha, Hb. cbn in Ha, Hb. rewrite Ha, Hb.
    rewrite length_app. cbn.
    repeat split; f_equal; lia. }
  erewrite retrying_exhausted
    by (apply body_fail; [apply lookup_insert_eq|exact H3]).
  discriminate.
Qed.

Lemma grows_streamed now latency rq fragments u s :
  grows s (streamed now latency rq fragments u s).
Proof.
  unfold streamed. eapply grows_trans; [apply grows_user_turn|].
  eapply grows_trans; [apply grows_assistant_turn|apply grows_update_token_usage].
Qed.

Lemma yields_stream_events c fragments tail :
  yields ([EvStream c] ++ yield_events fragments ++ tail)
  = (sse <$> fragments) ++ yields tail.
Proof. cbn [app yields]. by rewrite yields_app, yields_yield_events. Qed.


Lemma world_grows_stream_response E w sid rq :
  world_grows w (stream_response sid rq E w).2
  /\ total_requests (stats (mgr (stream_response sid rq E w).2))
     = total_requests (stats (mgr w))
  /\ total_tokens (stats (mgr (stream_response sid rq E w).2))
     = total_tokens (stats (mgr w)).
Proof.
  destruct (sessions (mgr w) !! sid) as [s|] eqn:Hs;
    [|rewrite stream_not_found by done; split; [apply world_grows_refl|done]].
  destruct (text_stream_raises (env_stream E (n_stream w))) as [[e|b]|] eqn:He;
    [| |destruct (get_final_message (env_stream E (n_stream w))) as [u|e|b] eqn:Hu].
  - rewrite (stream_fail_run _ _ _ _ s e) by done. cbn [fst snd]. split; [|done].
    apply (world_grows_session _ _ sid s (user_turn (clock w) (prompt rq) s));
      try done; cbn; try lia.
    + apply grows_user_turn.
    + intros name. apply error_count_count_error.
    + by apply prefix_app_r.
  - rewrite (stream_abort_run _ _ _ _ s b) by done. cbn [fst snd]. split; [|done].
    apply (world_grows_session _ _ sid s (user_turn (clock w) (prompt rq) s));
      try done; cbn; try lia.
    + apply grows_user_turn.
    + by apply prefix_app_r.
  - rewrite (stream_ok_run _ _ _ _ s u) by done. cbn [fst snd]. split; [|done].
    apply (world_grows_session _ _ sid s
             (streamed (clock w) (stream_latency (env_stream E (n_stream w))) rq
                (text_stream (env_stream E (n_stream w))) u s));
      try done; cbn; try lia.
    + apply grows_streamed.
    + by apply prefix_app_r.
  - rewrite (stream_unaccounted_run _ _ _ _ s e) by done. cbn [fst snd].
    split; [|done].
    apply (world_grows_session _ _ sid s
             (assistant_turn (clock w + stream_latency (env_stream E (n_stream w)))
                (join (text_stream (env_stream E (n_stream w))))
                (user_turn (clock w) (prompt rq) s)));
      try done; cbn; try lia.
    + eapply grows_trans; [apply grows_user_turn|apply grows_assistant_turn].
    + intros name. apply error_count_count_error.
    + by apply prefix_app_r.
  - rewrite (stream_unaccounted_abort_run _ _ _ _ s b) by done. cbn [fst snd].
    split; [|done].
    apply (world_grows_session _ _ sid s
             (assistant_turn (clock w + stream_latency (env_stream E (n_stream w)))
                (join (text_stream (env_stream E (n_stream w))))
                (user_turn (clock w) (prompt rq) s)));
      try done; cbn; try lia.
    + eapply grows_trans; [apply grows_user_turn|apply grows_assistant_turn].
    + by apply prefix_app_r.
Qed.


(** X5: when the provider's stream delivers all its fragments but
    [get_final_message] then raises, the assistant message is already in the
    history: the session gains the user message and the assistant message
    with the joined text, its usage is not updated, the error is counted, and
    the generator yields the error event where the [DONE] sentinel would have
    been. *)
Theorem stream_response_final_message_failure E w sid rq s e :
  sessions (mgr w) !! sid = Some s ->
  text_stream_raises (env_stream E (n_stream w)) = None ->
  get_final_message (env_stream E (n_stream w)) = Raised e ->
  let fragments := text_stream (env_stream E (n_stream w)) in
  let r := stream_response sid rq E w in
  r.1 = Returned tt
  /\ (exists s',
        sessions (mgr r.2) !! sid = Some s'
        /\ message_history s'
           = message_history s
               ++ [Message "user" (prompt rq); Message "assistant" (join fragments)]
        /\ token_usage s' = token_usage s)
  /\ stats (mgr r.2) = count_error (type_name e) (stats (mgr w))
  /\ exists evs, trace r.2 = trace w ++ evs
                 /\ yields evs = (sse <$> fragments) ++ [error_event e].
Proof.
  intros Hs He Hu fragments r. subst r fragments.
  rewrite (stream_unaccounted_run _ _ _ _ s e) by done. cbn [fst snd].
  split; [done|]. split; [|split; [done|]].
  - eexists. split; [apply lookup_insert_eq|]. cbn. by rewrite <- app_assoc.
  - eexists. split; [reflexivity|]. by rewrite yields_stream_events.
Qed.

(** ** Deleting and creating *)

Lemma delete_session_absent E w sid :
  sessions (mgr w) !! sid = None ->
  delete_session sid E w = (Returned tt, w).
Proof.
  intros Hs. unfold delete_session. run_m.
  rewrite bool_decide_eq_false_2; [done|]. rewrite Hs. by intros [? ?].
Qed.

Lemma delete_session_present E w sid s :
  sessions (mgr w) !! sid = Some s ->
  delete_session sid E w
  = (Returned tt,
     MkWorld
       (MkManager (delete sid (sessions (mgr w)))
          (delitem_keys sid (session_keys (mgr w)))
          (max_concurrent_sessions (mgr w)) (session_timeout (mgr w))
          (is_shutting_down (mgr w))
          (set_active_sessions (Z.of_nat (size (delete sid (sessions (mgr w)))))
             (stats (mgr w))))
       (clock w) (n_uuid w) (n_create w) (n_stream w)
       (trace w ++ [EvLog "info" "Session deleted" [("session_id", PStr sid)]])).
Proof.
  intros Hs. unfold delete_session. run_m.
  rewrite bool_decide_eq_true_2 by (by rewrite Hs). run_m. reflexivity.
Qed.

(** X6: [delete_session] never raises.  For an id that is not in the store it
    changes nothing at all: no counter, no log line.  For a stored id it
    removes that session and no other, and sets [active_sessions] to the new
    size of the store, one less than before.  Deleting the same id again is
    the no-op. *)
Theorem delete_session_idempotent E w sid :
  let r := delete_session sid E w in
  r.1 = Returned tt
  /\ sessions (mgr r.2) = delete sid (sessions (mgr w))
  /\ (sessions (mgr w) !! sid = None -> r.2 = w)
  /\ (is_Some (sessions (mgr w) !! sid) ->
      len_sessions r.2 = len_sessions w - 1
      /\ active_sessions (stats (mgr r.2)) = len_sessions r.2)
  /\ delete_session sid E r.2 = (Returned tt, r.2).
Proof.
  intros r. subst r. destruct (sessions (mgr w) !! sid) as [s|] eqn:Hs.
  - rewrite (delete_session_present _ _ _ s) by done. cbn [fst snd mgr sessions].
    split; [done|]. split; [done|]. split; [done|]. split.
    + intros _. unfold len_sessions. cbn [mgr sessions stats set_active_sessions
        active_sessions].
      split; [|done]. rewrite map_size_delete, Hs.
      assert (size (sessions (mgr w)) <> 0%nat).
      { intros H0%map_size_empty_inv. by rewrite H0, lookup_empty in Hs. }
      lia.
    + apply delete_session_absent. cbn. apply lookup_delete_eq.
  - rewrite delete_session_absent by done. cbn [fst snd].
    split; [done|]. split; [by rewrite delete_id|]. split; [done|].
    split; [by intros [? ?]|]. by apply delete_session_absent.
Qed.

(** X7: what a [create_session] that returns has done.  The id returned is the
    one drawn from [uuid4]; under it the store holds a session of that owner
    and system prompt with an empty history, zero usage and both timestamps
    at the current clock reading; every other session of the store was
    there before, unchanged; [total_sessions] has grown by 1 and
    [active_sessions] is the size of the store.  A create that raises has
    raised the capacity error, has drawn no id and has left [total_sessions]
    alone. *)
Theorem create_session_inserts E w user_id system_prompt :
  let r := create_session user_id system_prompt E w in
  (forall sid0, r.1 = Returned sid0 ->
     sid0 = env_uuid4 E (n_uuid w)
     /\ sessions (mgr r.2) !! sid0
        = Some (MkSession sid0 user_id system_prompt (clock w) (clock w) []
                          (TokenUsage 0 0 0))
     /\ (forall sid s, sid <> sid0 -> sessions (mgr r.2) !! sid = Some s ->
                       sessions (mgr w) !! sid = Some s)
     /\ n_uuid r.2 = S (n_uuid w)
     /\ total_sessions (stats (mgr r.2)) = total_sessions (stats (mgr w)) + 1
     /\ active_sessions (stats (mgr r.2)) = len_sessions r.2)
  /\ (forall e, r.1 = Raised e ->
        e = capacity_error (max_concurrent_sessions (mgr w))
        /\ n_uuid r.2 = n_uuid w
        /\ total_sessions (stats (mgr r.2)) = total_sessions (stats (mgr w))).
Proof.
  intros r. subst r. rewrite create_session_run.
  assert (Hreap : forall sid s, sessions (mgr (reaped w)) !! sid = Some s ->
                                sessions (mgr w) !! sid = Some s).
  { intros sid s. unfold reaped. cbn [mgr sessions]. rewrite lookup_survivors.
    destruct (sessions (mgr w) !! sid); [|done]. by case_decide. }
  assert (Hts : total_sessions (stats (mgr (reaped w))) = total_sessions (stats (mgr w))).
  { unfold reaped. cbn [mgr stats]. by destruct (expired_ids _ _ _). }
  assert (Hins : forall w0 sid0,
            n_uuid w0 = n_uuid w -> clock w0 = clock w ->
            total_sessions (stats (mgr w0)) = total_sessions (stats (mgr w)) ->
            (forall sid s, sessions (mgr w0) !! sid = Some s ->
                           sessions (mgr w) !! sid = Some s) ->
            Returned (env_uuid4 E (n_uuid w)) = Returned sid0 ->
            sid0 = env_uuid4 E (n_uuid w)
            /\ sessions (mgr (inserted user_id system_prompt E w0)) !! sid0
               = Some (MkSession sid0 user_id system_prompt (clock w) (clock w) []
                                 (TokenUsage 0 0 0))
            /\ (forall sid s, sid <> sid0 ->
                  sessions (mgr (inserted user_id system_prompt E w0)) !! sid = Some s ->
                  sessions (mgr w) !! sid = Some s)
            /\ n_uuid (inserted user_id system_prompt E w0) = S (n_uuid w)
            /\ total_sessions (stats (mgr (inserted user_id system_prompt E w0)))
               = total_sessions (stats (mgr w)) + 1
            /\ active_sessions (stats (mgr (inserted user_id system_prompt E w0)))
               = len_sessions (inserted user_id system_prompt E w0)).
  { intros w0 sid0 Hn Hc Ht Hw0 [= <-]. unfold inserted, len_sessions, fresh_session.
    cbn. rewrite Hn, Hc, Ht. split; [done|]. split; [apply lookup_insert_eq|].
    split; [|done]. intros sid s Hne. rewrite lookup_insert_ne by done. apply Hw0. }
  destruct (bool_decide (len_sessions w >= max_concurrent_sessions (mgr w))).
  - destruct (bool_decide (len_sessions (reaped w) >= max_concurrent_sessions (mgr w)));
      cbn [fst snd].
    + split; [done|]. intros e [= <-]. done.
    + split; [|done]. intros sid0. by apply Hins.
  - cbn [fst snd]. split; [|done]. intros sid0. by apply Hins.
Qed.

(** X8: create then delete is a round trip on the store: when there is room
    and the id drawn is not already in the store, deleting the session just
    created leaves the sessions exactly as they were before the create. *)
Theorem create_delete_roundtrip E w user_id system_prompt :
  len_sessions w < max_concurrent_sessions (mgr w) ->
  sessions (mgr w) !! env_uuid4 E (n_uuid w) = None ->
  let w1 := run (create_session user_id system_prompt) E w in
  let w2 := run (delete_session (env_uuid4 E (n_uuid w))) E w1 in
  sessions (mgr w2) = sessions (mgr w)
  /\ active_sessions (stats (mgr w2)) = len_sessions w
  /\ total_sessions (stats (mgr w2)) = total_sessions (stats (mgr w)) + 1.
Proof.
  intros Hlt Hnew w1 w2. subst w1 w2. unfold run.
  rewrite create_session_below by done. cbn [snd].
  erewrite delete_session_present by (cbn; apply lookup_insert_eq).
  cbn. unfold len_sessions. rewrite delete_insert_eq, delete_id by done. done.
Qed.

(** X9: with a limit of zero or less the store admits nothing: every
    [create_session] raises the capacity error, whatever the store holds. *)
Theorem create_session_no_capacity E w user_id system_prompt :
  max_concurrent_sessions (mgr w) <= 0 ->
  (create_session user_id system_prompt E w).1
  = Raised (capacity_error (max_concurrent_sessions (mgr w))).
Proof.
  intros Hmax. rewrite create_session_full; [done| |]; unfold len_sessions; lia.
Qed.

(** ** Reaping again, the background round, shutdown, statistics *)

Lemma expired_ids_nil now timeout (m : gmap string AgentSession) :
  (forall sid s, m !! sid = Some s -> ~ idle_exceeds now timeout s) ->
  expired_ids now timeout m = [].
Proof.
  intros Hall. destruct (expired_ids now timeout m) as [|k ids] eqn:Hids; [done|].
  assert (Hin : k ∈ expired_ids now timeout m) by (rewrite Hids; by left).
  apply elem_of_expired_ids in Hin as (s & Hs & Hexp). by destruct (Hall k s Hs).
Qed.

Lemma reaped_fixed w :
  (forall sid s, sessions (mgr w) !! sid = Some s ->
                 ~ idle_exceeds (clock w) (session_timeout (mgr w)) s) ->
  reaped w = w.
Proof.
  intros Hall. unfold reaped. rewrite expired_ids_nil by done.
  assert (survivors (clock w) (session_timeout (mgr w)) (sessions (mgr w))
          = sessions (mgr w)) as ->.
  { apply map_filter_id. intros sid s Hs. cbn. exact (Hall sid s Hs). }
  cbn. by rewrite !app_nil_r, manager_eta, world_eta.
Qed.

Lemma reaped_none_expired w sid s :
  sessions (mgr (reaped w)) !! sid = Some s ->
  ~ idle_exceeds (clock w) (session_timeout (mgr w)) s.
Proof.
  unfold reaped. cbn [mgr sessions]. rewrite lookup_survivors.
  destruct (sessions (mgr w) !! sid) as [s0|]; [|done].
  case_decide; [done|]. by intros [= <-].
Qed.

(** X10: a reap pass leaves no session idle beyond the timeout, and a second
    pass at the same clock reading changes nothing: no session goes, no
    counter moves, no line is logged. *)
Theorem reap_pass_idempotent E E' w :
  let w1 := run _cleanup_expired_sessions_sync E w in
  (forall sid s, sessions (mgr w1) !! sid = Some s ->
                 clock w1 - last_activity s <= session_timeout (mgr w1))
  /\ _cleanup_expired_sessions_sync E' w1 = (Returned PNone, w1).
Proof.
  intros w1. subst w1. unfold run. rewrite !cleanup_sync_run. cbn [snd].
  split.
  - intros sid s Hs. apply (reaped_none_expired w sid s) in Hs.
    unfold idle_exceeds in Hs.
    change (clock (reaped w)) with (clock w).
    change (session_timeout (mgr (reaped w))) with (session_timeout (mgr w)). lia.
  - f_equal. apply reaped_fixed. intros sid s Hs.
    by apply (reaped_none_expired w sid s).
Qed.


Lemma shutdown_run E w :
  shutdown E w
  = (Returned tt,
     MkWorld
       (MkManager ∅ [] (max_concurrent_sessions (mgr w)) (session_timeout (mgr w))
          true (stats (mgr w)))
       (clock w) (n_uuid w) (n_create w) (n_stream w)
       (trace w ++
          [EvLog "info" "Starting graceful shutdown..." [];
           EvLog "info" "All sessions closed" [("count", PInt (len_sessions w))];
           EvLog "info" "Shutdown complete" []])).
Proof.
  unfold shutdown. run_m. unfold add_event, set_mgr, set_sessions,
    set_is_shutting_down, len_sessions. cbn. by rewrite <- !app_assoc.
Qed.

(** X12: [shutdown] always returns; afterwards the store is empty, the flag is
    raised, [is_ready] answers false and a background round does nothing.
    The number of sessions dropped goes to the log.  [stats] is left as it
    was, so its [active_sessions] entry still shows the size of the store
    before the shutdown.  Nothing else looks at the flag: a [process_request]
    for any id ends in the "Session not found" [RetryError], and a
    [create_session] is still served when the limit is positive. *)
Theorem shutdown_effect E w :
  let r := shutdown E w in
  r.1 = Returned tt
  /\ sessions (mgr r.2) = ∅
  /\ is_shutting_down (mgr r.2) = true
  /\ stats (mgr r.2) = stats (mgr w)
  /\ (exists pre post,
        trace r.2
        = pre ++ [EvLog "info" "All sessions closed" [("count", PInt (len_sessions w))]]
              ++ post)
  /\ is_ready E r.2 = (Returned false, r.2)
  /\ (forall cancelled, cleanup_round cancelled E r.2 = (Returned tt, r.2))
  /\ (forall sid rq,
        (process_request sid rq E r.2).1 = Raised (RetryError (not_found_error sid)))
  /\ (forall user_id system_prompt,
        0 < max_concurrent_sessions (mgr w) ->
        (create_session user_id system_prompt E r.2).1
        = Returned (env_uuid4 E (n_uuid w))).
Proof.
  intros r. subst r. rewrite shutdown_run. cbn [fst snd].
  split; [done|]. split; [done|]. split; [done|]. split; [done|].
  split.
  { exists (trace w ++ [EvLog "info" "Starting graceful shutdown..." []]),
           [EvLog "info" "Shutdown complete" []].
    cbn. by rewrite <- !app_assoc. }
  split; [done|]. split; [done|]. split.
  - intros sid rq. rewrite process_request_unknown_run; [done|]. apply lookup_empty.
  - intros user_id system_prompt Hmax. rewrite create_session_below; [done|].
    unfold len_sessions. cbn. rewrite map_size_empty. lia.
Qed.

(** *** The insertion order of the store *)












(** *** get_stats *)





Lemma world_grows_size w w' :
  world_grows w w' -> len_sessions w' = len_sessions w.
Proof.
  intros (Hsome & Hnone & _). unfold len_sessions. f_equal.
  rewrite <- !size_dom. f_equal. apply set_eq. intros k. rewrite !elem_of_dom.
  split.
  - intros [x Hx]. destruct (sessions (mgr w) !! k) eqn:Hk; [by eexists|].
    by rewrite (Hnone k Hk) in Hx.
  - intros [x Hx]. destruct (Hsome k x Hx) as (x' & -> & _). by eexists.
Qed.

Lemma store_ok_grows limit timeout w w' :
  world_grows w w' -> store_ok limit timeout w -> store_ok limit timeout w'.
Proof.
  intros Hg (?&?&?&?&?&?). pose proof (world_grows_size _ _ Hg) as Hsz.
  destruct Hg as (_&_&?&?&?&?&?&_).
  unfold store_ok. rewrite Hsz. repeat split; congruence.
Qed.

Lemma store_ok_reaped limit timeout w :
  store_ok limit timeout w -> store_ok limit timeout (reaped w).
Proof.
  intros (?&?&?&?&Hact&?).
  pose proof (expired_survivors_size (clock w) (session_timeout (mgr w))
                (sessions (mgr w))) as Hsz.
  unfold store_ok, len_sessions, reaped in *. cbn [mgr sessions stats
    max_concurrent_sessions session_timeout is_shutting_down].
  destruct (expired_ids _ _ _) as [|k ids]; cbn in Hsz |- *.
  - rewrite Hsz. done.
  - repeat split; try done; lia.
Qed.

Lemma store_ok_inserted limit timeout user_id system_prompt E w :
  store_ok limit timeout w -> len_sessions w < limit ->
  store_ok limit timeout (inserted user_id system_prompt E w).
Proof.
  intros (?&?&?&?&?&?) Hlt.
  pose proof (len_inserted user_id system_prompt E w) as Hlen.
  unfold store_ok. repeat split; try done; try lia.
  cbn [inserted mgr stats total_sessions set_active_sessions add_total_sessions].
  lia.
Qed.

Lemma store_ok_frame limit timeout w w' :
  mgr w' = mgr w -> store_ok limit timeout w -> store_ok limit timeout w'.
Proof. unfold store_ok, len_sessions. by intros ->. Qed.

Lemma store_ok_step limit timeout E w o :
  store_ok limit timeout w -> store_ok limit timeout (step E w o).
Proof.
  intros Hok. destruct o as [u sp|sid rq|sid rq|sid| |d]; cbn [step]; unfold run.
  - rewrite create_session_run.
    destruct Hok as (Hmax & Hrest). rewrite Hmax.
    assert (Hok : store_ok limit timeout w) by (by split).
    case_bool_decide as H1; [case_bool_decide as H2|]; cbn [snd].
    + by apply store_ok_reaped.
    + apply store_ok_inserted; [by apply store_ok_reaped|lia].
    + apply store_ok_inserted; [done|lia].
  - eapply store_ok_grows; [|done]. apply world_grows_process_request.
  - eapply store_ok_grows; [|done]. apply world_grows_stream_response.
  - destruct (sessions (mgr w) !! sid) as [s|] eqn:Hs.
    + rewrite (delete_session_present _ _ _ s) by done.
      destruct Hok as (?&?&?&?&?&?). unfold store_ok, len_sessions in *.
      cbn [snd mgr sessions stats set_active_sessions total_sessions
           active_sessions max_concurrent_sessions session_timeout is_shutting_down].
      rewrite map_size_delete, Hs. repeat split; try done; lia.
    + by rewrite delete_session_absent.
  - unfold cleanup_round. run_m. pose proof Hok as (_ & _ & Hflag & _).
    rewrite Hflag. run_m. rewrite cleanup_sync_run. cbn [snd].
    apply store_ok_reaped. by apply (store_ok_frame _ _ w).
  - by eapply store_ok_frame.
Qed.

(** X14: in every world the manager reaches from its construction with a
    limit that is not negative, whatever the calls and the environment: the
    store holds at most [max_concurrent_sessions] sessions, the
    [active_sessions] counter equals the size of the store, and the store is
    never larger than [total_sessions]; the limit and the timeout are the
    ones given to the constructor. *)
Theorem reachable_store_invariants E limit timeout t0 ops :
  0 <= limit ->
  let w := run_ops E (initial_world limit timeout t0) ops in
  max_concurrent_sessions (mgr w) = limit
  /\ session_timeout (mgr w) = timeout
  /\ len_sessions w <= limit
  /\ active_sessions (stats (mgr w)) = len_sessions w
  /\ len_sessions w <= total_sessions (stats (mgr w)).
Proof.
  intros Hlimit w.
  assert (Hok : store_ok limit timeout w).
  { subst w. induction ops as [|o ops IH] using rev_ind.
    - unfold store_ok, len_sessions. cbn. rewrite map_size_empty.
      repeat split; try done; lia.
    - rewrite run_ops_snoc. by apply store_ok_step. }
  destruct Hok as (?&?&?&?&?&?). done.
Qed.

Lemma counters_le_refl w : counters_le w w.
Proof. unfold counters_le. repeat split; lia. Qed.

Lemma counters_le_trans w1 w2 w3 :
  counters_le w1 w2 -> counters_le w2 w3 -> counters_le w1 w3.
Proof.
  intros (?&?&?&He) (?&?&?&He'). repeat split; try lia.
  intros name. specialize (He name). specialize (He' name). lia.
Qed.

Lemma counters_le_frame w w' :
  stats (mgr w') = stats (mgr w) -> counters_le w w'.
Proof. unfold counters_le. intros ->. repeat split; lia. Qed.

Lemma counters_le_reaped w : counters_le w (reaped w).
Proof.
  unfold counters_le, reaped. cbn [mgr stats].
  destruct (expired_ids _ _ _); repeat split; try apply Z.le_refl;
    intros; apply Z.le_refl.
Qed.

Lemma counters_le_inserted user_id system_prompt E w :
  counters_le w (inserted user_id system_prompt E w).
Proof.
  unfold counters_le, inserted.
  cbn [mgr stats set_active_sessions add_total_sessions total_requests
       total_tokens total_sessions].
  repeat split; try lia. intros name. apply Z.le_refl.
Qed.

Lemma counters_le_body E w sid rq :
  env_nonneg E -> counters_le w (process_request_body sid rq E w).2.
Proof.
  intros [Hnn _]. destruct (sessions (mgr w) !! sid) as [s|] eqn:Hs.
  - destruct (create_result (env_create E (n_create w))) as [resp|e|b] eqn:Hr.
    + rewrite (body_ok _ _ _ _ s resp) by done. apply Hnn in Hr.
      unfold counters_le, attempt_succeeded, tokens_of.
      cbn [snd mgr stats add_total_tokens add_total_requests total_requests
           total_tokens total_sessions].
      repeat split; try lia. intros name. apply Z.le_refl.
    + rewrite (body_fail _ _ _ _ s e) by done.
      unfold counters_le, attempt_failed.
      cbn [snd mgr stats count_error total_requests total_tokens total_sessions].
      repeat split; try lia. intros name. apply error_count_count_error.
    + rewrite (body_abort _ _ _ _ s b) by done. by apply counters_le_frame.
  - rewrite body_not_found by done. apply counters_le_refl.
Qed.

(** X15: the lifetime counters only grow.  Over any call or background round,
    [total_requests], [total_sessions] and every error counter are at least
    what they were, and so is [total_tokens] when the provider reports no
    negative token counts. *)
Theorem counters_never_decrease E w o :
  env_nonneg E -> counters_le w (step E w o).
Proof.
  intros Hnn. destruct o as [u sp|sid rq|sid rq|sid| |d]; cbn [step]; unfold run.
  - rewrite create_session_run.
    case_bool_decide; [case_bool_decide|]; cbn [snd].
    + apply counters_le_reaped.
    + eapply counters_le_trans; [apply counters_le_reaped|apply counters_le_inserted].
    + apply counters_le_inserted.
  - rewrite process_request_eq. apply (retrying_preserves counters_le).
    + apply counters_le_refl.
    + apply counters_le_trans.
    + intros w0. by apply counters_le_body.
    + intros k w0. by apply counters_le_frame.
    + intros k w0. by apply counters_le_frame.
  - destruct (world_grows_stream_response E w sid rq) as (Hg & Hreq & Htok).
    destruct Hg as (_&_&_&_&_&_&Hts&_&Herr&_).
    unfold counters_le. repeat split; try lia. exact Herr.
  - destruct (sessions (mgr w) !! sid) as [s|] eqn:Hs.
    + rewrite (delete_session_present _ _ _ s) by done. unfold counters_le.
      cbn [snd mgr stats set_active_sessions total_requests total_tokens
           total_sessions].
      repeat split; try lia. intros name. apply Z.le_refl.
    + rewrite delete_session_absent by done. apply counters_le_refl.
  - unfold cleanup_round. run_m. destruct (is_shutting_down (mgr w)).
    + apply counters_le_refl.
    + run_m. rewrite cleanup_sync_run. cbn [snd].
      eapply counters_le_trans; [|apply counters_le_reaped]. by apply counters_le_frame.
  - by apply counters_le_frame.
Qed.

(** X16: histories are append-only and identities fixed.  Over any call or
    background round, a session that is in the store before and after it
    under the same id (a create not having drawn that id again) keeps its id,
    owner, system prompt and creation time, and its history before is a
    prefix of its history after. *)
Theorem history_append_only E w o sid s s' :
  sessions (mgr w) !! sid = Some s ->
  sessions (mgr (step E w o)) !! sid = Some s' ->
  (forall u sp, o = OpCreate u sp -> env_uuid4 E (n_uuid w) <> sid) ->
  grows s s'.
Proof.
  intros Hs Hs' Hfresh.
  assert (Hreap : forall x, sessions (mgr (reaped w)) !! sid = Some x -> x = s).
  { intros x. unfold reaped. cbn [mgr sessions]. rewrite lookup_survivors, Hs.
    case_decide; [done|]. by intros [= <-]. }
  assert (Hsame : s' = s -> grows s s') by (intros ->; apply grows_refl).
  assert (Hgrow : forall w', world_grows w w' -> sessions (mgr w') !! sid = Some s' ->
                             grows s s').
  { intros w' (Hsome & _) Hx. destruct (Hsome sid s Hs) as (x & Hx' & Hg). congruence. }
  destruct o as [u sp|sid0 rq|sid0 rq|sid0| |d]; cbn [step] in Hs'; unfold run in Hs'.
  - specialize (Hfresh u sp eq_refl). rewrite create_session_run in Hs'.
    apply Hsame. revert Hs'.
    case_bool_decide; [case_bool_decide|]; cbn [snd]; unfold inserted;
      cbn [mgr sessions]; rewrite ?lookup_insert_ne by done.
    + by intros ?%Hreap.
    + by intros ?%Hreap.
    + congruence.
  - eapply Hgrow; [|exact Hs']. apply world_grows_process_request.
  - eapply Hgrow; [|exact Hs']. apply world_grows_stream_response.
  - destruct (delete_session_run E w sid0) as (Hm & _). unfold run in Hm.
    rewrite Hm in Hs'. apply lookup_delete_Some in Hs' as [_ Hx].
    apply Hsame. congruence.
  - revert Hs'. unfold cleanup_round. run_m. destruct (is_shutting_down (mgr w)).
    + cbn. intros. apply Hsame. congruence.
    + run_m. rewrite cleanup_sync_run. cbn. rewrite lookup_survivors, Hs.
      case_decide; [done|]. intros [= <-]. apply grows_refl.
  - cbn in Hs'. apply Hsame. congruence.
Qed.

(** ** Timestamps *)










(** ** What the provider is asked *)

Lemma or_list_default {A} (a : option (list A)) : or_list a = default [] a.
Proof. by destruct a as [[|x l]|]. Qed.

(** X18: the request sent to the provider.  For a stored session, the first
    completion call of [process_request] and the stream opened by
    [stream_response] carry the history with the new user message appended,
    the token limit and temperature of the request, and as system prompt the
    request's own if it is set and not empty, else the session's if it is
    set and not empty, else the default text; the completion call carries
    the request's tools, or the empty list, and the stream carries none. *)
Theorem provider_payload E w sid rq s :
  sessions (mgr w) !! sid = Some s ->
  let session_level :=
    match system_prompt s with
    | Some y => if bool_decide (y = "") then "You are a helpful AI assistant." else y
    | None => "You are a helpful AI assistant."
    end in
  let system :=
    match req_system_prompt rq with
    | Some x => if bool_decide (x = "") then session_level else x
    | None => session_level
    end in
  let messages := message_history s ++ [Message "user" (prompt rq)] in
  (exists rest,
     trace (process_request sid rq E w).2
     = trace w ++ EvAttempt 1
         :: EvCreate (MkCall (max_tokens rq) (temperature rq) system messages
                             (Some (default [] (tools rq))))
         :: rest)
  /\ (exists rest,
        trace (stream_response sid rq E w).2
        = trace w ++ EvStream (MkCall (max_tokens rq) (temperature rq) system
                                      messages None)
            :: rest).
Proof.
  intros Hs session_level system messages.
  assert (Hcall : request_call rq (user_turn (clock w) (prompt rq) s)
                  = MkCall (max_tokens rq) (temperature rq) system messages
                           (Some (default [] (tools rq)))).
  { unfold request_call. by rewrite or_list_default. }
  split.
  - rewrite process_request_eq, retrying_eq.
    destruct (create_result (env_create E (n_create w))) as [resp|e|b] eqn:Hr.
    + rewrite (body_ok _ _ _ _ s resp) by done.
      unfold attempt_succeeded, begin_attempt, add_event. cbn [snd trace clock].
      rewrite Hcall. eexists. rewrite <- app_assoc. reflexivity.
    + rewrite (body_fail _ _ _ _ s e) by done.
      change (stop_after_attempt 3 1) with false. cbn [snd].
      pose proof (retrying_preserves world_grows (process_request_body sid rq) E
                    world_grows_refl world_grows_trans
                    (fun w0 => world_grows_body E w0 sid rq)
                    world_grows_begin_attempt world_grows_backoff 2 2
                    (backoff 1 (attempt_failed sid rq s e
                                  (create_latency (env_create E (n_create (begin_attempt 1 w))))
                                  (begin_attempt 1 w))))
        as (_&_&_&_&_&_&_&_&_&_&_&_&[k Hk]).
      rewrite Hk. unfold backoff, set_clock, attempt_failed, begin_attempt, add_event.
      cbn [trace clock]. rewrite Hcall.
      eexists. rewrite <- !app_assoc. reflexivity.
    + rewrite (body_abort _ _ _ _ s b) by done.
      unfold attempt_aborted, begin_attempt, add_event. cbn [snd trace clock].
      rewrite Hcall. eexists. rewrite <- app_assoc. reflexivity.
  - destruct (text_stream_raises (env_stream E (n_stream w))) as [[e|b]|] eqn:He;
      [| |destruct (get_final_message (env_stream E (n_stream w))) as [u|e|b] eqn:Hu].
    + rewrite (stream_fail_run _ _ _ _ s e) by done. eexists. reflexivity.
    + rewrite (stream_abort_run _ _ _ _ s b) by done. eexists. reflexivity.
    + rewrite (stream_ok_run _ _ _ _ s u) by done. eexists. reflexivity.
    + rewrite (stream_unaccounted_run _ _ _ _ s e) by done. eexists. reflexivity.
    + rewrite (stream_unaccounted_abort_run _ _ _ _ s b) by done.
      eexists. reflexivity.
Qed.

(** ** The endpoints *)








Lemma chat_create_fails rq E sv e w1 :
  create_session (req_user_id rq) (req_system_prompt rq) E
    (add_event (EvLog "info" "Agent chat request"
                  [("user_id", PStr (req_user_id rq));
                   ("prompt_length", PInt (Z.of_nat (String.length (prompt rq))))])
               (agent_manager sv))
  = (Raised e, w1) ->
  (chat rq E sv).1 = Raised (http_exception 500 (str e))
  /\ mgr (agent_manager (chat rq E sv).2) = mgr w1
  /\ n_create (agent_manager (chat rq E sv).2) = n_create w1.
Proof.
  intros Hc. unfold chat. run_s. rewrite Hc. run_s. done.
Qed.

(** X20: a chat against a full store is refused.  When the store holds as
    many sessions as the limit and none is idle beyond the timeout, [chat]
    raises the [HTTPException] with status 500 whose detail is the capacity
    message with the limit; the store is as it was and the provider has not
    been called. *)
Theorem chat_refused_when_full rq E sv :
  let w := agent_manager sv in
  len_sessions w >= max_concurrent_sessions (mgr w) ->
  (forall sid s, sessions (mgr w) !! sid = Some s ->
                 clock w - last_activity s <= session_timeout (mgr w)) ->
  let r := chat rq E sv in
  r.1 = Raised (http_exception 500
                  ("Maximum concurrent sessions reached: "
                     +:+ pretty (max_concurrent_sessions (mgr w))))
  /\ mgr (agent_manager r.2) = mgr w
  /\ n_create (agent_manager r.2) = n_create w
  /\ n_stream (agent_manager r.2) = n_stream w.
Proof.
  intros w Hfull Hidle r. subst r.
  set (w0 := add_event (EvLog "info" "Agent chat request"
                  [("user_id", PStr (req_user_id rq));
                   ("prompt_length", PInt (Z.of_nat (String.length (prompt rq))))])
               (agent_manager sv)).
  assert (Hfix : reaped w0 = w0).
  { apply reaped_fixed. intros sid s Hs Hexp. unfold idle_exceeds in Hexp.
    specialize (Hidle sid s Hs). cbn in Hexp. fold w in Hexp. lia. }
  assert (Hc : create_session (req_user_id rq) (req_system_prompt rq) E w0
               = (Raised (capacity_error (max_concurrent_sessions (mgr w))), w0)).
  { rewrite create_session_full; [by rewrite Hfix|done|by rewrite Hfix]. }
  destruct (chat_create_fails rq E sv _ _ Hc) as (Hr & Hm & Hn).
  split; [exact Hr|]. split; [by rewrite Hm|]. split; [by rewrite Hn|].
  unfold chat. run_s. fold w0. rewrite Hc. run_s. done.
Qed.

Lemma chat_created rq E sv :
  let w0 := add_event (EvLog "info" "Agent chat request"
                  [("user_id", PStr (req_user_id rq));
                   ("prompt_length", PInt (Z.of_nat (String.length (prompt rq))))])
               (agent_manager sv) in
  forall sid w1,
    create_session (req_user_id rq) (req_system_prompt rq) E w0 = (Returned sid, w1) ->
    sid = env_uuid4 E (n_uuid (agent_manager sv))
    /\ sessions (mgr w1) !! sid
       = Some (fresh_session sid (req_user_id rq) (req_system_prompt rq)
                 (clock (agent_manager sv))).
Proof.
  intros w0 sid w1. rewrite create_session_run.
  case_bool_decide; [case_bool_decide|]; intros [= <- <-]; split; try done;
    cbn; apply lookup_insert_eq.
Qed.

(** X21: [chat] never deletes the session it creates.  After a chat that
    returns, plain or streaming, the session named in the reply is in the
    store under the id drawn for it, with the owner and the system prompt
    of the request and the creation time of the call: each chat leaves one
    more session for the reaper. *)
Theorem chat_session_stays rq E sv reply :
  (chat rq E sv).1 = Returned reply ->
  let sid := match reply with
             | Reply response => ar_session_id response
             | StreamingResponse sid _ => sid
             end in
  sid = env_uuid4 E (n_uuid (agent_manager sv))
  /\ exists s,
       sessions (mgr (agent_manager (chat rq E sv).2)) !! sid = Some s
       /\ session_id s = sid
       /\ user_id s = req_user_id rq
       /\ system_prompt s = req_system_prompt rq
       /\ created_at s = clock (agent_manager sv)
       /\ (stream rq = true -> message_history s = []).
Proof.
  pose proof (chat_created rq E sv) as Hcreated. cbv zeta in Hcreated.
  unfold chat. run_s.
  destruct (create_session (req_user_id rq) (req_system_prompt rq) E _)
    as [[sid0|e|b] w1] eqn:Hc; [|run_s; discriminate|run_s; discriminate].
  destruct (Hcreated sid0 w1 eq_refl) as [Hsid Hs0].
  run_s. destruct (stream rq) eqn:Hstream.
  - run_s. intros [= <-]. cbn. split; [done|]. eexists. split; [exact Hs0|]. done.
  - run_s.
    destruct (world_grows_process_request E w1 sid0 rq) as (Hsome & _).
    destruct (Hsome sid0 _ Hs0) as (s & Hs & Hid & Hu & Hsp & Hca & _).
    destruct (process_request sid0 rq E w1) as [[res|e|b] w2];
      [|run_s; discriminate|run_s; discriminate].
    run_s. cbn [snd] in Hs.
    destruct (bool_decide (dict_get (res_usage res) "input_tokens" 0 < 0));
      [run_s; discriminate|].
    run_s.
    destruct (bool_decide (dict_get (res_usage res) "output_tokens" 0 < 0));
      [run_s; discriminate|].
    run_s. intros [= <-]. cbn. split; [done|]. exists s. done.
Qed.

(** X22: a chat whose provider fails.  With room in the store and a provider
    that raises in the three attempts made for the request, a plain chat
    raises the [HTTPException] with status 500 around the text of tenacity's
    [RetryError]; the error is counted under "RetryError" and not under the
    class of the provider's error; the session created for the request stays
    in the store, with the prompt three times in its history and no usage. *)
Theorem chat_provider_failure rq E sv e1 e2 e3 :
  let w := agent_manager sv in
  len_sessions w < max_concurrent_sessions (mgr w) ->
  stream rq = false ->
  create_result (env_create E (n_create w)) = Raised e1 ->
  create_result (env_create E (S (n_create w))) = Raised e2 ->
  create_result (env_create E (S (S (n_create w)))) = Raised e3 ->
  let r := chat rq E sv in
  r.1 = Raised (http_exception 500 (str (RetryError e3)))
  /\ default 0 (ERRORS_TOTAL (metrics r.2) !! "RetryError")
     = default 0 (ERRORS_TOTAL (metrics sv) !! "RetryError") + 1
  /\ (forall name, name <> "RetryError" ->
        ERRORS_TOTAL (metrics r.2) !! name = ERRORS_TOTAL (metrics sv) !! name)
  /\ TOKEN_USAGE (metrics r.2) = TOKEN_USAGE (metrics sv)
  /\ n_create (agent_manager r.2) = (n_create w + 3)%nat
  /\ exists s,
       sessions (mgr (agent_manager r.2)) !! env_uuid4 E (n_uuid w) = Some s
       /\ user_id s = req_user_id rq
       /\ message_history s
          = [Message "user" (prompt rq); Message "user" (prompt rq);
             Message "user" (prompt rq)]
       /\ token_usage s = TokenUsage 0 0 0.
Proof.
  intros w Hroom Hstream H1 H2 H3 r. subst r. unfold chat. run_s.
  set (w0 := add_event _ (agent_manager sv)).
  rewrite (create_session_below E w0) by exact Hroom.
  run_s. rewrite Hstream. run_s.
  rewrite (process_request_exhausted_run E (inserted _ _ E w0) _ rq
             (fresh_session (env_uuid4 E (n_uuid w)) (req_user_id rq)
                (req_system_prompt rq) (clock w)) e1 e2 e3);
    [|apply lookup_insert_eq|exact H1|exact H2|exact H3].
  run_s. cbn [type_name].
  split; [done|]. split; [by rewrite lookup_insert_eq|].
  split; [intros name Hname; by rewrite lookup_insert_ne|].
  split; [done|]. split; [cbn; fold w; lia|].
  eexists. split; [cbn; apply lookup_insert_eq|]. done.
Qed.

(** X23: the delete endpoint answers "deleted" for every id.  It never
    raises, so its 500 branch is never taken; the store afterwards is the
    store without the id and the metrics are untouched.  For an id that is
    not stored the manager changes nothing, and the endpoint still writes its
    "Session deleted" line to the log. *)
Theorem delete_endpoint_always_deleted sid E sv :
  let r := delete_session_endpoint sid E sv in
  r.1 = Returned ("deleted", sid)
  /\ sessions (mgr (agent_manager r.2)) = delete sid (sessions (mgr (agent_manager sv)))
  /\ metrics r.2 = metrics sv
  /\ (sessions (mgr (agent_manager sv)) !! sid = None ->
      agent_manager r.2
      = add_event (EvLog "info" "Session deleted" [("session_id", PStr sid)])
                  (agent_manager sv)).
Proof.
  intros r. subst r. unfold delete_session_endpoint. run_s.
  destruct (sessions (mgr (agent_manager sv)) !! sid) as [s|] eqn:Hs.
  - rewrite (delete_session_present _ _ _ s) by done. run_s. done.
  - rewrite delete_session_absent by done. run_s.
    split; [done|]. split; [cbn; by rewrite delete_id|]. done.
Qed.

Lemma step_is_shutting_down E w o :
  is_shutting_down (mgr (step E w o)) = is_shutting_down (mgr w).
Proof.
  destruct o as [u sp|sid rq|sid rq|sid| |d]; cbn [step]; unfold run.
  - rewrite create_session_run. unfold reaped.
    case_bool_decide; [case_bool_decide|]; cbn [snd];
      try destruct (expired_ids _ _ _); done.
  - destruct (world_grows_process_request E w sid rq) as (_&_&_&_&Hf&_). exact Hf.
  - destruct (world_grows_stream_response E w sid rq) as ((_&_&_&_&Hf&_)&_).
    exact Hf.
  - destruct (sessions (mgr w) !! sid) as [s|] eqn:Hs.
    + by rewrite (delete_session_present _ _ _ s).
    + by rewrite delete_session_absent.
  - unfold cleanup_round. run_m.
    destruct (is_shutting_down (mgr w)) eqn:Hflag; [by run_m|].
    run_m. rewrite cleanup_sync_run. cbn [snd]. unfold reaped.
    destruct (expired_ids _ _ _); done.
  - done.
Qed.

(** X24: shutdown is permanent.  Whatever calls and background rounds follow
    a [shutdown], the flag stays raised: [is_ready] answers [False], the
    readiness endpoint raises its 503 and changes nothing, and a round of the
    background task does nothing, so no session admitted after the shutdown
    is ever reaped by it. *)
Theorem shutdown_is_permanent E w ops m :
  let w' := run_ops E (run shutdown E w) ops in
  is_shutting_down (mgr w') = true
  /\ is_ready E w' = (Returned false, w')
  /\ readiness E (MkServer w' m)
     = (Raised (http_exception 503 "Service not ready"), MkServer w' m)
  /\ step E w' OpCleanup = w'.
Proof.
  intros w'.
  assert (Hflag : is_shutting_down (mgr w') = true).
  { subst w'. induction ops as [|o ops IH] using rev_ind.
    - unfold run. by rewrite shutdown_run.
    - by rewrite run_ops_snoc, step_is_shutting_down. }
  split; [done|]. split; [|split].
  - unfold is_ready. run_m. by rewrite Hflag.
  - unfold readiness, is_ready. run_s. run_m. rewrite Hflag. by destruct w'.
  - cbn [step]. unfold run, cleanup_round. run_m. by rewrite Hflag.
Qed.

(** ** The further theorems at sample inputs *)


Lemma process_request_success_accounting_witness :
  let E := flaky_provider 1 in
  let w := run_ops E (initial_world 10 300 0) [OpCreate "user-123" None] in
  let r := process_request (sample_uuid 0) sample_request E w in
  r.1 = Returned (MkResult "Hello! How can I help?" (usage_dict (MkUsage 10 20)) 3)
  /\ total_requests (stats (mgr r.2)) = 1
  /\ total_tokens (stats (mgr r.2)) = 30.
Proof.
  intros E w r.
  assert (Hres : r.1 = Returned (MkResult "Hello! How can I help?"
                                   (usage_dict (MkUsage 10 20)) 3))
    by (vm_compute; reflexivity).
  destruct (process_request_success_accounting E w (sample_uuid 0) sample_request
              _ _ (one_session E) Hres)
    as (resp & s' & _ & _ & _ & _ & _ & _ & _ & Hreq & _).
  split; [exact Hres|]. split; [exact Hreq|].
  vm_compute. reflexivity.
Defined.

Lemma stream_response_final_message_failure_witness :
  let E := unaccounted_provider in
  let w := run_ops E (initial_world 10 300 0) [OpCreate "user-123" None] in
  let r := stream_response (sample_uuid 0) sample_request E w in
  r.1 = Returned tt
  /\ (exists s',
        sessions (mgr r.2) !! sample_uuid 0 = Some s'
        /\ message_history s' = [Message "user" "Hello"; Message "assistant" "Hello!"]
        /\ token_usage s' = TokenUsage 0 0 0)
  /\ exists evs, trace r.2 = trace w ++ evs
                 /\ yields evs = [sse "Hel"; sse "lo!"; error_event api_error].
Proof.
  intros E w r.
  destruct (stream_response_final_message_failure E w (sample_uuid 0)
              sample_request _ api_error (one_session E) eq_refl eq_refl)
    as (Hr & (s' & Hs' & Hh & Hu) & _ & Hev).
  split; [exact Hr|]. split; [|exact Hev].
  exists s'. split; [exact Hs'|]. split; [exact Hh|exact Hu].
Defined.

Lemma create_delete_roundtrip_witness :
  let E := working_provider in
  let w := initial_world 10 300 0 in
  let w1 := run (create_session "user-123" None) E w in
  let w2 := run (delete_session (sample_uuid 0)) E w1 in
  len_sessions w1 = 1
  /\ sessions (mgr w2) = ∅
  /\ total_sessions (stats (mgr w2)) = 1.
Proof.
  intros E w w1 w2.
  destruct (create_delete_roundtrip E w "user-123" None eq_refl eq_refl)
    as (Hs & _ & Ht).
  split; [reflexivity|]. split; [exact Hs|exact Ht].
Defined.

Lemma create_session_no_capacity_witness :
  (create_session "user-123" None working_provider (initial_world 0 300 0)).1
  = Raised (capacity_error 0).
Proof.
  apply (create_session_no_capacity working_provider (initial_world 0 300 0)
           "user-123" None).
  cbn. lia.
Defined.

Lemma reachable_store_invariants_witness :
  let w := run_ops working_provider (initial_world 1 300 0)
                   [OpCreate "A" None; OpCreate "B" None;
                    OpProcess (sample_uuid 0) sample_request] in
  len_sessions w <= 1
  /\ active_sessions (stats (mgr w)) = len_sessions w.
Proof.
  intros w.
  assert (Hlimit : 0 <= 1) by lia.
  destruct (reachable_store_invariants working_provider 1 300 0
              [OpCreate "A" None; OpCreate "B" None;
               OpProcess (sample_uuid 0) sample_request] Hlimit)
    as (_ & _ & Hlen & Hact & _).
  split; [exact Hlen|exact Hact].
Defined.

Lemma counters_never_decrease_witness :
  let E := working_provider in
  let w := run_ops E (initial_world 10 300 0) [OpCreate "user-123" None] in
  counters_le w (step E w (OpProcess (sample_uuid 0) sample_request)).
Proof.
  intros E w.
  exact (counters_never_decrease E w (OpProcess (sample_uuid 0) sample_request)
           working_provider_nonneg).
Defined.

Lemma history_append_only_witness :
  let E := working_provider in
  let w := run_ops E (initial_world 10 300 0) [OpCreate "user-123" None] in
  grows (fresh_session (sample_uuid 0) "user-123" None 0)
        (MkSession (sample_uuid 0) "user-123" None 0 1
           [Message "user" "Hello"; Message "assistant" "Hello! How can I help?"]
           (TokenUsage 10 20 30)).
Proof.
  intros E w.
  assert (Hs' : sessions (mgr (step E w (OpProcess (sample_uuid 0) sample_request)))
                  !! sample_uuid 0
                = Some (MkSession (sample_uuid 0) "user-123" None 0 1
                          [Message "user" "Hello";
                           Message "assistant" "Hello! How can I help?"]
                          (TokenUsage 10 20 30)))
    by (vm_compute; reflexivity).
  apply (history_append_only E w (OpProcess (sample_uuid 0) sample_request)
           (sample_uuid 0) _ _ (one_session E) Hs').
  intros u sp Ho. discriminate Ho.
Defined.


Lemma provider_payload_witness :
  let E := working_provider in
  let w := run_ops E (initial_world 10 300 0) [OpCreate "user-123" None] in
  exists rest,
    trace (process_request (sample_uuid 0) sample_request E w).2
    = trace w ++ EvAttempt 1
        :: EvCreate (MkCall 100 (Float 1 0) "You are a helpful AI assistant."
                            [Message "user" "Hello"] (Some []))
        :: rest.
Proof.
  intros E w.
  exact (proj1 (provider_payload E w (sample_uuid 0) sample_request _
                  (one_session E))).
Defined.

Lemma chat_refused_when_full_witness :
  let E := working_provider in
  let sv := MkServer (run_ops E (initial_world 1 300 0) [OpCreate "A" None; OpWait 300])
                     initial_metrics in
  (chat sample_request E sv).1
  = Raised (http_exception 500 "Maximum concurrent sessions reached: 1").
Proof.
  intros E sv.
  assert (Hfull : len_sessions (agent_manager sv)
                  >= max_concurrent_sessions (mgr (agent_manager sv)))
    by (vm_compute; discriminate).
  assert (Hm : sessions (mgr (agent_manager sv))
               = {[ sample_uuid 0 := fresh_session (sample_uuid 0) "A" None 0 ]})
    by (vm_compute; reflexivity).
  refine (proj1 (chat_refused_when_full sample_request E sv Hfull _)).
  intros sid s Hs. rewrite Hm in Hs.
  apply lookup_singleton_Some in Hs. destruct Hs as [_ <-].
  vm_compute. discriminate.
Defined.

Lemma chat_session_stays_witness :
  let E := working_provider in
  let sv := MkServer (initial_world 10 300 0) initial_metrics in
  exists s,
    sessions (mgr (agent_manager (chat sample_request E sv).2)) !! sample_uuid 0
    = Some s
    /\ user_id s = "user-123".
Proof.
  intros E sv.
  assert (Hr : (chat sample_request E sv).1
               = Returned (Reply (MkAgentResponse (sample_uuid 0)
                                    "Hello! How can I help?"
                                    (usage_dict (MkUsage 10 20)) "completed")))
    by (vm_compute; reflexivity).
  destruct (chat_session_stays sample_request E sv _ Hr)
    as (_ & s & Hs & _ & Hu & _).
  exists s. split; [exact Hs|exact Hu].
Defined.

Lemma chat_provider_failure_witness :
  let E := failing_provider in
  let sv := MkServer (initial_world 10 300 0) initial_metrics in
  let r := chat sample_request E sv in
  r.1 = Raised (http_exception 500 (str (RetryError api_error)))
  /\ ERRORS_TOTAL (metrics r.2) !! "RetryError" = Some 1
  /\ ERRORS_TOTAL (metrics r.2) !! "APIError" = None.
Proof.
  intros E sv r.
  destruct (chat_provider_failure sample_request E sv api_error api_error api_error
              eq_refl eq_refl eq_refl eq_refl eq_refl)
    as (Hr & _ & Hother & _).
  split; [exact Hr|]. split; [vm_compute; reflexivity|].
  unfold r. rewrite (Hother "APIError"); [reflexivity|discriminate].
Defined.





